(** * KeplerGL metro pipeline: a shallow embedding and its properties

    The repository turns a GTFS feed into one GeoJSON document per metro
    line, in two scripts:

    - [metro_bcn/create_dataframe.py] (the Feed Assembler) loads
      [trips.txt], [routes.txt], [stops.txt] and [stop_times.txt], parses
      the time columns, joins the four tables, keeps the rows whose
      [route_type] is 1, adds [arrival_time_int] and [elevation] and writes
      [metro_data.csv];
    - [metro_bcn/create_geojson_file.py] (the Line Geometry Builder) reads
      that table and writes one feature collection per [route_short_name],
      with one feature per trip.  [create_geojson_file.py] at the top of the
      repository is the older notebook form of the same loop.

    Both scripts are table manipulation on top of pandas.  The part of
    pandas they use is modelled in [Pandas]: a DataFrame is a header and a
    list of rows, a row maps column names to cells.  The file system and
    Python's exceptions are modelled in [Os]: a computation takes a world
    and returns a value or an exception together with the world it leaves.
    An [except] clause of the scripts logs and raises again, so it is the
    identity here; logging has no effect on tables or files and is left
    out. *)

From stdpp Require Import gmap strings.
From Stdlib Require Import ZArith QArith Qcanon List String Ascii Bool Lia Permutation.
Import ListNotations.

Local Open Scope string_scope.
Local Open Scope list_scope.
Local Open Scope Z_scope.

(** ** Exceptions and results *)

Inductive exn :=
| KeyError (name : string)
| ValueError (what : string)
| TypeError (what : string)
| AttributeError (name : string)
| OSError (path : string).

Inductive result (A : Type) :=
| Ok (a : A)
| Raise (e : exn).

Arguments Ok {A} a.
Arguments Raise {A} e.

Definition rbind {A B} (m : result A) (k : A -> result B) : result B :=
  match m with
  | Ok a => k a
  | Raise e => Raise e
  end.

Notation "'try' x <- m ; k" := (rbind m (fun x => k))
  (at level 10, x name, m at level 100, k at level 200).

Fixpoint traverse {A B} (f : A -> result B) (l : list A) : result (list B) :=
  match l with
  | [] => Ok []
  | a :: l' =>
      try b <- f a;
      try bs <- traverse f l';
      Ok (b :: bs)
  end.

Fixpoint foldM {A B} (f : B -> A -> result B) (l : list A) (b : B) : result B :=
  match l with
  | [] => Ok b
  | a :: l' => try b' <- f b a; foldM f l' b'
  end.

(** ** Python's conversions between text and numbers

    How Python reads a float from text, prints a number and prints a
    timestamp is outside the repository.  The scripts' results are stated for
    any such functions. *)
Record PyLib := {
  float_of_str : string -> option Qc;
  str_of_num : Qc -> string;
  str_of_stamp : Z -> string
}.

(** ** The part of pandas the scripts use

    What is kept of pandas: the cells, the header, the order of the rows,
    missing values, [KeyError] on an absent column, and the relational
    meaning of [merge], [dropna], [groupby] and [unique].  What is left out:
    the dtype of a column (a cell carries its own kind), the index, and the
    rendering of numbers as text.  The rows of an inner join are given in
    the documented order, that of the left table; older versions of pandas
    group them by key, which changes no statement below. *)

Module Pandas.

(** A cell of a table.  Integers and finite floats are kept by their exact
    value, so [1] and [1.0] are the same cell, as they are for pandas when it
    compares, joins or groups.  A timestamp is kept as whole seconds since
    1970-01-01T00:00:00: the only timestamps here come from [%H:%M:%S]. *)
Inductive cell :=
| NA
| Num (x : Qc)
| Str (s : string)
| Stamp (t : Z).

Definition is_na (v : cell) : bool :=
  match v with NA => true | _ => false end.

Definition cell_eqb (a b : cell) : bool :=
  match a, b with
  | NA, NA => true
  | Num x, Num y => Qeq_bool x y
  | Str s, Str t => String.eqb s t
  | Stamp s, Stamp t => Z.eqb s t
  | _, _ => false
  end.

(** [Series == scalar], element by element: a missing value equals nothing. *)
Definition elem_eq (v scalar : cell) : bool :=
  negb (is_na v) && cell_eqb v scalar.

(** The order pandas sorts group keys by: numbers before text. *)
Definition cell_rank (v : cell) : Z :=
  match v with Num _ => 0 | Stamp _ => 1 | Str _ => 2 | NA => 3 end.

Definition cell_leb (a b : cell) : bool :=
  match a, b with
  | Num x, Num y => Qle_bool x y
  | Stamp s, Stamp t => Z.leb s t
  | Str s, Str t => String.leb s t
  | _, _ => Z.leb (cell_rank a) (cell_rank b)
  end.

Fixpoint insert_sorted (k : cell) (l : list cell) : list cell :=
  match l with
  | [] => [k]
  | x :: l' => if cell_leb k x then k :: l else x :: insert_sorted k l'
  end.

Definition sort_cells (l : list cell) : list cell :=
  fold_right insert_sorted [] l.

Definition mem_cell (v : cell) (l : list cell) : bool := existsb (cell_eqb v) l.

Fixpoint unique_from (seen l : list cell) : list cell :=
  match l with
  | [] => []
  | v :: l' =>
      if mem_cell v seen then unique_from seen l'
      else v :: unique_from (v :: seen) l'
  end.

(** [Series.unique()]: first occurrences, in order; NaN counts as one value. *)
Definition unique (l : list cell) : list cell := unique_from [] l.

(** *** Rows *)

Definition row := list (string * cell).

Fixpoint row_get (c : string) (r : row) : option cell :=
  match r with
  | [] => None
  | (k, v) :: r' => if String.eqb k c then Some v else row_get c r'
  end.

Fixpoint row_set (c : string) (v : cell) (r : row) : row :=
  match r with
  | [] => [(c, v)]
  | (k, w) :: r' => if String.eqb k c then (k, v) :: r' else (k, w) :: row_set c v r'
  end.

Definition row_del (c : string) (r : row) : row :=
  filter (fun kv => negb (String.eqb (fst kv) c)) r.

Definition row_keys (r : row) : list string := map fst r.

(** The cell of a row under a column, missing when the row has none. *)
Definition cell_of (c : string) (r : row) : cell :=
  match row_get c r with
  | Some v => v
  | None => NA
  end.

Definition row_complete (r : row) : bool :=
  forallb (fun kv => negb (is_na (snd kv))) r.

(** *** DataFrames *)

Record DataFrame := { columns : list string; rows : list row }.

Definition mem_str (c : string) (l : list string) : bool := existsb (String.eqb c) l.

Fixpoint list_str_eqb (a b : list string) : bool :=
  match a, b with
  | [], [] => true
  | x :: a', y :: b' => String.eqb x y && list_str_eqb a' b'
  | _, _ => false
  end.

Fixpoint nodup_str (l : list string) : bool :=
  match l with
  | [] => true
  | c :: l' => negb (mem_str c l') && nodup_str l'
  end.

(** Every pandas table has distinct column names after [read_csv], and each
    of its rows has exactly the columns of the header. *)
Definition well_formed (df : DataFrame) : bool :=
  nodup_str (columns df) &&
  forallb (fun r => list_str_eqb (row_keys r) (columns df)) (rows df).

(** [df[c]]: the column as a list, [KeyError] when there is none. *)
Definition getcol (c : string) (df : DataFrame) : result (list cell) :=
  if mem_str c (columns df) then
    traverse (fun r => match row_get c r with
                       | Some v => Ok v
                       | None => Raise (KeyError c)
                       end) (rows df)
  else Raise (KeyError c).

(** [df.c]: the column read as an attribute, [AttributeError] when the
    table has no such column. *)
Definition getattr (c : string) (df : DataFrame) : result (list cell) :=
  if mem_str c (columns df) then getcol c df else Raise (AttributeError c).

Fixpoint assign_rows (c : string) (rs : list row) (s : list cell) : list row :=
  match rs, s with
  | r :: rs', v :: s' => row_set c v r :: assign_rows c rs' s'
  | _, _ => []
  end.

Definition add_column (c : string) (cols : list string) : list string :=
  if mem_str c cols then cols else cols ++ [c].

(** [df[c] = s]: replaces the column, or appends it as the last one. *)
Definition setcol (c : string) (s : list cell) (df : DataFrame) : DataFrame :=
  {| columns := add_column c (columns df);
     rows := assign_rows c (rows df) s |}.

(** [df[c] = v] for a scalar [v]. *)
Definition setconst (c : string) (v : cell) (df : DataFrame) : DataFrame :=
  setcol c (map (fun _ => v) (rows df)) df.

(** [df.drop(columns=cs)]: [KeyError] when one of [cs] is not a column. *)
Definition drop (cs : list string) (df : DataFrame) : result DataFrame :=
  match filter (fun c => negb (mem_str c (columns df))) cs with
  | [] => Ok {| columns := filter (fun c => negb (mem_str c cs)) (columns df);
                rows := map (fun r => filter (fun kv => negb (mem_str (fst kv) cs)) r)
                            (rows df) |}
  | c :: _ => Raise (KeyError c)
  end.

(** [df.dropna()]: keeps the rows without a missing value in any column. *)
Definition dropna (df : DataFrame) : DataFrame :=
  {| columns := columns df; rows := filter row_complete (rows df) |}.

Fixpoint select_rows (rs : list row) (mask : list bool) : list row :=
  match rs, mask with
  | r :: rs', b :: mask' => if b then r :: select_rows rs' mask' else select_rows rs' mask'
  | _, _ => []
  end.

(** [df[mask]] and [df.loc[mask]] for a boolean column [mask]. *)
Definition loc (mask : list bool) (df : DataFrame) : DataFrame :=
  {| columns := columns df; rows := select_rows (rows df) mask |}.

(** Column names of a join: a name that both sides have, the key apart,
    gets the suffix [_x] on the left and [_y] on the right. *)
Definition overlap (on : string) (l r : list string) : list string :=
  filter (fun c => mem_str c r && negb (String.eqb c on)) l.

Definition suffixed (sfx : string) (ovl : list string) (c : string) : string :=
  if mem_str c ovl then c ++ sfx else c.

Definition rename (sfx : string) (ovl : list string) (r : row) : row :=
  map (fun kv => (suffixed sfx ovl (fst kv), snd kv)) r.

Definition key_match (on : string) (l r : row) : bool :=
  match row_get on l, row_get on r with
  | Some a, Some b => cell_eqb a b
  | _, _ => false
  end.

Definition join_rows (on : string) (ovl : list string) (l r : row) : row :=
  rename "_x" ovl l ++ rename "_y" ovl (row_del on r).

Fixpoint is_prefix (p l : list ascii) : bool :=
  match p, l with
  | [], _ => true
  | a :: p', b :: l' => Ascii.eqb a b && is_prefix p' l'
  | _ :: _, [] => false
  end.

Definition ends_with (sfx c : string) : bool :=
  is_prefix (rev (list_ascii_of_string sfx)) (rev (list_ascii_of_string c)).

(** A column name that does not look like a renamed one. *)
Definition plain (c : string) : bool :=
  negb (ends_with "_x" c) && negb (ends_with "_y" c).

Definition merge_columns (on : string) (l r : list string) : list string :=
  let ovl := overlap on l r in
  map (suffixed "_x" ovl) l ++
  map (suffixed "_y" ovl) (filter (fun c => negb (String.eqb c on)) r).

(** [pd.merge(left, right, on=on, how="inner")]: every pair of a left row and
    a right row with the same key, left rows in order and, for each, the
    right rows in order.  Missing keys match each other, as in pandas.
    pandas refuses, with [ValueError], a key that is text in one table and a
    number in the other; that is not modelled, and what is said below of a
    join that succeeds is said for keys of one kind. *)
Definition merge (left right : DataFrame) (on : string) : result DataFrame :=
  try _ <- getcol on left;
  try _ <- getcol on right;
  let ovl := overlap on (columns left) (columns right) in
  Ok {| columns := merge_columns on (columns left) (columns right);
        rows := flat_map (fun l => map (join_rows on ovl l)
                                       (filter (key_match on l) (rows right)))
                         (rows left) |}.

(** [df.groupby(c)] as the list of its (key, group) pairs: keys sorted, rows
    with a missing key left out, each group in the row order of [df]. *)
Definition groupby (c : string) (df : DataFrame) : result (list (cell * DataFrame)) :=
  try s <- getcol c df;
  let keys := sort_cells (unique (filter (fun v => negb (is_na v)) s)) in
  Ok (map (fun k => (k, {| columns := columns df;
                           rows := filter (fun r => match row_get c r with
                                                    | Some v => cell_eqb v k
                                                    | None => false
                                                    end) (rows df) |})) keys).

(** *** Time of day under the format [%H:%M:%S] *)

Definition digit (a : ascii) : option Z :=
  let n := Z.of_N (N_of_ascii a) in
  if (48 <=? n) && (n <=? 57) then Some (n - 48) else None.

(** One numeric field of the format: the two-digit alternatives of the
    pattern are tried first, then the single digit. *)
Definition field (two : Z -> Z -> bool) (s : list ascii) : option (Z * list ascii) :=
  match s with
  | [] => None
  | a :: s' =>
      match digit a with
      | None => None
      | Some x =>
          match s' with
          | b :: s'' =>
              match digit b with
              | Some y => if two x y then Some (10 * x + y, s'') else Some (x, s')
              | None => Some (x, s')
              end
          | [] => Some (x, [])
          end
      end
  end.

(** [%H] is [2[0-3]|[0-1]\d|\d], [%M] is [[0-5]\d|\d], [%S] is
    [6[0-1]|[0-5]\d|\d]. *)
Definition hour_two (x y : Z) : bool := ((x =? 2) && (y <=? 3)) || (x <=? 1).
Definition minute_two (x y : Z) : bool := x <=? 5.
Definition second_two (x y : Z) : bool := ((x =? 6) && (y <=? 1)) || (x <=? 5).

Definition colon : ascii := ":"%char.

Definition strptime_HMS (s : string) : option (Z * Z * Z) :=
  match field hour_two (list_ascii_of_string s) with
  | Some (h, c1 :: s1) =>
      if Ascii.eqb c1 colon then
        match field minute_two s1 with
        | Some (m, c2 :: s2) =>
            if Ascii.eqb c2 colon then
              match field second_two s2 with
              | Some (sec, []) => Some (h, m, sec)
              | _ => None
              end
            else None
        | _ => None
        end
      else None
  | _ => None
  end.

(** Days from 1970-01-01 to a civil date. *)
Definition days_from_civil (y m d : Z) : Z :=
  let y' := if m <=? 2 then y - 1 else y in
  let era := y' / 400 in
  let yoe := y' - era * 400 in
  let doy := (153 * (if m <=? 2 then m + 9 else m - 3) + 2) / 5 + d - 1 in
  let doe := yoe * 365 + yoe / 4 - yoe / 100 + doy in
  era * 146097 + doe - 719468.

(** A time without a date is placed on 1900-01-01. *)
Definition default_date_seconds : Z := days_from_civil 1900 1 1 * 86400.

Definition seconds_of_day (hms : Z * Z * Z) : Z :=
  let '(h, m, s) := hms in h * 3600 + m * 60 + s.

(** [pd.to_datetime(_, format='%H:%M:%S', errors='coerce')] on one cell:
    what does not parse becomes missing. *)
Definition to_datetime_coerce (v : cell) : cell :=
  match v with
  | Str s =>
      match strptime_HMS s with
      | Some hms => Stamp (default_date_seconds + seconds_of_day hms)
      | None => NA
      end
  | Stamp t => Stamp t
  | Num _ => NA
  | NA => NA
  end.

(** A whole number as a cell. *)
Definition num (z : Z) : cell := Num (Q2Qc (inject_Z z)).

(** [series - datetime(...)] on one cell, in whole seconds: a missing
    timestamp gives a missing difference, anything but a timestamp is a
    [TypeError]. *)
Definition minus_datetime (d : Z) (v : cell) : result (option Z) :=
  match v with
  | Stamp t => Ok (Some (t - d))
  | NA => Ok None
  | _ => Raise (TypeError "unsupported operand type(s) for -")
  end.

(** [.dt.total_seconds().astype(int)] on one difference: a missing value
    cannot be cast to an integer. *)
Definition total_seconds_int (x : option Z) : result cell :=
  match x with
  | Some s => Ok (num s)
  | None => Raise (ValueError "cannot convert non-finite values to integer")
  end.

Section WithPython.
Context (py : PyLib).

(** [pd.to_numeric] on one cell: text is read as a float or raises. *)
Definition to_numeric_cell (v : cell) : result cell :=
  match v with
  | NA => Ok NA
  | Num x => Ok (Num x)
  | Str s =>
      match float_of_str py s with
      | Some x => Ok (Num x)
      | None => Raise (ValueError "Unable to parse string")
      end
  | Stamp t => Ok (num (t * 1000000000))
  end.

Definition to_numeric (s : list cell) : result (list cell) :=
  traverse to_numeric_cell s.

(** [str(v)], as an f-string prints a label. *)
Definition str_of_cell (v : cell) : string :=
  match v with
  | Str s => s
  | Num x => str_of_num py x
  | NA => "nan"
  | Stamp t => str_of_stamp py t
  end.

(** What [to_csv] writes for a cell, as [read_csv] gives it back: a
    timestamp becomes text, a number or a missing value is read back as it
    was.  Text is kept as it is; [read_csv] reads a column of text as
    numbers when all of it can be read so, which is not modelled: the
    samples hold no such column, and the properties of the two scripts run
    in sequence use only the numbers of the table read back. *)
Definition csv_cell (v : cell) : cell :=
  match v with
  | Stamp t => Str (str_of_stamp py t)
  | _ => v
  end.

Definition csv_row (r : row) : row :=
  map (fun kv => (fst kv, csv_cell (snd kv))) r.

Definition csv_text (df : DataFrame) : DataFrame :=
  {| columns := columns df; rows := map csv_row (rows df) |}.

End WithPython.

Definition is_stamp (v : cell) : bool :=
  match v with Stamp _ => true | _ => false end.

(** What [read_csv] can return: a well-formed table without timestamps. *)
Definition csv_table (df : DataFrame) : bool :=
  well_formed df &&
  forallb (fun r => forallb (fun kv => negb (is_stamp (snd kv))) r) (rows df).

End Pandas.

(** ** GeoJSON values *)

Module Geojson.
Import Pandas.

Definition position : Type := cell * cell * cell * cell.

Record Properties := { trip : list cell; stop : list cell; route : list cell }.

(** [geojson.Feature(geometry=geojson.LineString(coords), properties=...)],
    with the coordinates as [LineString] keeps them. *)
Record Feature := { geometry : list position; properties : Properties }.

(** The nearest whole number, a tie going to the even one. *)
Definition round_half_even (q : Q) : Z :=
  let n := Qnum q in
  let d := Zpos (Qden q) in
  let f := n / d in
  let r := n mod d in
  if 2 * r <? d then f
  else if d <? 2 * r then f + 1
  else if Z.even f then f else f + 1.

(** [round(x, 6)], the precision [geojson] gives every coordinate.  A
    number is held as the rational it stands for, and the result is the
    multiple of 1/1000000 nearest to it; a number that is such a multiple
    already is returned as it is. *)
Definition round6 (x : Qc) : Qc :=
  let y := Q2Qc (round_half_even (Qmult (this x) (1000000 # 1)) # 1000000) in
  if Qeq_bool (this y) (this x) then x else y.

(** What [LineString] makes of a coordinate it accepts. *)
Definition rounded (v : cell) : cell :=
  match v with
  | Num x => Num (round6 x)
  | _ => v
  end.

Definition rounded_position (p : position) : position :=
  let '(a, b, c, d) := p in (rounded a, rounded b, rounded c, rounded d).

(** One coordinate in [geojson.LineString]: a number is rounded, the
    missing number NaN is a float and passes, anything else is refused. *)
Definition clean_coordinate (v : cell) : result cell :=
  match v with
  | Num x => Ok (Num (round6 x))
  | NA => Ok NA
  | Str _ => Raise (ValueError "is not a JSON compliant number")
  | Stamp _ => Raise (ValueError "is not a JSON compliant number")
  end.

(** The coordinates [LineString] accepts: numbers, NaN among them. *)
Definition is_real (v : cell) : bool :=
  match v with
  | Num _ => true
  | NA => true
  | _ => false
  end.

Definition real_position (p : position) : bool :=
  let '(a, b, c, d) := p in is_real a && is_real b && is_real c && is_real d.

Definition clean_position (p : position) : result position :=
  let '(a, b, c, d) := p in
  try a <- clean_coordinate a;
  try b <- clean_coordinate b;
  try c <- clean_coordinate c;
  try d <- clean_coordinate d;
  Ok (a, b, c, d).

(** [geojson.LineString(coords)] *)
Definition LineString (coords : list position) : result (list position) :=
  traverse clean_position coords.

(** The values of a feature in the order [geojson.dump(..., sort_keys=True)]
    writes them: the geometry, then the properties [route], [stop] and
    [trip]. *)
Definition feature_cells (f : Feature) : list cell :=
  flat_map (fun p : position => let '(a, b, c, d) := p in [a; b; c; d]) (geometry f)
  ++ route (properties f) ++ stop (properties f) ++ trip (properties f).

(** A value the JSON encoder refuses: NaN, since [geojson.dump] sets
    [allow_nan=False], and a timestamp, which it cannot serialize. *)
Definition json_value_problem (v : cell) : option exn :=
  match v with
  | NA => Some (ValueError "Out of range float values are not JSON compliant")
  | Stamp _ => Some (TypeError "Object of type Timestamp is not JSON serializable")
  | _ => None
  end.

Fixpoint first_problem (l : list cell) : option exn :=
  match l with
  | [] => None
  | v :: l' =>
      match json_value_problem v with
      | Some e => Some e
      | None => first_problem l'
      end
  end.

(** The exception [geojson.dump] raises on a feature collection, if any:
    that of the first value it refuses. *)
Definition json_problem (features : list Feature) : option exn :=
  first_problem (flat_map feature_cells features).

End Geojson.

(** ** Files, directories and the exception-and-world monad *)

Module Os.
Import Pandas Geojson.

(** What a regular file holds: [Csv df] is a file that [read_csv] reads as
    the table [df]; [FeatureCollection features] is the document
    [geojson.dump] writes; [Truncated features] is what is left of that
    document when the dump stops at a value it refuses; [Other text] is any
    other file. *)
Inductive content :=
| Csv (df : DataFrame)
| FeatureCollection (features : list Feature)
| Truncated (features : list Feature)
| Other (text : string).

Inductive node :=
| File (c : content)
| Dir.

Record World := { cwd : string; fs : gmap string node }.

Definition M (A : Type) : Type := World -> result A * World.

Definition ret {A} (a : A) : M A := fun w => (Ok a, w).

Definition raise {A} (e : exn) : M A := fun w => (Raise e, w).

Definition bind {A B} (m : M A) (k : A -> M B) : M B :=
  fun w =>
    match m w with
    | (Ok a, w') => k a w'
    | (Raise e, w') => (Raise e, w')
    end.

Definition lift {A} (r : result A) : M A := fun w => (r, w).

Notation "'do' x <- m ; k" := (bind m (fun x => k))
  (at level 10, x name, m at level 100, k at level 200).

(** A [for] loop whose body has effects only. *)
Fixpoint for_each {A} (l : list A) (body : A -> M unit) : M unit :=
  match l with
  | [] => ret tt
  | a :: l' => do _ <- body a; for_each l' body
  end.

Definition getcwd : M string := fun w => (Ok (cwd w), w).

Definition slash : ascii := "/"%char.

Fixpoint drop_while (p : ascii -> bool) (l : list ascii) : list ascii :=
  match l with
  | [] => []
  | a :: l' => if p a then drop_while p l' else l
  end.

Definition is_slash (a : ascii) : bool := Ascii.eqb a slash.

(** [os.path.join(a, b)] on POSIX. *)
Definition path_join (a b : string) : string :=
  match list_ascii_of_string b with
  | c :: _ =>
      if is_slash c then b
      else match rev (list_ascii_of_string a) with
           | [] => b
           | d :: _ => if is_slash d then a ++ b else a ++ "/" ++ b
           end
  | [] =>
      match rev (list_ascii_of_string a) with
      | [] => b
      | d :: _ => if is_slash d then a ++ b else a ++ "/" ++ b
      end
  end.

(** [os.path.dirname(p)] on POSIX. *)
Definition dirname (p : string) : string :=
  let head := rev (drop_while (fun a => negb (is_slash a)) (rev (list_ascii_of_string p))) in
  if forallb is_slash head then string_of_list_ascii head
  else string_of_list_ascii (rev (drop_while is_slash (rev head))).

(** [os.makedirs(p, exist_ok=True)], which [save_to_csv] calls on the
    directory the feed has been read from: fails when [p] is a file.  The
    paths above [p] are taken to be directories. *)
Definition makedirs (p : string) : M unit :=
  fun w =>
    match fs w !! p with
    | Some (File _) => (Raise (OSError p), w)
    | _ => (Ok tt, {| cwd := cwd w; fs := <[p := Dir]> (fs w) |})
    end.

(** The paths above [p], the nearest first. *)
Fixpoint parents_from (n : nat) (p : string) : list string :=
  match n with
  | O => []
  | S n' =>
      let d := dirname p in
      if String.eqb d p then [] else d :: parents_from n' d
  end.

Definition parents (p : string) : list string :=
  parents_from (String.length p) p.

Definition is_file (n : option node) : bool :=
  match n with
  | Some (File _) => true
  | _ => false
  end.

(** The paths [qs] made directories in [m]. *)
Definition make_dirs (qs : list string) (m : gmap string node) : gmap string node :=
  fold_right (fun q m => <[q := Dir]> m) m qs.

Arguments make_dirs : simpl never.

(** [Path(p).mkdir(parents=True, exist_ok=True)]: makes [p] and the
    directories above it that are missing.  It fails, having made nothing,
    when [p] or a path above it is a regular file. *)
Definition mkdir_parents (p : string) : M unit :=
  fun w =>
    if existsb (fun q => is_file (fs w !! q)) (p :: parents p)
    then (Raise (OSError p), w)
    else (Ok tt, {| cwd := cwd w; fs := make_dirs (p :: parents p) (fs w) |}).

(** [open(p, 'w')] followed by writing [c]: fails when [p] is a directory. *)
Definition write_file (p : string) (c : content) : M unit :=
  fun w =>
    match fs w !! p with
    | Some Dir => (Raise (OSError p), w)
    | _ => (Ok tt, {| cwd := cwd w; fs := <[p := File c]> (fs w) |})
    end.

(** [with open(p, 'w', encoding='utf8') as fp: geojson.dump(
    geojson.FeatureCollection(features), fp, sort_keys=True,
    ensure_ascii=False)].  Opening fails when [p] is a directory; the
    directory of [p] is taken to be there, as [save_geojson_file] has made
    it.  Once the file is open it is created or emptied, so a dump that
    raises leaves it truncated. *)
Definition geojson_dump (p : string) (features : list Feature) : M unit :=
  fun w =>
    match fs w !! p with
    | Some Dir => (Raise (OSError p), w)
    | _ =>
        match json_problem features with
        | None =>
            (Ok tt, {| cwd := cwd w; fs := <[p := File (FeatureCollection features)]> (fs w) |})
        | Some e =>
            (Raise e, {| cwd := cwd w; fs := <[p := File (Truncated features)]> (fs w) |})
        end
    end.

(** [pd.read_csv(p, low_memory=False)].  A file is kept as the table its
    text encodes: distinct column names, rows as long as the header, no
    timestamp.  There is [OSError] when there is nothing at [p], or a
    directory.  A file that is not kept as a table stands for one whose
    text the parser rejects, with an error that is a [ValueError]; what
    pandas makes of a document of the Builder read as a table is not
    modelled. *)
Definition read_csv (p : string) : M DataFrame :=
  fun w =>
    match fs w !! p with
    | Some (File (Csv df)) =>
        if csv_table df then (Ok df, w)
        else (Raise (ValueError "Error tokenizing data"), w)
    | Some (File _) => (Raise (ValueError "No columns to parse from file"), w)
    | _ => (Raise (OSError p), w)
    end.

(** [df.to_csv(p, index=False, encoding='utf-8')] *)
Definition to_csv (py : PyLib) (df : DataFrame) (p : string) : M unit :=
  write_file p (Csv (csv_text py df)).

End Os.

(** ** metro_bcn/create_dataframe.py *)

Module create_dataframe.
Import Pandas Os.

Section Script.
Context (py : PyLib).

Definition save_to_csv (df : DataFrame) (filename output_dir : string) : M unit :=
  do _ <- makedirs output_dir;
  let file_path := path_join output_dir filename in
  to_csv py df file_path.

Definition load_data (file_path : string) (drop_columns : list string) : M DataFrame :=
  do df <- read_csv file_path;
  match drop_columns with
  | [] => ret df
  | _ => lift (drop drop_columns df)
  end.

Definition process_stop_times (df : DataFrame) : result DataFrame :=
  let time_columns := ["arrival_time"; "departure_time"] in
  try df <- foldM (fun df col =>
                     try s <- getcol col df;
                     Ok (setcol col (map to_datetime_coerce s) df))
                  time_columns df;
  Ok (dropna df).

(** [datetime(1970,1,1)], in seconds *)
Definition datetime_1970_1_1 : Z := days_from_civil 1970 1 1 * 86400.

Definition main : M DataFrame :=
  do current_dir <- getcwd;
  let data_dir := path_join current_dir "data" in
  let trips_columns := ["service_id"; "trip_headsign"; "direction_id";
                        "shape_id"; "wheelchair_accessible"] in
  let routes_columns := ["route_text_color"; "route_url"] in
  let stops_columns := ["stop_code"; "stop_name"; "stop_url";
                        "location_type"; "parent_station"; "wheelchair_boarding"] in
  do trips <- load_data (path_join data_dir "trips.txt") trips_columns;
  do routes <- load_data (path_join data_dir "routes.txt") routes_columns;
  do stops <- load_data (path_join data_dir "stops.txt") stops_columns;
  do stop_times <- load_data (path_join data_dir "stop_times.txt") [];
  do stop_times <- lift (process_stop_times stop_times);
  do tripsandroutes <- lift (merge trips routes "route_id");
  do final_stops <- lift (merge stop_times stops "stop_id");
  do lat <- lift (try s <- getcol "stop_lat" final_stops; to_numeric py s);
  let final_stops := setcol "stop_lat" lat final_stops in
  do lon <- lift (try s <- getcol "stop_lon" final_stops; to_numeric py s);
  let final_stops := setcol "stop_lon" lon final_stops in
  do final <- lift (merge final_stops tripsandroutes "trip_id");
  do mask <- lift (try s <- getcol "route_type" final;
                   Ok (map (fun v => elem_eq v (num 1)) s));
  let metro := loc mask final in
  do seconds <- lift (try s <- getcol "arrival_time" metro;
                      try d <- traverse (minus_datetime datetime_1970_1_1) s;
                      traverse total_seconds_int d);
  let metro := setcol "arrival_time_int" seconds metro in
  let metro := setconst "elevation" (num 0) metro in
  do _ <- save_to_csv metro "metro_data.csv" data_dir;
  ret metro.

End Script.
End create_dataframe.

(** ** metro_bcn/create_geojson_file.py *)

Module create_geojson_file.
Import Pandas Geojson Os.

Fixpoint zip4 (a b c d : list cell) : list position :=
  match a, b, c, d with
  | x :: a', y :: b', z :: c', t :: d' => (x, y, z, t) :: zip4 a' b' c' d'
  | _, _, _, _ => []
  end.

Definition ensure_directory_exists (directory_path : string) : M unit :=
  mkdir_parents directory_path.

Definition load_metro_data (file_path : string) : M DataFrame :=
  read_csv file_path.

(** The body of the loop over [trips_dict.items()]: the feature of one
    trip.  The columns are read as attributes of [trip_data]. *)
Definition trip_feature (trip_data : DataFrame) : result Feature :=
  try lon <- getattr "stop_lon" trip_data;
  try lat <- getattr "stop_lat" trip_data;
  try elev <- getattr "elevation" trip_data;
  try time <- getattr "arrival_time_int" trip_data;
  let geometry := zip4 lon lat elev time in
  try line_string <- LineString geometry;
  try trip_ids <- getattr "trip_id" trip_data;
  try stop_ids <- getattr "stop_id" trip_data;
  try labels <- getattr "route_short_name" trip_data;
  Ok {| geometry := line_string;
        properties := {| trip := unique trip_ids;
                         stop := unique stop_ids;
                         route := unique labels |} |}.

Definition create_geojson_features (df : DataFrame) (line : cell) : result (list Feature) :=
  try labels <- getcol "route_short_name" df;
  let line_df := loc (map (fun v => elem_eq v line) labels) df in
  try trips_dict <- groupby "trip_id" line_df;
  foldM (fun features item =>
           try feature <- trip_feature (snd item);
           Ok (features ++ [feature]))
        trips_dict [].

Definition save_geojson_file (features : list Feature) (output_path : string) : M unit :=
  do _ <- ensure_directory_exists (dirname output_path);
  geojson_dump output_path features.

Section Script.
Context (py : PyLib).

(** The body of the loop over the lines in [main]. *)
Definition process_line (df : DataFrame) (output_dir : string) (line : cell) : M unit :=
  do features <- lift (create_geojson_features df line);
  let output_file := path_join output_dir (str_of_cell py line ++ ".geojson") in
  save_geojson_file features output_file.

Definition main : M unit :=
  do current_dir <- getcwd;
  let data_file := path_join (path_join current_dir "data") "metro_data.csv" in
  let output_dir := path_join current_dir "geojson" in
  do _ <- ensure_directory_exists output_dir;
  do df <- load_metro_data data_file;
  do lines <- lift (try s <- getcol "route_short_name" df; Ok (unique s));
  for_each lines (process_line df output_dir).

End Script.
End create_geojson_file.

(** ** create_geojson_file.py, the older form of the loop

    The script runs in a session where the assembled table is the variable
    [metro].  For each line it rebuilds the feature list trip by trip and
    rewrites the document of the line after every trip. *)

Module notebook.
Import Pandas Geojson Os.

Fixpoint dict_get (key : cell) (d : list (cell * DataFrame)) : result DataFrame :=
  match d with
  | [] => Raise (KeyError "trip_id")
  | (k, v) :: d' => if cell_eqb k key then Ok v else dict_get key d'
  end.

Section Script.
Context (py : PyLib).

Definition output_filename (line : cell) : string :=
  "<Your Directory>L\" ++ str_of_cell py line ++ "_new.geojson".

(** The loop [for key in dfs.keys()], with the list [features] so far. *)
Fixpoint trips_loop (line : cell) (dfs : list (cell * DataFrame)) (keys : list cell)
         (features : list Feature) : M (list Feature) :=
  match keys with
  | [] => ret features
  | key :: keys' =>
      do insert_features <-
         lift (try trip_data <- dict_get key dfs;
               create_geojson_file.trip_feature trip_data);
      let features := features ++ [insert_features] in
      do _ <- geojson_dump (output_filename line) features;
      trips_loop line dfs keys' features
  end.

Definition line_loop (metro : DataFrame) (line : cell) : M (list Feature) :=
  do df <- lift (try s <- getcol "route_short_name" metro;
                 Ok (loc (map (fun v => elem_eq v line) s) metro));
  do dfs <- lift (groupby "trip_id" df);
  trips_loop line dfs (map fst dfs) [].

Definition script (metro : DataFrame) : M unit :=
  do lines <- lift (try s <- getcol "route_short_name" metro; Ok (unique s));
  for_each lines (fun line => do _ <- line_loop metro line; ret tt).

End Script.
End notebook.

(** ** Row by row: how a row of the assembled table is put together

    The scripts work on whole columns.  The properties below speak about
    single rows, so the steps of [create_dataframe.main] are read here for
    one row of each of the four loaded tables. *)

Module Rowwise.
Import Pandas Os.

(** The two [to_datetime] assignments of [process_stop_times] on one row. *)
Definition parse_times (st : row) : row :=
  let r := row_set "arrival_time" (to_datetime_coerce (cell_of "arrival_time" st)) st in
  row_set "departure_time" (to_datetime_coerce (cell_of "departure_time" r)) r.

(** No cell of the table is a timestamp. *)
Definition stamp_free (df : DataFrame) : Prop :=
  Forall (fun r => forall v, In v (map snd r) -> is_stamp v = false) (rows df).

(** A cell that is the text of a time of day which the format accepts, with
    the timestamp it is parsed to. *)
Definition parsed (v : cell) (t : Z) : Prop :=
  exists s hms, v = Str s /\ strptime_HMS s = Some hms /\
                t = default_date_seconds + seconds_of_day hms.

Section Tables.
Context (py : PyLib) (trips routes stops stop_times : DataFrame).

Definition final_stops_columns : list string :=
  add_column "stop_lon"
    (add_column "stop_lat"
       (merge_columns "stop_id" (columns stop_times) (columns stops))).

Definition tripsandroutes_columns : list string :=
  merge_columns "route_id" (columns trips) (columns routes).

(** The row of [stop_times.merge(stops)] for the rows [st] and [sp]. *)
Definition stop_join (st sp : row) : row :=
  join_rows "stop_id" (overlap "stop_id" (columns stop_times) (columns stops))
            (parse_times st) sp.

(** The same row once [stop_lat] and [stop_lon] are numeric. *)
Definition stop_row (st sp : row) (lat lon : cell) : row :=
  row_set "stop_lon" lon (row_set "stop_lat" lat (stop_join st sp)).

(** The row of [pd.merge(trips, routes)] for the rows [tr] and [ro]. *)
Definition route_row (tr ro : row) : row :=
  join_rows "route_id" (overlap "route_id" (columns trips) (columns routes)) tr ro.

Definition final_row (st sp tr ro : row) (lat lon : cell) : row :=
  join_rows "trip_id" (overlap "trip_id" final_stops_columns tripsandroutes_columns)
            (stop_row st sp lat lon) (route_row tr ro).

Definition metro_row (st sp tr ro : row) (lat lon : cell) (seconds : Z) : row :=
  row_set "elevation" (num 0)
    (row_set "arrival_time_int" (num seconds) (final_row st sp tr ro lat lon)).

(** [m] is the assembled row joined from the stop_times row [st], the stops
    row [sp], the trips row [tr] and the routes row [ro]. *)
Definition assembled_from (st sp tr ro m : row) : Prop :=
  In st (rows stop_times) /\ In sp (rows stops) /\
  In tr (rows trips) /\ In ro (rows routes) /\
  row_complete (parse_times st) = true /\
  key_match "stop_id" (parse_times st) sp = true /\
  key_match "route_id" tr ro = true /\
  exists lat lon t,
    to_numeric_cell py (cell_of "stop_lat" (stop_join st sp)) = Ok lat /\
    to_numeric_cell py (cell_of "stop_lon" (row_set "stop_lat" lat (stop_join st sp))) = Ok lon /\
    key_match "trip_id" (stop_row st sp lat lon) (route_row tr ro) = true /\
    row_get "route_type" (final_row st sp tr ro lat lon) = Some (num 1) /\
    row_get "arrival_time" (final_row st sp tr ro lat lon) = Some (Stamp t) /\
    m = metro_row st sp tr ro lat lon (t - create_dataframe.datetime_1970_1_1).

(** [m] is an assembled row that comes from the stop_times row [st]. *)
Definition joined_from (st m : row) : Prop :=
  exists sp tr ro, assembled_from st sp tr ro m.

End Tables.

(** The four tables as [create_dataframe.main] loads them in the world [w]. *)
Definition data_path (w : World) (name : string) : string :=
  path_join (path_join (cwd w) "data") name.

Definition loaded (w : World) (trips routes stops stop_times : DataFrame) : Prop :=
  create_dataframe.load_data (data_path w "trips.txt")
    ["service_id"; "trip_headsign"; "direction_id"; "shape_id"; "wheelchair_accessible"] w
    = (Ok trips, w) /\
  create_dataframe.load_data (data_path w "routes.txt")
    ["route_text_color"; "route_url"] w = (Ok routes, w) /\
  create_dataframe.load_data (data_path w "stops.txt")
    ["stop_code"; "stop_name"; "stop_url"; "location_type"; "parent_station";
     "wheelchair_boarding"] w = (Ok stops, w) /\
  create_dataframe.load_data (data_path w "stop_times.txt") [] w = (Ok stop_times, w).

(** No two rows of the table have the same value in column [c]. *)
Definition unique_key (c : string) (df : DataFrame) : Prop :=
  exists s, getcol c df = Ok s /\ NoDup s.

(** No file is in [w'] that was not already in [w] with the same content. *)
Definition no_new_file (w w' : World) : Prop :=
  forall p c, fs w' !! p = Some (File c) -> fs w !! p = Some (File c).

(** The columns [create_dataframe.main] reads are in the tables it reads
    them from, and the tables it joins share no column but the key of the
    join, so that no join renames a column. *)
Definition standard_columns (trips routes stops stop_times : DataFrame) : Prop :=
  (In "route_id" (columns trips) /\ In "trip_id" (columns trips)) /\
  (In "route_id" (columns routes) /\ In "route_type" (columns routes)) /\
  (In "stop_id" (columns stops) /\ In "stop_lat" (columns stops) /\
   In "stop_lon" (columns stops)) /\
  (In "trip_id" (columns stop_times) /\ In "stop_id" (columns stop_times) /\
   In "arrival_time" (columns stop_times) /\ In "departure_time" (columns stop_times)) /\
  (forall c, In c (columns stop_times) -> In c (columns stops) -> c = "stop_id") /\
  (forall c, In c (columns trips) -> In c (columns routes) -> c = "route_id") /\
  (forall c, In c (columns stop_times) \/ In c (columns stops) ->
             In c (columns trips) \/ In c (columns routes) -> c = "trip_id").

(** The keys of a join are of one kind in both tables, all text or all
    numbers: pandas refuses to join a text column with a numeric one. *)
Definition same_kind (c : string) (left right : DataFrame) : Prop :=
  (forall r, In r (rows left ++ rows right) -> exists s, cell_of c r = Str s) \/
  (forall r, In r (rows left ++ rows right) -> exists x, cell_of c r = Num x).

End Rowwise.

(** ** Line by line: the features of one line of the assembled table *)

Module Linewise.
Import Pandas Geojson Os.

Definition position_of (r : row) : position :=
  (cell_of "stop_lon" r, cell_of "stop_lat" r,
   cell_of "elevation" r, cell_of "arrival_time_int" r).

(** [df['route_short_name'] == line] on one row. *)
Definition on_line (line : cell) (r : row) : bool :=
  elem_eq (cell_of "route_short_name" r) line.

(** The rows of the trip [k] on the line, in the row order of [df]. *)
Definition trip_rows (df : DataFrame) (line k : cell) : list row :=
  filter (fun r => cell_eqb (cell_of "trip_id" r) k) (filter (on_line line) (rows df)).

(** The trip identifiers on the line, as [groupby] orders them. *)
Definition trip_keys (df : DataFrame) (line : cell) : list cell :=
  sort_cells
    (unique (filter (fun v => negb (is_na v))
                    (map (cell_of "trip_id") (filter (on_line line) (rows df))))).

(** The feature of the trip [k] on the line: its points are those of its
    rows, as [LineString] rounds them. *)
Definition feature_of (df : DataFrame) (line k : cell) : Feature :=
  {| geometry := map rounded_position (map position_of (trip_rows df line k));
     properties :=
       {| trip := [k];
          stop := unique (map (cell_of "stop_id") (trip_rows df line k));
          route := unique (map (cell_of "route_short_name") (trip_rows df line k)) |} |}.

(** The table [create_geojson_file.main] reads and the file it writes for a
    line, in the world [w]. *)
Definition metro_file (w : World) : string :=
  path_join (path_join (cwd w) "data") "metro_data.csv".

Definition line_file (py : PyLib) (w : World) (line : cell) : string :=
  path_join (path_join (cwd w) "geojson") (str_of_cell py line ++ ".geojson").

(** [w] holds the table [df] where the Builder reads it. *)
Definition reads (w : World) (df : DataFrame) : Prop :=
  fs w !! metro_file w = Some (File (Csv df)) /\ csv_table df = true.

(** The document of a line. *)
Definition document (df : DataFrame) (line : cell) : content :=
  FeatureCollection (map (feature_of df line) (trip_keys df line)).

(** The columns [create_geojson_features] reads. *)
Definition builder_columns : list string :=
  ["route_short_name"; "trip_id"; "stop_lon"; "stop_lat"; "elevation";
   "arrival_time_int"; "stop_id"].

End Linewise.

(** ** Sample feeds

    Small feeds on which the scripts are run below.  Every identifier and
    label in them is text, and coordinates are numbers already. *)

Module Samples.
Import Pandas Geojson Os.

Definition two_digits (n : Z) : string :=
  String (ascii_of_N (Z.to_N (48 + n / 10)))
    (String (ascii_of_N (Z.to_N (48 + n mod 10))) "").

(** Timestamps of 1900-01-01 as pandas prints them. *)
Definition clock (t : Z) : string :=
  let s := t - default_date_seconds in
  "1900-01-01 " ++ two_digits (s / 3600) ++ ":" ++ two_digits (s / 60 mod 60)
                ++ ":" ++ two_digits (s mod 60).

(** The conversions the samples run with.  No text of the samples is a
    number, and no number labels a line or is printed in a file name. *)
Definition python : PyLib :=
  {| float_of_str := fun _ => None;
     str_of_num := fun x => two_digits (Qnum x);
     str_of_stamp := clock |}.

Definition decimal (n : Z) (d : positive) : cell := Num (Q2Qc (n # d)).

Definition table (cols : list string) (cells : list (list cell)) : DataFrame :=
  {| columns := cols; rows := map (combine cols) cells |}.

Definition feed (trips routes stops stop_times : DataFrame)
           (others : list (string * node)) : World :=
  {| cwd := "/home/metro";
     fs := list_to_map
             ([("/home/metro/data", Dir);
               ("/home/metro/data/trips.txt", File (Csv trips));
               ("/home/metro/data/routes.txt", File (Csv routes));
               ("/home/metro/data/stops.txt", File (Csv stops));
               ("/home/metro/data/stop_times.txt", File (Csv stop_times))] ++ others) |}.

Definition trips_header : list string :=
  ["route_id"; "service_id"; "trip_id"; "trip_headsign"; "direction_id";
   "shape_id"; "wheelchair_accessible"].

Definition routes_header : list string :=
  ["route_id"; "route_short_name"; "route_long_name"; "route_type";
   "route_url"; "route_text_color"].

Definition stops_header : list string :=
  ["stop_id"; "stop_code"; "stop_name"; "stop_lat"; "stop_lon"; "stop_url";
   "location_type"; "parent_station"; "wheelchair_boarding"].

Definition stop_times_header : list string :=
  ["trip_id"; "arrival_time"; "departure_time"; "stop_id"; "stop_sequence"].

Definition trip_of (route_id trip_id : string) : list cell :=
  [Str route_id; Str "weekday"; Str trip_id; Str "Fondo"; num 0; Str "sh"; num 1].

Definition route_of (route_id short_name : string) (route_type : Z) : list cell :=
  [Str route_id; Str short_name; Str "line"; num route_type; Str "http://tmb"; Str "FFFFFF"].

Definition stop_at (stop_id : string) (lat lon : cell) : list cell :=
  [Str stop_id; num 1; Str "station"; lat; lon; Str "http://tmb"; num 0; Str "P"; num 1].

Definition visit (trip_id arrival departure stop_id : string) (sequence : cell) : list cell :=
  [Str trip_id; Str arrival; Str departure; Str stop_id; sequence].

(** A metro line L1, a bus line B7, and five stop visits: two good ones on
    the metro trip, one on the bus trip, one with times the format rejects
    and one without a stop sequence. *)
Definition trips1 : DataFrame :=
  table trips_header [trip_of "R1" "T1"; trip_of "R2" "T2"].

Definition routes1 : DataFrame :=
  table routes_header [route_of "R1" "L1" 1; route_of "R2" "B7" 3].

Definition stops1 : DataFrame :=
  table stops_header
    [stop_at "S1" (decimal 4138 100) (decimal 217 100);
     stop_at "S2" (decimal 4139 100) (decimal 218 100)].

Definition stop_times1 : DataFrame :=
  table stop_times_header
    [visit "T1" "08:15:30" "08:16:00" "S1" (num 1);
     visit "T1" "08:20:00" "08:20:30" "S2" (num 2);
     visit "T2" "09:00:00" "09:00:10" "S1" (num 1);
     visit "T1" "25:61:00" "25:61:30" "S2" (num 3);
     visit "T1" "08:30:00" "08:30:30" "S2" NA].

Definition world1 : World := feed trips1 routes1 stops1 stop_times1 [].

(** What the Assembler returns on a world, the empty table when it raises. *)
Definition assembled (w : World) : DataFrame :=
  match fst (create_dataframe.main python w) with
  | Ok metro => metro
  | Raise _ => {| columns := []; rows := [] |}
  end.

Definition after_assembler (w : World) : World :=
  snd (create_dataframe.main python w).

Definition after_builder (w : World) : World :=
  snd (create_geojson_file.main python w).

(** The features of the document at a path, none when there is no document. *)
Definition features_at (w : World) (p : string) : list Feature :=
  match fs w !! p with
  | Some (File (FeatureCollection features)) => features
  | _ => []
  end.

(** The assembled table of [world1] as the Builder reads it back. *)
Definition metro1 : DataFrame := csv_text python (assembled world1).

(** The loaded forms of the tables: the columns [main] drops are gone. *)
Definition loaded_table (w : World) (name : string) (cs : list string) : DataFrame :=
  match fst (create_dataframe.load_data (Rowwise.data_path w name) cs w) with
  | Ok df => df
  | Raise _ => {| columns := []; rows := [] |}
  end.

Definition loaded_trips (w : World) : DataFrame :=
  loaded_table w "trips.txt"
    ["service_id"; "trip_headsign"; "direction_id"; "shape_id"; "wheelchair_accessible"].

Definition loaded_routes (w : World) : DataFrame :=
  loaded_table w "routes.txt" ["route_text_color"; "route_url"].

Definition loaded_stops (w : World) : DataFrame :=
  loaded_table w "stops.txt"
    ["stop_code"; "stop_name"; "stop_url"; "location_type"; "parent_station";
     "wheelchair_boarding"].

Definition loaded_stop_times (w : World) : DataFrame :=
  loaded_table w "stop_times.txt" [].

(** The same feed with the stop S1 listed twice in [stops.txt]. *)
Definition stops2 : DataFrame :=
  table stops_header
    [stop_at "S1" (decimal 4138 100) (decimal 217 100);
     stop_at "S1" (decimal 4138 100) (decimal 217 100)].

Definition stop_times2 : DataFrame :=
  table stop_times_header [visit "T1" "08:15:30" "08:16:00" "S1" (num 1)].

Definition world2 : World := feed trips1 routes1 stops2 stop_times2 [].

(** A feed in which a bus route carries the label of the metro line. *)
Definition routes3 : DataFrame :=
  table routes_header [route_of "R1" "L1" 1; route_of "R2" "L1" 3].

Definition world3 : World := feed trips1 routes3 stops1 stop_times1 [].

(** A feed in which the latitude of a visited stop is not a number. *)
Definition stops5 : DataFrame :=
  table stops_header
    [stop_at "S1" (Str "north") (decimal 217 100);
     stop_at "S2" (decimal 4139 100) (decimal 218 100)].

Definition world5 : World := feed trips1 routes1 stops5 stop_times1 [].

(** A feed with two metro lines, in a directory where the name of the second
    line's document is taken by a directory. *)
Definition routes4 : DataFrame :=
  table routes_header [route_of "R1" "L1" 1; route_of "R2" "L2" 1].

Definition world4 : World :=
  feed trips1 routes4 stops1 stop_times1
       [("/home/metro/geojson/L2.geojson", Dir)].

(** A feed in which a bus route has the route_id of the metro line. *)
Definition routes7 : DataFrame :=
  table routes_header [route_of "R1" "L1" 1; route_of "R1" "B7" 3].

Definition world7 : World := feed trips1 routes7 stops1 stop_times1 [].

(** A feed in which the latitude of a visited stop is missing. *)
Definition stops8 : DataFrame :=
  table stops_header
    [stop_at "S1" NA (decimal 217 100);
     stop_at "S2" (decimal 4139 100) (decimal 218 100)].

Definition world8 : World := feed trips1 routes1 stops8 stop_times1 [].

(** Two tables as the Builder reads them, of one row each: one with a
    longitude of seven decimals, one with a longitude that is text. *)
Definition builder_header : list string :=
  ["trip_id"; "stop_id"; "route_short_name"; "stop_lon"; "stop_lat"; "elevation";
   "arrival_time_int"].

Definition fine_point : DataFrame :=
  table builder_header
    [[Str "T1"; Str "S1"; Str "L1"; decimal 21234567 10000000; decimal 4138 100;
      num 0; num (-2208959070)]].

Definition text_point : DataFrame :=
  table builder_header
    [[Str "T1"; Str "S1"; Str "L1"; Str "east"; decimal 4138 100;
      num 0; num (-2208959070)]].

(** A feed whose [trips.txt] has no [wheelchair_accessible] column. *)
Definition trips6 : DataFrame :=
  table ["route_id"; "service_id"; "trip_id"; "trip_headsign"; "direction_id"; "shape_id"]
        [[Str "R1"; Str "weekday"; Str "T1"; Str "Fondo"; num 0; Str "sh"]].

Definition world6 : World := feed trips6 routes1 stops1 stop_times1 [].

End Samples.

(** * Properties *)

(** ** Results, lists and cells *)

Section Basics.
Import Pandas.

Lemma rbind_ok {A B} (m : result A) (k : A -> result B) (b : B) :
  rbind m k = Ok b -> exists a, m = Ok a /\ k a = Ok b.
Proof.
  destruct m as [a|e]; simpl; intros H; [eauto | discriminate].
Qed.

Lemma traverse_ok {A B} (f : A -> result B) (l : list A) (l' : list B) :
  traverse f l = Ok l' -> Forall2 (fun a b => f a = Ok b) l l'.
Proof.
  revert l'; induction l as [|a l IH]; simpl; intros l' H.
  - injection H as <-. constructor.
  - apply rbind_ok in H as (b & Hb & H).
    apply rbind_ok in H as (bs & Hbs & H).
    injection H as <-. constructor; auto.
Qed.

Lemma traverse_total {A B} (f : A -> result B) (g : A -> B) (l : list A) :
  Forall (fun a => f a = Ok (g a)) l -> traverse f l = Ok (map g l).
Proof.
  induction 1 as [|a l Ha _ IH]; simpl; [reflexivity|].
  rewrite Ha; simpl. rewrite IH; reflexivity.
Qed.

Lemma Forall2_length_eq {A B} (P : A -> B -> Prop) l l' :
  Forall2 P l l' -> List.length l = List.length l'.
Proof. induction 1; simpl; congruence. Qed.

Lemma cell_eqb_eq (a b : cell) : cell_eqb a b = true <-> a = b.
Proof.
  destruct a as [|x|s|t], b as [|y|s'|t']; simpl;
    try (split; [discriminate | intros H; discriminate H]); try tauto.
  - rewrite Qeq_bool_iff. split.
    + intros H. f_equal. now apply Qc_is_canon.
    + intros H. injection H as ->. reflexivity.
  - rewrite String.eqb_eq. split; congruence.
  - rewrite Z.eqb_eq. split; congruence.
Qed.

Lemma cell_eqb_refl (a : cell) : cell_eqb a a = true.
Proof. now apply cell_eqb_eq. Qed.

Lemma cell_eqb_neq (a b : cell) : cell_eqb a b = false <-> a <> b.
Proof.
  rewrite <- cell_eqb_eq. destruct (cell_eqb a b); split; congruence.
Qed.

Lemma elem_eq_true (v k : cell) : elem_eq v k = true <-> v = k /\ v <> NA.
Proof.
  unfold elem_eq. rewrite andb_true_iff, cell_eqb_eq, negb_true_iff.
  destruct v; simpl; split; intros [H1 H2]; split; auto; congruence.
Qed.

Lemma mem_str_In (c : string) (l : list string) : mem_str c l = true <-> In c l.
Proof.
  unfold mem_str. rewrite existsb_exists. split.
  - intros (x & Hx & E). apply String.eqb_eq in E. now subst.
  - intros H. exists c. split; [assumption | apply String.eqb_refl].
Qed.

Lemma mem_str_not_In (c : string) (l : list string) : mem_str c l = false <-> ~ In c l.
Proof.
  rewrite <- mem_str_In. destruct (mem_str c l); split; congruence.
Qed.

Lemma mem_cell_In (v : cell) (l : list cell) : mem_cell v l = true <-> In v l.
Proof.
  unfold mem_cell. rewrite existsb_exists. split.
  - intros (x & Hx & E). apply cell_eqb_eq in E. now subst.
  - intros H. exists v. split; [assumption | apply cell_eqb_refl].
Qed.

End Basics.

(** ** Deduplication and sorting of keys *)

Section Keys.
Import Pandas.

Lemma In_unique_from (v : cell) (seen l : list cell) :
  In v (unique_from seen l) <-> In v l /\ ~ In v seen.
Proof.
  revert seen; induction l as [|x l IH]; intros seen; simpl.
  - tauto.
  - destruct (mem_cell x seen) eqn:E.
    + apply mem_cell_In in E. rewrite IH. split.
      * intros [H1 H2]. auto.
      * intros [[->|H1] H2]; [contradiction | auto].
    + assert (Hx : ~ In x seen) by (rewrite <- mem_cell_In; congruence).
      simpl. rewrite IH. simpl. split.
      * intros [->|[H1 H2]]; auto.
      * intros [[->|H1] H2]; auto.
        destruct (cell_eqb x v) eqn:Exv.
        -- apply cell_eqb_eq in Exv. auto.
        -- apply cell_eqb_neq in Exv. right. split; auto. intros [?|?]; auto.
Qed.

Lemma In_unique (v : cell) (l : list cell) : In v (unique l) <-> In v l.
Proof. unfold unique. rewrite In_unique_from. simpl. tauto. Qed.

Lemma NoDup_unique_from (seen l : list cell) : NoDup (unique_from seen l).
Proof.
  revert seen; induction l as [|x l IH]; intros seen; simpl.
  - constructor.
  - destruct (mem_cell x seen); [apply IH|].
    constructor; [|apply IH].
    rewrite In_unique_from. simpl. tauto.
Qed.

Lemma NoDup_unique (l : list cell) : NoDup (unique l).
Proof. apply NoDup_unique_from. Qed.

Lemma unique_from_seen (k : cell) (seen l : list cell) :
  In k seen -> Forall (eq k) l -> unique_from seen l = [].
Proof.
  intros Hk. induction 1 as [|x l <- _ IH]; simpl; [reflexivity|].
  apply mem_cell_In in Hk. now rewrite Hk.
Qed.

(** A column that holds one value everywhere has that value as its only
    distinct one. *)
Lemma unique_constant (k : cell) (l : list cell) :
  l <> [] -> Forall (eq k) l -> unique l = [k].
Proof.
  intros Hne H. destruct H as [|x l <- H]; [congruence|].
  unfold unique; simpl. f_equal.
  apply (unique_from_seen k); simpl; auto.
Qed.

Lemma insert_sorted_perm (k : cell) (l : list cell) :
  Permutation (insert_sorted k l) (k :: l).
Proof.
  induction l as [|x l IH]; simpl; [reflexivity|].
  destruct (cell_leb k x); [reflexivity|].
  rewrite IH. apply perm_swap.
Qed.

Lemma sort_cells_perm (l : list cell) : Permutation (sort_cells l) l.
Proof.
  induction l as [|x l IH]; simpl; [reflexivity|].
  rewrite insert_sorted_perm. now constructor.
Qed.

Lemma In_sort_cells (v : cell) (l : list cell) : In v (sort_cells l) <-> In v l.
Proof.
  split; apply Permutation_in; [|symmetry]; apply sort_cells_perm.
Qed.

End Keys.

(** ** Rows *)

Section Rows.
Import Pandas.

Lemma row_get_app (c : string) (a b : row) :
  row_get c (a ++ b) =
  match row_get c a with Some v => Some v | None => row_get c b end.
Proof.
  induction a as [|[k v] a IH]; simpl; [reflexivity|].
  destruct (String.eqb k c); auto.
Qed.

Lemma row_get_None (c : string) (r : row) :
  row_get c r = None <-> ~ In c (row_keys r).
Proof.
  induction r as [|[k v] r IH]; simpl; [tauto|].
  destruct (String.eqb_spec k c) as [->|Hne].
  - split; [discriminate | intros H; exfalso; auto].
  - rewrite IH. tauto.
Qed.


Lemma row_get_value (c : string) (r : row) (v : cell) :
  row_get c r = Some v -> In v (map snd r).
Proof.
  induction r as [|[k w] r IH]; simpl; [discriminate|].
  destruct (String.eqb k c); [intros [= ->]; auto | auto].
Qed.

Lemma row_get_set_eq (c : string) (v : cell) (r : row) :
  row_get c (row_set c v r) = Some v.
Proof.
  induction r as [|[k w] r IH]; simpl.
  - now rewrite String.eqb_refl.
  - destruct (String.eqb k c) eqn:E; simpl; rewrite E; auto.
Qed.

Lemma row_get_set_ne (c c' : string) (v : cell) (r : row) :
  c <> c' -> row_get c' (row_set c v r) = row_get c' r.
Proof.
  intros Hne. induction r as [|[k w] r IH]; simpl.
  - destruct (String.eqb_spec c c'); [contradiction | reflexivity].
  - destruct (String.eqb_spec k c) as [->|Hk]; simpl.
    + destruct (String.eqb_spec c c'); [contradiction | reflexivity].
    + destruct (String.eqb k c'); auto.
Qed.

Lemma row_keys_set (c : string) (v : cell) (r : row) :
  row_keys (row_set c v r) = add_column c (row_keys r).
Proof.
  unfold add_column. induction r as [|[k w] r IH]; simpl; [reflexivity|].
  rewrite (String.eqb_sym c k).
  destruct (String.eqb k c) eqn:E; simpl; [reflexivity|].
  rewrite IH. unfold mem_str. destruct (existsb (String.eqb c) (row_keys r)); reflexivity.
Qed.

Lemma row_get_del_eq (c : string) (r : row) : row_get c (row_del c r) = None.
Proof.
  induction r as [|[k w] r IH]; simpl; [reflexivity|].
  destruct (String.eqb k c) eqn:E; simpl; [assumption|]. now rewrite E.
Qed.

Lemma row_get_del_ne (c c' : string) (r : row) :
  c <> c' -> row_get c' (row_del c r) = row_get c' r.
Proof.
  intros Hne. induction r as [|[k w] r IH]; simpl; [reflexivity|].
  destruct (String.eqb_spec k c) as [->|Hk]; simpl.
  - destruct (String.eqb_spec c c'); [contradiction | assumption].
  - destruct (String.eqb k c'); auto.
Qed.

Lemma row_del_values (c : string) (r : row) (v : cell) :
  In v (map snd (row_del c r)) -> In v (map snd r).
Proof.
  unfold row_del. rewrite !in_map_iff. intros (kv & E & H).
  apply filter_In in H as [H _]. eauto.
Qed.

Lemma rename_values (sfx : string) (ovl : list string) (r : row) :
  map snd (rename sfx ovl r) = map snd r.
Proof. unfold rename. rewrite map_map. reflexivity. Qed.

(** A name that does not end in the suffix is the name of no renamed column. *)
Lemma row_get_rename (sfx : string) (ovl : list string) (c : string) (r : row) :
  (forall k, (k ++ sfx)%string <> c) ->
  row_get c (rename sfx ovl r) = if mem_str c ovl then None else row_get c r.
Proof.
  intros Hsfx. induction r as [|[k w] r IH]; simpl.
  - destruct (mem_str c ovl); reflexivity.
  - unfold suffixed at 1. destruct (mem_str k ovl) eqn:Ek.
    + destruct (String.eqb_spec (k ++ sfx) c) as [E|_]; [exfalso; exact (Hsfx _ E)|].
      rewrite IH. destruct (String.eqb_spec k c) as [->|_]; [now rewrite Ek|reflexivity].
    + destruct (String.eqb_spec k c) as [->|_]; [now rewrite Ek|]. apply IH.
Qed.

Lemma row_complete_spec (r : row) :
  row_complete r = true <-> ~ In NA (map snd r).
Proof.
  unfold row_complete. rewrite forallb_forall. split.
  - intros H Hin. apply in_map_iff in Hin as ([k v] & E & Hin). simpl in E; subst.
    apply H in Hin. discriminate.
  - intros H [k v] Hin. simpl. destruct v; auto.
    exfalso. apply H. apply in_map_iff. exists (k, NA). auto.
Qed.

End Rows.

(** ** Columns of a table, read and written *)

Section Frames.
Import Pandas.

Lemma Forall2_map_left {A B C} (P : B -> C -> Prop) (g : A -> B) l s :
  Forall2 P (map g l) s <-> Forall2 (fun a c => P (g a) c) l s.
Proof.
  revert s; induction l as [|a l IH]; intros s; simpl; split; intros H;
    inversion H; subst; constructor; auto; now apply IH.
Qed.

Lemma getcol_ok (c : string) (df : DataFrame) (s : list cell) :
  getcol c df = Ok s ->
  In c (columns df) /\ s = map (cell_of c) (rows df) /\
  Forall (fun r => row_get c r = Some (cell_of c r)) (rows df).
Proof.
  unfold getcol. destruct (mem_str c (columns df)) eqn:E; [|discriminate].
  apply mem_str_In in E. intros H. split; [assumption|].
  apply traverse_ok in H. induction H as [|r v rs s Hr _ [IH1 IH2]]; simpl.
  - split; [reflexivity | constructor].
  - unfold cell_of at 1. destruct (row_get c r) as [w|] eqn:Er; [|discriminate].
    injection Hr as <-. split; [now f_equal|].
    constructor; [|assumption]. unfold cell_of. now rewrite Er.
Qed.

Lemma getcol_total (c : string) (df : DataFrame) :
  In c (columns df) ->
  Forall (fun r => In c (row_keys r)) (rows df) ->
  getcol c df = Ok (map (cell_of c) (rows df)).
Proof.
  intros Hc Hr. unfold getcol. apply mem_str_In in Hc. rewrite Hc.
  apply traverse_total. eapply Forall_impl; [|exact Hr].
  intros r Hin. unfold cell_of. destruct (row_get c r) eqn:E; [reflexivity|].
  apply row_get_None in E. contradiction.
Qed.

Lemma assign_rows_map (c : string) (g : row -> cell) (rs : list row) :
  assign_rows c rs (map g rs) = map (fun r => row_set c (g r) r) rs.
Proof. induction rs as [|r rs IH]; simpl; [reflexivity|]. now rewrite IH. Qed.

Lemma assign_rows_Forall2 (c : string) (P : row -> cell -> Prop) rs s :
  Forall2 P rs s ->
  Forall2 (fun r r' => exists v, P r v /\ r' = row_set c v r) rs (assign_rows c rs s).
Proof. induction 1; simpl; constructor; eauto. Qed.

Lemma Forall2_In_right {A B} (P : A -> B -> Prop) l l' b :
  Forall2 P l l' -> In b l' -> exists a, In a l /\ P a b.
Proof.
  induction 1 as [|x y l l' Hxy _ IH]; simpl; [tauto|].
  intros [<-|Hin]; [eauto|]. destruct (IH Hin) as (a & Ha & HP). eauto.
Qed.


Lemma select_rows_map (p : row -> bool) (rs : list row) :
  select_rows rs (map p rs) = filter p rs.
Proof.
  induction rs as [|r rs IH]; simpl; [reflexivity|].
  destruct (p r); now rewrite IH.
Qed.

Lemma merge_ok (left right : DataFrame) (on : string) (df : DataFrame) :
  merge left right on = Ok df ->
  In on (columns left) /\ In on (columns right) /\
  columns df = merge_columns on (columns left) (columns right) /\
  rows df = flat_map (fun l => map (join_rows on (overlap on (columns left) (columns right)) l)
                                   (filter (key_match on l) (rows right)))
                     (rows left).
Proof.
  unfold merge. intros H.
  apply rbind_ok in H as (sl & Hl & H). apply rbind_ok in H as (sr & Hr & H).
  apply getcol_ok in Hl as (Hl & _). apply getcol_ok in Hr as (Hr & _).
  injection H as <-. simpl. auto.
Qed.

Lemma In_merge_rows (left right : DataFrame) (on : string) (df : DataFrame) (x : row) :
  merge left right on = Ok df -> In x (rows df) ->
  exists l r, In l (rows left) /\ In r (rows right) /\ key_match on l r = true /\
              x = join_rows on (overlap on (columns left) (columns right)) l r.
Proof.
  intros H Hx. apply merge_ok in H as (_ & _ & _ & Hrows).
  rewrite Hrows in Hx. apply in_flat_map in Hx as (l & Hl & Hx).
  apply in_map_iff in Hx as (r & <- & Hr). apply filter_In in Hr as [Hr Hk].
  eauto 6.
Qed.

Lemma key_match_cell_of (on : string) (l r : row) :
  key_match on l r = true -> cell_of on r = cell_of on l.
Proof.
  unfold key_match, cell_of.
  destruct (row_get on l), (row_get on r); try discriminate.
  intros H. apply cell_eqb_eq in H. congruence.
Qed.

Lemma filter_unique_key {A} (f : A -> cell) (p : A -> bool) (k : cell) (xs : list A) :
  NoDup (map f xs) -> (forall x, In x xs -> p x = true -> f x = k) ->
  (List.length (filter p xs) <= 1)%nat.
Proof.
  induction xs as [|x xs IH]; simpl; intros Hnd Hk; [lia|].
  inversion Hnd as [|? ? Hx Hnd']; subst.
  destruct (p x) eqn:Ex; [|apply IH; auto].
  simpl. enough (filter p xs = []) as -> by (simpl; lia).
  destruct (filter p xs) as [|y ys] eqn:E; [reflexivity|].
  assert (Hy : In y (filter p xs)) by (rewrite E; simpl; auto).
  apply filter_In in Hy as [Hy1 Hy2].
  exfalso. apply Hx. rewrite (Hk x); auto. rewrite <- (Hk y); auto.
  now apply in_map.
Qed.

Lemma flat_map_length_le {A B} (f : A -> list B) (l : list A) :
  (forall a, In a l -> (List.length (f a) <= 1)%nat) ->
  (List.length (flat_map f l) <= List.length l)%nat.
Proof.
  induction l as [|a l IH]; simpl; intros H; [lia|].
  rewrite length_app. specialize (H a (or_introl eq_refl)) as Ha.
  assert (List.length (flat_map f l) <= List.length l)%nat by (apply IH; auto). lia.
Qed.

(** A join against a table whose keys are all different keeps at most one
    row per left row. *)
Lemma merge_length_le (left right : DataFrame) (on : string) (df : DataFrame) :
  NoDup (map (cell_of on) (rows right)) ->
  merge left right on = Ok df ->
  (List.length (rows df) <= List.length (rows left))%nat.
Proof.
  intros Hnd H. apply merge_ok in H as (_ & _ & _ & ->).
  apply flat_map_length_le. intros l _. rewrite length_map.
  apply (filter_unique_key (cell_of on) _ (cell_of on l)); [assumption|].
  intros r _. apply key_match_cell_of.
Qed.

End Frames.

(** ** process_stop_times *)

Section ProcessStopTimes.
Import Pandas Rowwise.

Lemma In_add_column_same (c : string) (cols : list string) :
  In c cols -> add_column c cols = cols.
Proof. intros H. unfold add_column. apply mem_str_In in H. now rewrite H. Qed.

Lemma In_add_column (c c' : string) (cols : list string) :
  In c' (add_column c cols) <-> c' = c \/ In c' cols.
Proof.
  unfold add_column. destruct (mem_str c cols) eqn:E.
  - apply mem_str_In in E. split; [auto | intros [->|]; auto].
  - rewrite in_app_iff. simpl. intuition congruence.
Qed.

Lemma setcol_map_ok (c : string) (f : cell -> cell) (df : DataFrame) (s : list cell) :
  getcol c df = Ok s ->
  setcol c (map f s) df =
  {| columns := columns df;
     rows := map (fun r => row_set c (f (cell_of c r)) r) (rows df) |}.
Proof.
  intros H. apply getcol_ok in H as (Hc & -> & _).
  unfold setcol. rewrite In_add_column_same by assumption.
  f_equal. rewrite map_map. apply assign_rows_map.
Qed.

(** [process_stop_times] parses the two time columns of every row and keeps
    the rows that have no missing value left. *)
Lemma process_stop_times_ok (df df' : DataFrame) :
  create_dataframe.process_stop_times df = Ok df' ->
  In "arrival_time" (columns df) /\ In "departure_time" (columns df) /\
  columns df' = columns df /\
  rows df' = filter row_complete (map parse_times (rows df)).
Proof.
  unfold create_dataframe.process_stop_times. simpl. intros H.
  apply rbind_ok in H as (d2 & H & E). injection E as <-.
  apply rbind_ok in H as (d1 & H1 & H).
  apply rbind_ok in H1 as (s1 & H1 & E). injection E as <-.
  apply rbind_ok in H as (d2' & H2 & E). injection E as <-.
  apply rbind_ok in H2 as (s2 & H2 & E). injection E as <-.
  pose proof (getcol_ok _ _ _ H1) as (Hc1 & _ & _).
  rewrite (setcol_map_ok _ _ _ _ H1) in H2 |- *.
  pose proof (getcol_ok _ _ _ H2) as (Hc2 & _ & _). simpl in Hc2.
  rewrite (setcol_map_ok _ _ _ _ H2). simpl.
  repeat split; auto. f_equal. rewrite map_map. reflexivity.
Qed.

Lemma list_str_eqb_eq (a b : list string) : list_str_eqb a b = true <-> a = b.
Proof.
  revert b; induction a as [|x a IH]; intros [|y b]; simpl;
    try (split; [discriminate | intros H; discriminate H]); try tauto.
  rewrite andb_true_iff, String.eqb_eq, IH. split; [intros []|intros [=]]; subst; auto.
Qed.

Lemma nodup_str_NoDup (l : list string) : nodup_str l = true <-> NoDup l.
Proof.
  induction l as [|c l IH]; simpl.
  - split; [constructor | reflexivity].
  - rewrite andb_true_iff, negb_true_iff, mem_str_not_In, IH. split.
    + intros []. now constructor.
    + inversion 1; auto.
Qed.

Lemma well_formed_rows (df : DataFrame) :
  well_formed df = true ->
  NoDup (columns df) /\ Forall (fun r => row_keys r = columns df) (rows df).
Proof.
  unfold well_formed. rewrite andb_true_iff, nodup_str_NoDup, forallb_forall.
  intros [H1 H2]. split; [assumption|]. apply Forall_forall. intros r Hr.
  now apply list_str_eqb_eq, H2.
Qed.

(** On a table that has the two time columns, [process_stop_times] raises
    nothing, whatever the cells hold. *)
Lemma process_stop_times_total (df : DataFrame) :
  Forall (fun r => row_keys r = columns df) (rows df) ->
  In "arrival_time" (columns df) -> In "departure_time" (columns df) ->
  create_dataframe.process_stop_times df =
  Ok {| columns := columns df;
        rows := filter row_complete (map parse_times (rows df)) |}.
Proof.
  intros Hwf Ha Hd. unfold create_dataframe.process_stop_times. simpl.
  assert (H1 : getcol "arrival_time" df = Ok (map (cell_of "arrival_time") (rows df))).
  { apply getcol_total; [assumption|]. eapply Forall_impl; [|exact Hwf].
    intros r ->. assumption. }
  rewrite H1. simpl. rewrite (setcol_map_ok _ _ _ _ H1).
  set (df1 := {| columns := columns df; rows := _ |}).
  assert (H2 : getcol "departure_time" df1 = Ok (map (cell_of "departure_time") (rows df1))).
  { apply getcol_total; [assumption|]. simpl. apply Forall_map.
    eapply Forall_impl; [|exact Hwf]. intros r Hr. simpl.
    rewrite row_keys_set, Hr. rewrite In_add_column_same; assumption. }
  rewrite H2. simpl. rewrite (setcol_map_ok _ _ _ _ H2). simpl.
  unfold dropna. simpl. do 3 f_equal. rewrite map_map. reflexivity.
Qed.

End ProcessStopTimes.

(** ** The exception-and-world monad *)

Section Monad.
Import Pandas Os.

Lemma bind_ok {A B} (m : M A) (k : A -> M B) (w w2 : World) (b : B) :
  bind m k w = (Ok b, w2) ->
  exists a w1, m w = (Ok a, w1) /\ k a w1 = (Ok b, w2).
Proof.
  unfold bind. destruct (m w) as [[a|e] w1]; intros H; [eauto | discriminate].
Qed.

Lemma bind_raise {A B} (m : M A) (k : A -> M B) (w w2 : World) (e : exn) :
  bind m k w = (Raise e, w2) ->
  m w = (Raise e, w2) \/ exists a w1, m w = (Ok a, w1) /\ k a w1 = (Raise e, w2).
Proof.
  unfold bind. destruct (m w) as [[a|e'] w1]; intros H; [eauto | left; congruence].
Qed.

Lemma lift_ok {A} (r : result A) (w w' : World) (a : A) :
  lift r w = (Ok a, w') -> r = Ok a /\ w' = w.
Proof. unfold lift. intros [= -> ->]. auto. Qed.

Lemma lift_inv {A} (r r' : result A) (w w' : World) :
  lift r w = (r', w') -> r' = r /\ w' = w.
Proof. unfold lift. intros [= -> ->]. auto. Qed.

Lemma read_csv_inv (p : string) (w w' : World) (r : result DataFrame) :
  read_csv p w = (r, w') -> w' = w.
Proof.
  unfold read_csv. destruct (fs w !! p) as [[[df| | |]|]|];
    try destruct (csv_table df); intros [= _ <-]; reflexivity.
Qed.

Lemma read_csv_ok (p : string) (w w' : World) (df : DataFrame) :
  read_csv p w = (Ok df, w') ->
  w' = w /\ fs w !! p = Some (File (Csv df)) /\ csv_table df = true.
Proof.
  unfold read_csv. destruct (fs w !! p) as [[[d| | |]|]|]; try discriminate.
  destruct (csv_table d) eqn:E; [|discriminate]. intros [= <- <-]. auto.
Qed.

Lemma makedirs_inv (p : string) (w w' : World) (r : result unit) :
  makedirs p w = (r, w') ->
  cwd w' = cwd w /\
  forall q c, fs w' !! q = Some (File c) <-> fs w !! q = Some (File c).
Proof.
  unfold makedirs. destruct (fs w !! p) as [[c0|]|] eqn:E; intros [= <- <-];
    simpl; (split; [reflexivity|]); intros q c; try tauto.
  - destruct (decide (p = q)) as [->|Hne].
    + rewrite lookup_insert_eq, E. split; discriminate.
    + now rewrite lookup_insert_ne.
  - destruct (decide (p = q)) as [->|Hne].
    + rewrite lookup_insert_eq, E. split; discriminate.
    + now rewrite lookup_insert_ne.
Qed.

Lemma write_file_raise (p : string) (c : content) (w w' : World) (e : exn) :
  write_file p c w = (Raise e, w') -> w' = w.
Proof.
  unfold write_file. destruct (fs w !! p) as [[c0|]|]; intros H; inversion H; reflexivity.
Qed.

Lemma write_file_ok (p : string) (c : content) (w w' : World) :
  write_file p c w = (Ok tt, w') ->
  w' = {| cwd := cwd w; fs := <[p := File c]> (fs w) |}.
Proof.
  unfold write_file. destruct (fs w !! p) as [[c0|]|]; intros H; inversion H; reflexivity.
Qed.

End Monad.

(** ** create_dataframe.main, step by step *)

Section AssemblerSteps.
Import Pandas Os Rowwise.
Context (py : PyLib).

Lemma load_data_inv (p : string) (cs : list string) (w w' : World) (r : result DataFrame) :
  create_dataframe.load_data p cs w = (r, w') -> w' = w.
Proof.
  unfold create_dataframe.load_data, bind.
  destruct (read_csv p w) as [[df|e] w1] eqn:E; apply read_csv_inv in E; subst w1.
  - destruct cs; unfold ret, lift; intros [= _ <-]; reflexivity.
  - intros [= _ <-]. reflexivity.
Qed.

Lemma csv_table_spec (df : DataFrame) :
  csv_table df = true ->
  NoDup (columns df) /\ Forall (fun r => row_keys r = columns df) (rows df) /\
  stamp_free df.
Proof.
  unfold csv_table. rewrite andb_true_iff. intros [Hwf Hs].
  apply well_formed_rows in Hwf as [H1 H2]. repeat split; auto.
  apply Forall_forall. intros r Hr v Hv.
  rewrite forallb_forall in Hs. specialize (Hs r Hr). rewrite forallb_forall in Hs.
  apply in_map_iff in Hv as (kv & <- & Hkv). apply Hs in Hkv.
  now apply negb_true_iff in Hkv.
Qed.

Lemma map_fst_filter (p : string -> bool) (r : row) :
  map fst (filter (fun kv => p (fst kv)) r) = filter p (map fst r).
Proof.
  induction r as [|[k v] r IH]; simpl; [reflexivity|].
  destruct (p k); simpl; now rewrite IH.
Qed.

Lemma drop_ok (cs : list string) (df df' : DataFrame) :
  drop cs df = Ok df' ->
  columns df' = filter (fun c => negb (mem_str c cs)) (columns df) /\
  rows df' = map (fun r => filter (fun kv => negb (mem_str (fst kv) cs)) r) (rows df).
Proof.
  unfold drop. destruct (filter _ cs); [|discriminate]. intros [= <-]. auto.
Qed.

(** What [load_data] returns has the shape of a table read from text: each
    row has the columns of the header and no cell is a timestamp. *)
Lemma load_data_table (p : string) (cs : list string) (w w' : World) (df : DataFrame) :
  create_dataframe.load_data p cs w = (Ok df, w') ->
  Forall (fun r => row_keys r = columns df) (rows df) /\ stamp_free df.
Proof.
  unfold create_dataframe.load_data. intros H.
  apply bind_ok in H as (raw & w1 & Hr & H).
  apply read_csv_ok in Hr as (-> & _ & Hcsv).
  apply csv_table_spec in Hcsv as (_ & Hk & Hs).
  assert (Hd : df = raw \/ drop cs raw = Ok df).
  { destruct cs; [left; unfold ret in H; congruence|].
    right. now apply lift_ok in H as [H _]. }
  destruct Hd as [->|Hd]; [auto|].
  apply drop_ok in Hd as [Hc Hrows]. unfold stamp_free in *. rewrite Hc, Hrows. split.
  - apply Forall_map. eapply Forall_impl; [|exact Hk]. intros r Hr. simpl.
    unfold row_keys in *. rewrite <- Hr.
    apply (map_fst_filter (fun c => negb (mem_str c cs))).
  - apply Forall_map.
    eapply Forall_impl; [|exact Hs]. intros r Hr v Hv. apply Hr.
    apply in_map_iff in Hv as (kv & <- & Hkv). apply filter_In in Hkv as [Hkv _].
    now apply in_map.
Qed.

Lemma traverse_compose {A B C} (f : A -> result B) (g : B -> result C) l d l' :
  traverse f l = Ok d -> traverse g d = Ok l' ->
  Forall2 (fun a c => exists b, f a = Ok b /\ g b = Ok c) l l'.
Proof.
  intros H1 H2. apply traverse_ok in H1. apply traverse_ok in H2.
  revert l' H2. induction H1; intros l2 H2; inversion H2; subst; constructor; eauto.
Qed.

Lemma setcol_rows_Forall2 (c c' : string) (P : cell -> cell -> Prop)
      (df : DataFrame) (s s' : list cell) :
  getcol c df = Ok s -> Forall2 P s s' ->
  Forall2 (fun r r' => exists v, P (cell_of c r) v /\ r' = row_set c' v r)
          (rows df) (rows (setcol c' s' df)).
Proof.
  intros Hg HP. apply getcol_ok in Hg as (_ & -> & _).
  apply (proj1 (Forall2_map_left P (cell_of c) _ _)) in HP. simpl.
  apply (assign_rows_Forall2 c' (fun r v => P (cell_of c r) v)). exact HP.
Qed.

Lemma setconst_rows (c : string) (v : cell) (df : DataFrame) :
  rows (setconst c v df) = map (row_set c v) (rows df).
Proof. unfold setconst, setcol. simpl. apply (assign_rows_map c (fun _ => v)). Qed.

Lemma loc_eq_rows (c : string) (k : cell) (df : DataFrame) (s : list cell) :
  getcol c df = Ok s ->
  rows (loc (map (fun v => elem_eq v k) s) df) =
  filter (fun r => elem_eq (cell_of c r) k) (rows df).
Proof.
  intros H. apply getcol_ok in H as (_ & -> & _). simpl.
  rewrite map_map. apply select_rows_map.
Qed.

(** The successful runs of [main]: each step with the table it yields. *)
Lemma main_ok (w w' : World) (metro : DataFrame) :
  create_dataframe.main py w = (Ok metro, w') ->
  exists trips routes stops stop_times st tr fs0 lat lon final labels seconds,
    loaded w trips routes stops stop_times /\
    create_dataframe.process_stop_times stop_times = Ok st /\
    merge trips routes "route_id" = Ok tr /\
    merge st stops "stop_id" = Ok fs0 /\
    (try s <- getcol "stop_lat" fs0; to_numeric py s) = Ok lat /\
    (try s <- getcol "stop_lon" (setcol "stop_lat" lat fs0); to_numeric py s) = Ok lon /\
    merge (setcol "stop_lon" lon (setcol "stop_lat" lat fs0)) tr "trip_id" = Ok final /\
    getcol "route_type" final = Ok labels /\
    (try s <- getcol "arrival_time" (loc (map (fun v => elem_eq v (num 1)) labels) final);
     try d <- traverse (minus_datetime create_dataframe.datetime_1970_1_1) s;
     traverse total_seconds_int d) = Ok seconds /\
    metro = setconst "elevation" (num 0)
              (setcol "arrival_time_int" seconds
                 (loc (map (fun v => elem_eq v (num 1)) labels) final)) /\
    create_dataframe.save_to_csv py metro "metro_data.csv"
      (path_join (cwd w) "data") w = (Ok tt, w').
Proof.
  unfold create_dataframe.main. intros H.
  apply bind_ok in H as (cd & w0 & Hcd & H). unfold getcwd in Hcd.
  injection Hcd as <- <-.
  apply bind_ok in H as (trips & w1 & Ht & H).
  pose proof (load_data_inv _ _ _ _ _ Ht) as ->.
  apply bind_ok in H as (routes & w1 & Hr & H).
  pose proof (load_data_inv _ _ _ _ _ Hr) as ->.
  apply bind_ok in H as (stops & w1 & Hs & H).
  pose proof (load_data_inv _ _ _ _ _ Hs) as ->.
  apply bind_ok in H as (stop_times & w1 & Hst & H).
  pose proof (load_data_inv _ _ _ _ _ Hst) as ->.
  apply bind_ok in H as (st & w1 & H1 & H). apply lift_ok in H1 as [H1 ->].
  apply bind_ok in H as (tr & w1 & H2 & H). apply lift_ok in H2 as [H2 ->].
  apply bind_ok in H as (fs0 & w1 & H3 & H). apply lift_ok in H3 as [H3 ->].
  apply bind_ok in H as (lat & w1 & H4 & H). apply lift_ok in H4 as [H4 ->].
  apply bind_ok in H as (lon & w1 & H5 & H). apply lift_ok in H5 as [H5 ->].
  apply bind_ok in H as (final & w1 & H6 & H). apply lift_ok in H6 as [H6 ->].
  apply bind_ok in H as (mask & w1 & H7 & H). apply lift_ok in H7 as [H7 ->].
  apply rbind_ok in H7 as (labels & H7 & E). injection E as <-.
  apply bind_ok in H as (seconds & w1 & H8 & H). apply lift_ok in H8 as [H8 ->].
  apply bind_ok in H as ([] & w1 & H9 & H). unfold ret in H. injection H as <- <-.
  exists trips, routes, stops, stop_times, st, tr, fs0, lat, lon, final, labels, seconds.
  unfold loaded, data_path. repeat split; assumption.
Qed.

End AssemblerSteps.

(** ** Every assembled row is joined from one row of each table *)

Section AssemblerRows.
Import Pandas Os Rowwise.
Context (py : PyLib).

Lemma loaded_fun (w : World) t r s st t' r' s' st' :
  loaded w t r s st -> loaded w t' r' s' st' ->
  t' = t /\ r' = r /\ s' = s /\ st' = st.
Proof.
  unfold loaded. intros (H1 & H2 & H3 & H4) (H1' & H2' & H3' & H4').
  rewrite H1 in H1'. rewrite H2 in H2'. rewrite H3 in H3'. rewrite H4 in H4'.
  repeat split; congruence.
Qed.

Lemma seconds_cell (v c : cell) :
  (exists b, minus_datetime create_dataframe.datetime_1970_1_1 v = Ok b /\
             total_seconds_int b = Ok c) ->
  exists t, v = Stamp t /\ c = num (t - create_dataframe.datetime_1970_1_1).
Proof.
  intros (b & H1 & H2). destruct v; simpl in H1; try discriminate.
  - injection H1 as <-. discriminate.
  - injection H1 as <-. simpl in H2. injection H2 as <-. eauto.
Qed.

Lemma main_rows (w w' : World) (trips routes stops stop_times metro : DataFrame) :
  loaded w trips routes stops stop_times ->
  create_dataframe.main py w = (Ok metro, w') ->
  forall m, In m (rows metro) ->
  exists st sp tr ro, assembled_from py trips routes stops stop_times st sp tr ro m.
Proof.
  intros Hl H m Hm.
  apply main_ok in H
    as (trips' & routes' & stops' & stop_times' & st & tr & fs0 & lat & lon & final
        & labels & seconds & Hl' & H1 & H2 & H3 & H4 & H5 & H6 & H7 & H8 & -> & _).
  destruct (loaded_fun _ _ _ _ _ _ _ _ _ Hl Hl') as (-> & -> & -> & ->). clear Hl'.
  set (metro0 := loc (map (fun v => elem_eq v (num 1)) labels) final) in *.
  (* the two added columns *)
  rewrite setconst_rows in Hm. apply in_map_iff in Hm as (m1 & <- & Hm1).
  apply rbind_ok in H8 as (s8 & Hs8 & H8). apply rbind_ok in H8 as (d8 & Hd8 & H8).
  pose proof (traverse_compose _ _ _ _ _ Hd8 H8) as HP.
  pose proof (setcol_rows_Forall2 _ "arrival_time_int" _ _ _ _ Hs8 HP) as HF.
  destruct (Forall2_In_right _ _ _ _ HF Hm1) as (f & Hf & v & Hv & ->).
  apply seconds_cell in Hv as (t & Ht & ->).
  pose proof (getcol_ok _ _ _ Hs8) as (_ & _ & Hget8).
  rewrite Forall_forall in Hget8. pose proof (Hget8 f Hf) as Hat. rewrite Ht in Hat.
  (* the filter on route_type *)
  unfold metro0 in Hf. rewrite (loc_eq_rows _ _ _ _ H7) in Hf.
  apply filter_In in Hf as [Hf Hone]. apply elem_eq_true in Hone as [Hone _].
  pose proof (getcol_ok _ _ _ H7) as (_ & _ & Hget7).
  rewrite Forall_forall in Hget7. pose proof (Hget7 f Hf) as Hrt. rewrite Hone in Hrt.
  (* the join on trip_id *)
  destruct (In_merge_rows _ _ _ _ _ H6 Hf) as (l & r & Hl2 & Hr & Hk6 & Ef).
  (* stop_lon and stop_lat *)
  apply rbind_ok in H5 as (s5 & Hs5 & H5). apply traverse_ok in H5.
  pose proof (setcol_rows_Forall2 _ "stop_lon" _ _ _ _ Hs5 H5) as HF5.
  destruct (Forall2_In_right _ _ _ _ HF5 Hl2) as (l1 & Hl1 & lonv & Hlon & ->).
  apply rbind_ok in H4 as (s4 & Hs4 & H4). apply traverse_ok in H4.
  pose proof (setcol_rows_Forall2 _ "stop_lat" _ _ _ _ Hs4 H4) as HF4.
  destruct (Forall2_In_right _ _ _ _ HF4 Hl1) as (j1 & Hj1 & latv & Hlat & ->).
  (* the join on stop_id *)
  destruct (In_merge_rows _ _ _ _ _ H3 Hj1) as (a & sp & Ha & Hsp & Hk3 & Ej1).
  apply process_stop_times_ok in H1 as (_ & _ & Hcst & Hrst).
  rewrite Hrst in Ha. apply filter_In in Ha as [Ha Hcomplete].
  apply in_map_iff in Ha as (st0 & <- & Hst0).
  (* the join on route_id *)
  destruct (In_merge_rows _ _ _ _ _ H2 Hr) as (tr0 & ro & Htr0 & Hro & Hk2 & Er).
  (* headers *)
  apply merge_ok in H3 as (_ & _ & Hc3 & _). apply merge_ok in H2 as (_ & _ & Hc2 & _).
  simpl in Ef. rewrite Hc3, Hc2, Hcst in Ef. rewrite Hcst in Ej1.
  exists st0, sp, tr0, ro. unfold assembled_from.
  repeat (split; [assumption|]).
  exists latv, lonv, t.
  unfold metro_row, final_row, stop_row, route_row, stop_join,
    final_stops_columns, tripsandroutes_columns.
  rewrite <- Ej1, <- Er, <- Ef. repeat split; assumption.
Qed.

End AssemblerRows.

(** ** Looking a column up in a joined row *)

Section JoinedRows.
Import Pandas Rowwise.

Lemma list_ascii_of_string_app (a b : string) :
  list_ascii_of_string (a ++ b) = (list_ascii_of_string a ++ list_ascii_of_string b)%list.
Proof. induction a as [|c a IH]; simpl; [reflexivity|]. now rewrite IH. Qed.

Lemma is_prefix_app (p l : list ascii) : is_prefix p (p ++ l) = true.
Proof.
  induction p as [|a p IH]; simpl; [reflexivity|].
  now rewrite Ascii.eqb_refl, IH.
Qed.

Lemma ends_with_app (k sfx : string) : ends_with sfx (k ++ sfx) = true.
Proof.
  unfold ends_with. rewrite list_ascii_of_string_app, rev_app_distr.
  apply is_prefix_app.
Qed.

Lemma plain_not_suffixed (c : string) :
  plain c = true ->
  (forall k, (k ++ "_x")%string <> c) /\ (forall k, (k ++ "_y")%string <> c).
Proof.
  unfold plain. rewrite andb_true_iff, !negb_true_iff. intros [Hx Hy].
  split; intros k E; subst c; rewrite ends_with_app in *; discriminate.
Qed.

Lemma row_get_join (on c : string) (ovl : list string) (l r : row) :
  plain c = true ->
  row_get c (join_rows on ovl l r) =
  if mem_str c ovl then None
  else match row_get c l with
       | Some v => Some v
       | None => row_get c (row_del on r)
       end.
Proof.
  intros Hp. apply plain_not_suffixed in Hp as [Hx Hy].
  unfold join_rows. rewrite row_get_app, !row_get_rename by assumption.
  destruct (mem_str c ovl); reflexivity.
Qed.

Lemma join_rows_values (on : string) (ovl : list string) (l r : row) (v : cell) :
  In v (map snd (join_rows on ovl l r)) -> In v (map snd l) \/ In v (map snd r).
Proof.
  unfold join_rows. rewrite map_app, !rename_values, in_app_iff.
  intros [H|H]; [auto|]. right. eapply row_del_values; eassumption.
Qed.

Lemma In_suffixed (sfx c : string) (ovl cols : list string) :
  (forall k, (k ++ sfx)%string <> c) ->
  In c (map (suffixed sfx ovl) cols) -> In c cols /\ ~ In c ovl.
Proof.
  intros Hs H. apply in_map_iff in H as (k & E & Hk). unfold suffixed in E.
  destruct (mem_str k ovl) eqn:Ek.
  - exfalso. exact (Hs _ E).
  - subst k. split; [assumption|]. now apply mem_str_not_In.
Qed.

Lemma In_merge_columns (on c : string) (l r : list string) :
  plain c = true -> In c (merge_columns on l r) ->
  (In c l \/ In c r) /\ ~ In c (overlap on l r).
Proof.
  intros Hp H. apply plain_not_suffixed in Hp as [Hx Hy].
  unfold merge_columns in H. apply in_app_iff in H as [H|H].
  - apply In_suffixed in H as [H1 H2]; auto.
  - apply In_suffixed in H as [H1 H2]; auto.
    apply filter_In in H1 as [H1 _]. auto.
Qed.

Lemma not_In_overlap (on c : string) (l r : list string) :
  ~ In c r -> mem_str c (overlap on l r) = false.
Proof.
  intros H. apply mem_str_not_In. unfold overlap. rewrite filter_In.
  intros [_ E]. apply andb_true_iff in E as [E _]. now apply mem_str_In in E.
Qed.

Lemma not_In_overlap_left (on c : string) (l r : list string) :
  ~ In c l -> mem_str c (overlap on l r) = false.
Proof.
  intros H. apply mem_str_not_In. unfold overlap. rewrite filter_In. tauto.
Qed.

(** *** The time columns of one parsed stop_times row *)

Lemma cell_of_set_eq (c : string) (v : cell) (r : row) : cell_of c (row_set c v r) = v.
Proof. unfold cell_of. now rewrite row_get_set_eq. Qed.

Lemma cell_of_set_ne (c c' : string) (v : cell) (r : row) :
  c <> c' -> cell_of c' (row_set c v r) = cell_of c' r.
Proof. intros H. unfold cell_of. now rewrite row_get_set_ne. Qed.

Lemma parse_times_arrival (st : row) :
  row_get "arrival_time" (parse_times st) =
  Some (to_datetime_coerce (cell_of "arrival_time" st)).
Proof.
  unfold parse_times. rewrite row_get_set_ne by discriminate.
  apply row_get_set_eq.
Qed.

Lemma parse_times_departure (st : row) :
  row_get "departure_time" (parse_times st) =
  Some (to_datetime_coerce (cell_of "departure_time" st)).
Proof.
  unfold parse_times. rewrite row_get_set_eq.
  now rewrite cell_of_set_ne by discriminate.
Qed.

Lemma parse_times_other (c : string) (st : row) :
  c <> "arrival_time" -> c <> "departure_time" ->
  row_get c (parse_times st) = row_get c st.
Proof.
  intros H1 H2. unfold parse_times.
  rewrite !row_get_set_ne by congruence. reflexivity.
Qed.

Lemma to_datetime_coerce_stamp (v : cell) (t : Z) :
  is_stamp v = false -> to_datetime_coerce v = Stamp t -> parsed v t.
Proof.
  destruct v as [|x|s|t']; simpl; try discriminate. intros _.
  destruct (strptime_HMS s) as [hms|] eqn:E; [|discriminate].
  intros [= <-]. exists s, hms. auto.
Qed.

Lemma to_datetime_coerce_cases (v : cell) :
  to_datetime_coerce v = NA \/ exists t, to_datetime_coerce v = Stamp t.
Proof.
  destruct v as [|x|s|t]; simpl; eauto. destruct (strptime_HMS s); eauto.
Qed.

Lemma cell_of_value (c : string) (r : row) :
  cell_of c r = NA \/ In (cell_of c r) (map snd r).
Proof.
  unfold cell_of. destruct (row_get c r) eqn:E; [|auto].
  right. eapply row_get_value; eassumption.
Qed.

Lemma cell_of_Str (c : string) (r : row) (s : string) :
  cell_of c r = Str s -> row_get c r = Some (Str s).
Proof. unfold cell_of. destruct (row_get c r); [congruence | discriminate]. Qed.

Lemma cell_of_not_stamp (c : string) (r : row) :
  (forall v, In v (map snd r) -> is_stamp v = false) -> is_stamp (cell_of c r) = false.
Proof.
  intros H. destruct (cell_of_value c r) as [->|Hin]; [reflexivity | auto].
Qed.

(** A row that [process_stop_times] keeps has both times parsed. *)
Lemma parse_times_complete (st : row) :
  (forall v, In v (map snd st) -> is_stamp v = false) ->
  row_complete (parse_times st) = true ->
  exists ta td,
    parsed (cell_of "arrival_time" st) ta /\ parsed (cell_of "departure_time" st) td /\
    row_get "arrival_time" (parse_times st) = Some (Stamp ta) /\
    row_get "departure_time" (parse_times st) = Some (Stamp td).
Proof.
  intros Hs Hc. rewrite row_complete_spec in Hc.
  pose proof (parse_times_arrival st) as Ha.
  pose proof (parse_times_departure st) as Hd.
  destruct (to_datetime_coerce_cases (cell_of "arrival_time" st)) as [E|[ta Ea]].
  { exfalso. apply Hc. rewrite E in Ha. eapply row_get_value; eassumption. }
  destruct (to_datetime_coerce_cases (cell_of "departure_time" st)) as [E|[td Ed]].
  { exfalso. apply Hc. rewrite E in Hd. eapply row_get_value; eassumption. }
  exists ta, td. rewrite Ha, Hd, Ea, Ed. repeat split.
  - apply to_datetime_coerce_stamp; [now apply cell_of_not_stamp | assumption].
  - apply to_datetime_coerce_stamp; [now apply cell_of_not_stamp | assumption].
Qed.

End JoinedRows.

(** ** The columns of an assembled row *)

Section AssembledColumns.
Import Pandas Rowwise.
Context (py : PyLib) (trips routes stops stop_times : DataFrame).
Context (st sp tr ro m : row).
Hypothesis Hm : assembled_from py trips routes stops stop_times st sp tr ro m.

Lemma assembled_route_type : row_get "route_type" m = Some (num 1).
Proof.
  destruct Hm as (_ & _ & _ & _ & _ & _ & _ & lat & lon & t & _ & _ & _ & Hrt & _ & ->).
  unfold metro_row. rewrite !row_get_set_ne by discriminate. exact Hrt.
Qed.

Lemma assembled_elevation : row_get "elevation" m = Some (num 0).
Proof.
  destruct Hm as (_ & _ & _ & _ & _ & _ & _ & lat & lon & t & _ & _ & _ & _ & _ & ->).
  unfold metro_row. apply row_get_set_eq.
Qed.

Lemma assembled_seconds :
  exists t, row_get "arrival_time" m = Some (Stamp t) /\
            row_get "arrival_time_int" m =
            Some (num (t - create_dataframe.datetime_1970_1_1)).
Proof.
  destruct Hm as (_ & _ & _ & _ & _ & _ & _ & lat & lon & t & _ & _ & _ & _ & Hat & ->).
  exists t. unfold metro_row. split.
  - rewrite !row_get_set_ne by discriminate. exact Hat.
  - rewrite row_get_set_ne by discriminate. apply row_get_set_eq.
Qed.

(** The timestamp in [arrival_time] is the one parsed from the stop_times
    row: no other table holds a timestamp. *)
Lemma assembled_arrival_time (t : Z) :
  stamp_free stops -> stamp_free trips -> stamp_free routes ->
  row_get "arrival_time" m = Some (Stamp t) ->
  row_get "arrival_time" (parse_times st) = Some (Stamp t).
Proof.
  intros Hs Ht Hr.
  destruct Hm as (_ & Hsp & Htr & Hro & _ & _ & _ & lat & lon & t' & _ & _ & _ & _ & _ & ->).
  unfold stamp_free in *. rewrite Forall_forall in Hs, Ht, Hr.
  specialize (Hs _ Hsp). specialize (Ht _ Htr). specialize (Hr _ Hro).
  unfold metro_row. rewrite !row_get_set_ne by discriminate.
  unfold final_row. rewrite row_get_join by reflexivity.
  destruct (mem_str _ _); [discriminate|].
  destruct (row_get "arrival_time" (stop_row _ _ st sp lat lon)) as [v|] eqn:E.
  - intros [= ->]. unfold stop_row in E. rewrite !row_get_set_ne in E by discriminate.
    unfold stop_join in E. rewrite row_get_join in E by reflexivity.
    destruct (mem_str _ _); [discriminate|].
    destruct (row_get "arrival_time" (parse_times st)) as [v|]; [assumption|].
    apply row_get_value, row_del_values, Hs in E. discriminate.
  - intros H. apply row_get_value, row_del_values in H. unfold route_row in H.
    apply join_rows_values in H as [H|H]; [apply Ht in H | apply Hr in H]; discriminate.
Qed.

(** A column that only stop_times has keeps its parsed cell. *)
Lemma assembled_stop_times_column (c : string) (v : cell) :
  plain c = true ->
  ~ In c (columns stops) -> ~ In c (columns trips) -> ~ In c (columns routes) ->
  c <> "stop_lat" -> c <> "stop_lon" -> c <> "elevation" -> c <> "arrival_time_int" ->
  row_get c (parse_times st) = Some v -> row_get c m = Some v.
Proof.
  intros Hp Hs Ht Hr N1 N2 N3 N4 Hv.
  destruct Hm as (_ & _ & _ & _ & _ & _ & _ & lat & lon & t & _ & _ & _ & _ & _ & ->).
  unfold metro_row. rewrite !row_get_set_ne by congruence.
  unfold final_row. rewrite row_get_join by assumption.
  rewrite not_In_overlap.
  2:{ unfold tripsandroutes_columns. intros H.
      apply In_merge_columns in H as [[H|H] _]; auto. }
  unfold stop_row. rewrite !row_get_set_ne by congruence.
  unfold stop_join. rewrite row_get_join by assumption.
  rewrite not_In_overlap by assumption. now rewrite Hv.
Qed.

Hypothesis Hst : Forall (fun r => row_keys r = columns stop_times) (rows stop_times).
Hypothesis Hsp : Forall (fun r => row_keys r = columns stops) (rows stops).
Hypothesis Htr : Forall (fun r => row_keys r = columns trips) (rows trips).

Lemma assembled_left_none (c : string) :
  plain c = true ->
  ~ In c (columns stop_times) -> ~ In c (columns stops) ->
  c <> "stop_lat" -> c <> "stop_lon" -> c <> "elevation" -> c <> "arrival_time_int" ->
  c <> "arrival_time" -> c <> "departure_time" -> c <> "trip_id" ->
  forall lat lon seconds,
  row_get c (metro_row trips routes stops stop_times st sp tr ro lat lon seconds) =
  row_get c (route_row trips routes tr ro).
Proof.
  intros Hp Hcst Hcsp N1 N2 N3 N4 N5 N6 N7 lat lon seconds.
  destruct Hm as (Hin_st & Hin_sp & _).
  rewrite Forall_forall in Hst, Hsp.
  unfold metro_row. rewrite !row_get_set_ne by congruence.
  unfold final_row. rewrite row_get_join by assumption.
  rewrite not_In_overlap_left.
  2:{ unfold final_stops_columns. rewrite !In_add_column. intros [?|[?|H]]; try congruence.
      apply In_merge_columns in H as [[H|H] _]; auto. }
  unfold stop_row. rewrite !row_get_set_ne by congruence.
  unfold stop_join. rewrite row_get_join by assumption.
  rewrite not_In_overlap_left by assumption.
  rewrite parse_times_other by assumption.
  assert (E1 : row_get c st = None) by (apply row_get_None; now rewrite Hst).
  rewrite E1.
  assert (E2 : row_get c (row_del "stop_id" sp) = None).
  { apply row_get_None. intros H. apply Hcsp. rewrite <- (Hsp sp) by assumption.
    unfold row_keys, row_del in *. apply in_map_iff in H as (kv & <- & H).
    apply filter_In in H as [H _]. now apply in_map. }
  rewrite E2. now rewrite row_get_del_ne by congruence.
Qed.

End AssembledColumns.

Section RouteColumns.
Import Pandas Rowwise.
Context (py : PyLib) (trips routes stops stop_times : DataFrame).
Context (st sp tr ro m : row).
Hypothesis Hm : assembled_from py trips routes stops stop_times st sp tr ro m.
Hypothesis Hst : Forall (fun r => row_keys r = columns stop_times) (rows stop_times).
Hypothesis Hsp : Forall (fun r => row_keys r = columns stops) (rows stops).
Hypothesis Htr : Forall (fun r => row_keys r = columns trips) (rows trips).

(** A column that only routes has keeps the cell of the routes row. *)
Lemma assembled_routes_column (c : string) :
  plain c = true ->
  ~ In c (columns stop_times) -> ~ In c (columns stops) -> ~ In c (columns trips) ->
  c <> "stop_lat" -> c <> "stop_lon" -> c <> "elevation" -> c <> "arrival_time_int" ->
  c <> "arrival_time" -> c <> "departure_time" -> c <> "trip_id" -> c <> "route_id" ->
  row_get c m = row_get c ro.
Proof.
  intros Hp Hcst Hcsp Hctr N1 N2 N3 N4 N5 N6 N7 N8.
  pose proof Hm as (_ & _ & Hin_tr & _ & _ & _ & _ & lat & lon & t & _ & _ & _ & _ & _ & ->).
  rewrite (assembled_left_none py trips routes stops stop_times st sp tr ro _ Hm Hst Hsp)
    by assumption.
  unfold route_row. rewrite row_get_join by assumption.
  rewrite not_In_overlap_left by assumption.
  rewrite Forall_forall in Htr.
  assert (E : row_get c tr = None) by (apply row_get_None; now rewrite Htr).
  rewrite E. now rewrite row_get_del_ne by congruence.
Qed.

(** The route of an assembled row is the route of its routes row. *)
Lemma assembled_route_id :
  ~ In "route_id" (columns stop_times) -> ~ In "route_id" (columns stops) ->
  cell_of "route_id" m = cell_of "route_id" ro.
Proof.
  intros Hcst Hcsp.
  pose proof Hm as (_ & _ & _ & _ & _ & _ & Hk & lat & lon & t & _ & _ & _ & _ & _ & ->).
  unfold cell_of at 1.
  rewrite (assembled_left_none py trips routes stops stop_times st sp tr ro _ Hm Hst Hsp)
    by (try assumption; try reflexivity; discriminate).
  unfold route_row. rewrite row_get_join by reflexivity.
  assert (E : mem_str "route_id" (overlap "route_id" (columns trips) (columns routes)) = false).
  { apply mem_str_not_In. unfold overlap. rewrite filter_In.
    intros [_ H]. apply andb_true_iff in H as [_ H]. discriminate. }
  rewrite E. rewrite (key_match_cell_of _ _ _ Hk).
  unfold key_match in Hk. unfold cell_of.
  destruct (row_get "route_id" tr); [reflexivity | discriminate].
Qed.

End RouteColumns.

(** ** The assembled table *)

Section AssembledTable.
Import Pandas Os Rowwise.
Context (py : PyLib).
Context (w w' : World) (trips routes stops stop_times metro : DataFrame).
Hypothesis Hloaded : loaded w trips routes stops stop_times.
Hypothesis Hmain : create_dataframe.main py w = (Ok metro, w').

Lemma loaded_tables :
  (Forall (fun r => row_keys r = columns trips) (rows trips) /\ stamp_free trips) /\
  (Forall (fun r => row_keys r = columns routes) (rows routes) /\ stamp_free routes) /\
  (Forall (fun r => row_keys r = columns stops) (rows stops) /\ stamp_free stops) /\
  (Forall (fun r => row_keys r = columns stop_times) (rows stop_times) /\
   stamp_free stop_times).
Proof.
  destruct Hloaded as (H1 & H2 & H3 & H4).
  repeat split; eapply load_data_table; eassumption.
Qed.

(** An assembled row comes from a stop_times row whose two times the format
    accepts and which has no missing value in any column. *)
Lemma assembled_origin (m : row) :
  In m (rows metro) ->
  exists st sp tr ro ta td,
    assembled_from py trips routes stops stop_times st sp tr ro m /\
    parsed (cell_of "arrival_time" st) ta /\
    parsed (cell_of "departure_time" st) td /\
    row_get "departure_time" (parse_times st) = Some (Stamp td) /\
    row_get "arrival_time" m = Some (Stamp ta) /\
    row_get "arrival_time_int" m =
      Some (num (ta - create_dataframe.datetime_1970_1_1)).
Proof.
  intros Hm.
  destruct (main_rows py _ _ _ _ _ _ _ Hloaded Hmain m Hm) as (st & sp & tr & ro & Ha).
  destruct loaded_tables as ((_ & Str) & (_ & Sro) & (_ & Ssp) & (_ & Sst)).
  pose proof Ha as (Hst & _ & _ & _ & Hc & _).
  unfold stamp_free in Sst. rewrite Forall_forall in Sst. specialize (Sst _ Hst).
  destruct (parse_times_complete st Sst Hc) as (ta & td & Pa & Pd & Ea & Ed).
  destruct (assembled_seconds py _ _ _ _ _ _ _ _ _ Ha) as (t & Et & Ei).
  pose proof (assembled_arrival_time py _ _ _ _ _ _ _ _ _ Ha t Ssp Str Sro Et) as Et'.
  assert (t = ta) by congruence. subst t.
  exists st, sp, tr, ro, ta, td. split; [exact Ha|]. repeat split; assumption.
Qed.

End AssembledTable.

Section ElapsedSeconds.
Import Pandas Os Rowwise.


(** C1, as the code has it: the elapsed-seconds field [arrival_time_int] of
    every assembled row is the arrival time of day of its stop_times row in
    seconds since midnight, minus the 2208988800 seconds that separate
    1900-01-01, the date the parse gives to a time of day, from 1970-01-01,
    the instant the script subtracts.  No calendar date enters the value. *)
Theorem C1_elapsed_seconds_from_epoch (py : PyLib) (w w' : World)
        (trips routes stops stop_times metro : DataFrame) :
  loaded w trips routes stops stop_times ->
  create_dataframe.main py w = (Ok metro, w') ->
  forall m, In m (rows metro) ->
  exists st s hms,
    joined_from py trips routes stops stop_times st m /\
    row_get "arrival_time" st = Some (Str s) /\
    strptime_HMS s = Some hms /\
    row_get "arrival_time_int" m = Some (num (seconds_of_day hms - 2208988800)).
Proof.
  intros Hl Hmain m Hm.
  destruct (assembled_origin py _ _ _ _ _ _ _ Hl Hmain m Hm)
    as (st & sp & tr & ro & ta & td & Hj & (s & hms & Es & Ep & ->) & _ & _ & _ & Ei).
  exists st, s, hms. repeat split; try assumption.
  - now exists sp, tr, ro.
  - now apply cell_of_Str.
  - rewrite Ei. f_equal. f_equal.
    change create_dataframe.datetime_1970_1_1 with 0.
    change default_date_seconds with (-2208988800). lia.
Qed.

End ElapsedSeconds.

Section SampleRuns.
Import Pandas Os Rowwise Samples.

Lemma loaded_world1 :
  loaded world1 (loaded_trips world1) (loaded_routes world1)
         (loaded_stops world1) (loaded_stop_times world1).
Proof. unfold loaded. repeat split; vm_compute; reflexivity. Qed.

Lemma main_world1 :
  create_dataframe.main python world1 = (Ok (assembled world1), after_assembler world1).
Proof. vm_compute. reflexivity. Qed.

Lemma C1_elapsed_seconds_witness :
  exists st s hms,
    joined_from python (loaded_trips world1) (loaded_routes world1)
                (loaded_stops world1) (loaded_stop_times world1)
                st (nth 0 (rows (assembled world1)) []) /\
    row_get "arrival_time" st = Some (Str s) /\
    strptime_HMS s = Some hms /\
    row_get "arrival_time_int" (nth 0 (rows (assembled world1)) [])
    = Some (num (seconds_of_day hms - 2208988800)).
Proof.
  apply (C1_elapsed_seconds_from_epoch python world1 (after_assembler world1) _ _ _ _
           (assembled world1)).
  - exact loaded_world1.
  - exact main_world1.
  - vm_compute. auto.
Defined.

(** The first visit of [stop_times1] arrives at 08:15:30.  The row assembled
    from it has [arrival_time_int] -2208959070, not 29730. *)
Lemma C1_elapsed_seconds_counterexample :
  exists st m,
    fst (create_dataframe.main python world1) = Ok (assembled world1) /\
    In m (rows (assembled world1)) /\
    joined_from python (loaded_trips world1) (loaded_routes world1)
                (loaded_stops world1) (loaded_stop_times world1) st m /\
    row_get "arrival_time" st = Some (Str "08:15:30") /\
    row_get "arrival_time_int" m = Some (num (-2208959070)) /\
    row_get "arrival_time_int" m <> Some (num (8 * 3600 + 15 * 60 + 30)).
Proof.
  exists (nth 0 (rows (loaded_stop_times world1)) []), (nth 0 (rows (assembled world1)) []).
  split; [vm_compute; reflexivity|].
  split; [vm_compute; auto|].
  split.
  { exists (nth 0 (rows (loaded_stops world1)) []), (nth 0 (rows (loaded_trips world1)) []),
      (nth 0 (rows (loaded_routes world1)) []).
    unfold assembled_from.
    do 4 (split; [vm_compute; auto|]).
    do 3 (split; [vm_compute; reflexivity|]).
    exists (decimal 4138 100), (decimal 217 100), (-2208959070).
    repeat split; vm_compute; reflexivity. }
  split; [vm_compute; reflexivity|].
  assert (E : row_get "arrival_time_int" (nth 0 (rows (assembled world1)) [])
              = Some (num (-2208959070))) by (vm_compute; reflexivity).
  split; [exact E|]. rewrite E.
  intros H. injection H as H. discriminate.
Qed.

End SampleRuns.

Section SubwayRows.
Import Pandas Os Rowwise.

(** C4: in every row of the assembled table [route_type] is the subway code
    1, and both time fields of the stop_times row it is joined from were
    parsed under [%H:%M:%S]; the row carries the parsed arrival time, and the
    parsed departure time too when stop_times is the only table with a
    [departure_time] column. *)
Theorem C4_subway_rows_with_parsed_times (py : PyLib) (w w' : World)
        (trips routes stops stop_times metro : DataFrame) :
  loaded w trips routes stops stop_times ->
  create_dataframe.main py w = (Ok metro, w') ->
  forall m, In m (rows metro) ->
  row_get "route_type" m = Some (num 1) /\
  exists st ta td,
    joined_from py trips routes stops stop_times st m /\
    parsed (cell_of "arrival_time" st) ta /\
    parsed (cell_of "departure_time" st) td /\
    row_get "arrival_time" m = Some (Stamp ta) /\
    (~ In "departure_time" (columns stops) ->
     ~ In "departure_time" (columns trips) ->
     ~ In "departure_time" (columns routes) ->
     row_get "departure_time" m = Some (Stamp td)).
Proof.
  intros Hl Hmain m Hm.
  destruct (assembled_origin py _ _ _ _ _ _ _ Hl Hmain m Hm)
    as (st & sp & tr & ro & ta & td & Ha & Pa & Pd & Ed & Ea & _).
  split; [eapply assembled_route_type; eassumption|].
  exists st, ta, td. repeat split; try assumption.
  - now exists sp, tr, ro.
  - intros N1 N2 N3.
    eapply assembled_stop_times_column; try eassumption; try reflexivity; discriminate.
Qed.

End SubwayRows.

Section SubwayRowsSample.
Import Pandas Os Rowwise Samples.

Lemma C4_subway_rows_witness :
  row_get "route_type" (nth 1 (rows (assembled world1)) []) = Some (num 1) /\
  exists st ta td,
    joined_from python (loaded_trips world1) (loaded_routes world1)
                (loaded_stops world1) (loaded_stop_times world1)
                st (nth 1 (rows (assembled world1)) []) /\
    parsed (cell_of "arrival_time" st) ta /\
    parsed (cell_of "departure_time" st) td /\
    row_get "arrival_time" (nth 1 (rows (assembled world1)) []) = Some (Stamp ta) /\
    (~ In "departure_time" (columns (loaded_stops world1)) ->
     ~ In "departure_time" (columns (loaded_trips world1)) ->
     ~ In "departure_time" (columns (loaded_routes world1)) ->
     row_get "departure_time" (nth 1 (rows (assembled world1)) []) = Some (Stamp td)).
Proof.
  apply (C4_subway_rows_with_parsed_times python world1 (after_assembler world1) _ _ _ _
           (assembled world1)).
  - exact loaded_world1.
  - exact main_world1.
  - vm_compute. auto.
Defined.

End SubwayRowsSample.

Section MissingValues.
Import Pandas Os Rowwise.

Lemma parse_times_keeps_missing (c : string) (st : row) :
  row_get c st = Some NA -> row_complete (parse_times st) = false.
Proof.
  intros H. apply not_true_iff_false. rewrite row_complete_spec. intros Hn. apply Hn.
  assert (E : cell_of c st = NA) by (unfold cell_of; now rewrite H).
  destruct (string_dec c "arrival_time") as [->|N1].
  { apply (row_get_value "arrival_time"). rewrite parse_times_arrival, E. reflexivity. }
  destruct (string_dec c "departure_time") as [->|N2].
  { apply (row_get_value "departure_time"). rewrite parse_times_departure, E. reflexivity. }
  apply (row_get_value c). now rewrite parse_times_other.
Qed.

(** C10: once the two time columns are parsed, [process_stop_times] keeps
    exactly the rows with no missing value in any column.  A stop_times row
    with a missing value in whatever column is dropped, also when its times
    parse, and every assembled row is joined from a stop_times row that has
    none. *)
Theorem C10_any_missing_value_drops_the_row (py : PyLib) (w w' : World)
        (trips routes stops stop_times metro : DataFrame) :
  loaded w trips routes stops stop_times ->
  create_dataframe.main py w = (Ok metro, w') ->
  (exists kept,
     create_dataframe.process_stop_times stop_times = Ok kept /\
     rows kept = filter row_complete (map parse_times (rows stop_times)) /\
     forall st c, In st (rows stop_times) -> row_get c st = Some NA ->
                  ~ In (parse_times st) (rows kept)) /\
  (forall m, In m (rows metro) ->
     exists st, joined_from py trips routes stops stop_times st m /\
                forall c, row_get c st <> Some NA).
Proof.
  intros Hl Hmain. split.
  - pose proof Hmain as H. apply main_ok in H
      as (trips' & routes' & stops' & stop_times' & kept & tr & fs0 & lat & lon & final
          & labels & seconds & Hl' & H1 & _).
    destruct (loaded_fun _ _ _ _ _ _ _ _ _ Hl Hl') as (_ & _ & _ & ->).
    exists kept. split; [assumption|].
    apply process_stop_times_ok in H1 as (_ & _ & _ & Hrows).
    split; [assumption|]. intros st c Hst Hna Hin.
    rewrite Hrows in Hin. apply filter_In in Hin as [_ Hc].
    rewrite (parse_times_keeps_missing c st Hna) in Hc. discriminate.
  - intros m Hm.
    destruct (main_rows py _ _ _ _ _ _ _ Hl Hmain m Hm) as (st & sp & tr & ro & Ha).
    exists st. split; [now exists sp, tr, ro|].
    destruct Ha as (_ & _ & _ & _ & Hc & _). intros c Hna.
    rewrite (parse_times_keeps_missing c st Hna) in Hc. discriminate.
Qed.

End MissingValues.

Section MissingValuesSample.
Import Pandas Os Rowwise Samples.

Lemma C10_any_missing_value_witness :
  (exists kept,
     create_dataframe.process_stop_times (loaded_stop_times world1) = Ok kept /\
     rows kept = filter row_complete (map parse_times (rows (loaded_stop_times world1))) /\
     forall st c, In st (rows (loaded_stop_times world1)) -> row_get c st = Some NA ->
                  ~ In (parse_times st) (rows kept)) /\
  (forall m, In m (rows (assembled world1)) ->
     exists st, joined_from python (loaded_trips world1) (loaded_routes world1)
                            (loaded_stops world1) (loaded_stop_times world1) st m /\
                forall c, row_get c st <> Some NA).
Proof.
  apply (C10_any_missing_value_drops_the_row python world1 (after_assembler world1)).
  - exact loaded_world1.
  - exact main_world1.
Defined.

(** The fifth visit of [stop_times1] has times that parse and no stop
    sequence: it is dropped. *)
Example missing_stop_sequence_dropped :
  let st := nth 4 (rows (loaded_stop_times world1)) [] in
  row_get "arrival_time" (parse_times st) = Some (Stamp (-2208958200)) /\
  row_get "stop_sequence" st = Some NA /\
  row_complete (parse_times st) = false /\
  List.length (rows (assembled world1)) = 2%nat.
Proof. vm_compute. auto. Qed.

End MissingValuesSample.

(** ** Row counts *)

Section RowCounts.
Import Pandas Os Rowwise.

Lemma NoDup_flat_map_key {A B} (f : A -> cell) (h : B -> cell) (g : A -> list B)
      (ls : list A) :
  NoDup (map f ls) ->
  (forall l, In l ls ->
     (List.length (g l) <= 1)%nat /\ forall x, In x (g l) -> h x = f l) ->
  NoDup (map h (flat_map g ls)).
Proof.
  induction ls as [|l ls IH]; simpl; intros Hnd Hg; [constructor|].
  inversion Hnd as [|? ? Hl Hnd']; subst.
  assert (IH' : NoDup (map h (flat_map g ls))) by (apply IH; auto).
  destruct (Hg l (or_introl eq_refl)) as [Hlen Hkey].
  destruct (g l) as [|x [|y xs]]; simpl in *; [assumption| |lia].
  constructor; [|assumption].
  rewrite (Hkey x (or_introl eq_refl)). intros Hin. apply Hl.
  apply in_map_iff in Hin as (z & Ez & Hz).
  apply in_flat_map in Hz as (l' & Hl' & Hz).
  destruct (Hg l' (or_intror Hl')) as [_ Hk']. rewrite (Hk' z Hz) in Ez.
  rewrite <- Ez. now apply in_map.
Qed.

Lemma unique_key_spec (c : string) (df : DataFrame) :
  unique_key c df ->
  NoDup (map (cell_of c) (rows df)) /\
  Forall (fun r => row_get c r = Some (cell_of c r)) (rows df).
Proof.
  intros (s & Hs & Hnd). apply getcol_ok in Hs as (_ & -> & Hget). auto.
Qed.

(** When no two trips share a trip_id and no two routes share a route_id,
    the join of trips and routes has no two rows with the same trip_id. *)
Lemma tripsandroutes_unique (trips routes tr : DataFrame) :
  merge trips routes "route_id" = Ok tr ->
  unique_key "trip_id" trips -> unique_key "route_id" routes ->
  In "trip_id" (columns tr) ->
  NoDup (map (cell_of "trip_id") (rows tr)).
Proof.
  intros Hm Ht Hr Hc.
  apply unique_key_spec in Ht as [Ht Htget]. apply unique_key_spec in Hr as [Hr _].
  apply merge_ok in Hm as (_ & _ & Hcols & ->). rewrite Hcols in Hc.
  apply In_merge_columns in Hc as [_ Hovl]; [|reflexivity].
  apply mem_str_not_In in Hovl.
  apply (NoDup_flat_map_key (cell_of "trip_id")); [assumption|].
  intros l Hl. split.
  - rewrite length_map.
    apply (filter_unique_key (cell_of "route_id") _ (cell_of "route_id" l)); [assumption|].
    intros r _. apply key_match_cell_of.
  - intros x Hx. apply in_map_iff in Hx as (r & <- & _).
    rewrite Forall_forall in Htget. specialize (Htget l Hl).
    unfold cell_of at 1. rewrite row_get_join by reflexivity.
    rewrite Hovl, Htget. reflexivity.
Qed.

Lemma setcol_length (c c' : string) (P : cell -> cell -> Prop)
      (df : DataFrame) (s s' : list cell) :
  getcol c df = Ok s -> Forall2 P s s' ->
  List.length (rows (setcol c' s' df)) = List.length (rows df).
Proof.
  intros Hg HP. symmetry. eapply Forall2_length_eq.
  eapply setcol_rows_Forall2; eassumption.
Qed.

Lemma filter_length_le {A} (p : A -> bool) (l : list A) :
  (List.length (filter p l) <= List.length l)%nat.
Proof. induction l as [|a l IH]; simpl; [lia|]. destruct (p a); simpl; lia. Qed.

(** C3, as the code has it: when no two rows of stops share a stop_id, no
    two rows of trips share a trip_id and no two rows of routes share a
    route_id, the assembled table has at most as many rows as the stop_times
    table. *)
Theorem C3_row_count_bounded_with_unique_keys (py : PyLib) (w w' : World)
        (trips routes stops stop_times metro : DataFrame) :
  loaded w trips routes stops stop_times ->
  unique_key "stop_id" stops ->
  unique_key "trip_id" trips ->
  unique_key "route_id" routes ->
  create_dataframe.main py w = (Ok metro, w') ->
  (List.length (rows metro) <= List.length (rows stop_times))%nat.
Proof.
  intros Hl Us Ut Ur Hmain.
  apply main_ok in Hmain
    as (trips' & routes' & stops' & stop_times' & st & tr & fs0 & lat & lon & final
        & labels & seconds & Hl' & H1 & H2 & H3 & H4 & H5 & H6 & H7 & H8 & -> & _).
  destruct (loaded_fun _ _ _ _ _ _ _ _ _ Hl Hl') as (-> & -> & -> & ->). clear Hl'.
  (* the two added columns keep the rows *)
  rewrite setconst_rows, length_map.
  apply rbind_ok in H8 as (s8 & Hs8 & H8). apply rbind_ok in H8 as (d8 & Hd8 & H8).
  pose proof (traverse_compose _ _ _ _ _ Hd8 H8) as HP8.
  rewrite (setcol_length _ _ _ _ _ _ Hs8 HP8).
  (* the filter *)
  rewrite (loc_eq_rows _ _ _ _ H7).
  etransitivity; [apply filter_length_le|].
  (* the join on trip_id *)
  pose proof (merge_ok _ _ _ _ H6) as (_ & Hc6 & _ & _).
  pose proof (tripsandroutes_unique _ _ _ H2 Ut Ur Hc6) as Htr.
  etransitivity; [exact (merge_length_le _ _ _ _ Htr H6)|].
  (* stop_lon and stop_lat keep the rows *)
  apply rbind_ok in H5 as (s5 & Hs5 & H5). apply traverse_ok in H5.
  rewrite (setcol_length _ _ _ _ _ _ Hs5 H5).
  apply rbind_ok in H4 as (s4 & Hs4 & H4). apply traverse_ok in H4.
  rewrite (setcol_length _ _ _ _ _ _ Hs4 H4).
  (* the join on stop_id *)
  apply unique_key_spec in Us as [Us _].
  etransitivity; [exact (merge_length_le _ _ _ _ Us H3)|].
  (* the rows dropped by process_stop_times *)
  apply process_stop_times_ok in H1 as (_ & _ & _ & ->).
  etransitivity; [apply filter_length_le|]. now rewrite length_map.
Qed.

End RowCounts.

Section RowCountsSample.
Import Pandas Os Rowwise Samples.

Lemma unique_key_sample (c : string) (df : DataFrame) (s : list cell) :
  getcol c df = Ok s -> nodup_str (map (str_of_cell python) s) = true ->
  unique_key c df.
Proof.
  intros Hs Hn. exists s. split; [assumption|].
  apply nodup_str_NoDup in Hn. eapply NoDup_map_inv. eassumption.
Qed.

Lemma C3_row_count_witness :
  (List.length (rows (assembled world1)) <= List.length (rows (loaded_stop_times world1)))%nat.
Proof.
  apply (C3_row_count_bounded_with_unique_keys python world1 (after_assembler world1)
           (loaded_trips world1) (loaded_routes world1) (loaded_stops world1)).
  - exact loaded_world1.
  - eapply unique_key_sample; vm_compute; reflexivity.
  - eapply unique_key_sample; vm_compute; reflexivity.
  - eapply unique_key_sample; vm_compute; reflexivity.
  - exact main_world1.
Defined.

(** [stops2] lists the stop S1 twice: the one visit of [stop_times2] gives
    two assembled rows. *)
Lemma C3_row_count_counterexample :
  fst (create_dataframe.main python world2) = Ok (assembled world2) /\
  rows (loaded_stop_times world2) = rows stop_times2 /\
  List.length (rows (loaded_stop_times world2)) = 1%nat /\
  List.length (rows (assembled world2)) = 2%nat /\
  ~ (List.length (rows (assembled world2))
     <= List.length (rows (loaded_stop_times world2)))%nat.
Proof.
  split; [vm_compute; reflexivity|].
  split; [vm_compute; reflexivity|].
  assert (E1 : List.length (rows (loaded_stop_times world2)) = 1%nat)
    by (vm_compute; reflexivity).
  assert (E2 : List.length (rows (assembled world2)) = 2%nat)
    by (vm_compute; reflexivity).
  rewrite E1, E2. repeat split; lia.
Qed.

End RowCountsSample.

(** ** The file the Assembler writes *)

Section SavedTable.
Import Pandas Os Rowwise.

Lemma save_to_csv_ok (py : PyLib) (df : DataFrame) (name dir : string) (w w' : World) :
  create_dataframe.save_to_csv py df name dir w = (Ok tt, w') ->
  fs w' !! path_join dir name = Some (File (Csv (csv_text py df))).
Proof.
  unfold create_dataframe.save_to_csv, to_csv. intros H.
  apply bind_ok in H as ([] & w1 & _ & H).
  apply write_file_ok in H as ->. simpl. apply lookup_insert_eq.
Qed.

End SavedTable.

(** ** create_geojson_features *)

Section Features.
Import Pandas Geojson Os Linewise.

Lemma zip4_map {A} (f1 f2 f3 f4 : A -> cell) (l : list A) :
  create_geojson_file.zip4 (map f1 l) (map f2 l) (map f3 l) (map f4 l) =
  map (fun a => (f1 a, f2 a, f3 a, f4 a)) l.
Proof. induction l as [|a l IH]; simpl; [reflexivity|]. now rewrite IH. Qed.

Lemma foldM_append {A B} (f : A -> result B) (l : list A) (acc out : list B) :
  foldM (fun bs a => try b <- f a; Ok (bs ++ [b])) l acc = Ok out ->
  exists bs, out = (acc ++ bs)%list /\ Forall2 (fun a b => f a = Ok b) l bs.
Proof.
  revert acc; induction l as [|a l IH]; simpl; intros acc H.
  - injection H as <-. exists []. split; [now rewrite app_nil_r | constructor].
  - apply rbind_ok in H as (acc' & Ha & H). apply rbind_ok in Ha as (b & Hb & Ha).
    injection Ha as <-. apply IH in H as (bs & -> & HF).
    exists (b :: bs). split; [now rewrite <- app_assoc | now constructor].
Qed.

Lemma groupby_ok (c : string) (df : DataFrame) (groups : list (cell * DataFrame)) :
  groupby c df = Ok groups ->
  In c (columns df) /\
  Forall (fun r => row_get c r = Some (cell_of c r)) (rows df) /\
  groups =
  map (fun k => (k, {| columns := columns df;
                       rows := filter (fun r => cell_eqb (cell_of c r) k) (rows df) |}))
      (sort_cells (unique (filter (fun v => negb (is_na v)) (map (cell_of c) (rows df))))).
Proof.
  unfold groupby. intros H. apply rbind_ok in H as (s & Hs & H).
  apply getcol_ok in Hs as (Hc & -> & Hget). injection H as <-.
  repeat split; try assumption. apply map_ext_in. intros k _. do 2 f_equal.
  apply filter_ext_in. intros r Hr. rewrite Forall_forall in Hget.
  rewrite (Hget r Hr). reflexivity.
Qed.

Lemma In_trip_keys (df : DataFrame) (line k : cell) :
  In k (trip_keys df line) <->
  k <> NA /\ exists r, In r (rows df) /\ on_line line r = true /\ cell_of "trip_id" r = k.
Proof.
  unfold trip_keys. rewrite In_sort_cells, In_unique, filter_In, in_map_iff. split.
  - intros [(r & <- & Hr) Hna]. apply filter_In in Hr as [Hr Hl]. split.
    + intros E. rewrite E in Hna. discriminate.
    + eauto.
  - intros [Hna (r & Hr & Hl & <-)]. split.
    + exists r. split; [reflexivity|]. apply filter_In. auto.
    + destruct (cell_of "trip_id" r); try reflexivity. congruence.
Qed.

Lemma trip_rows_spec (df : DataFrame) (line k : cell) (r : row) :
  In r (trip_rows df line k) <->
  In r (rows df) /\ on_line line r = true /\ cell_of "trip_id" r = k.
Proof.
  unfold trip_rows. rewrite !filter_In, cell_eqb_eq. tauto.
Qed.

Lemma trip_rows_nonempty (df : DataFrame) (line k : cell) :
  In k (trip_keys df line) -> trip_rows df line k <> [].
Proof.
  intros H. apply In_trip_keys in H as [_ (r & Hr & Hl & Hk)].
  intros E. assert (Hin : In r (trip_rows df line k)) by (apply trip_rows_spec; auto).
  rewrite E in Hin. contradiction.
Qed.

Lemma getattr_ok (c : string) (df : DataFrame) (s : list cell) :
  getattr c df = Ok s -> getcol c df = Ok s.
Proof. unfold getattr. destruct (mem_str c (columns df)); [auto | discriminate]. Qed.

Lemma getattr_getcol (c : string) (df : DataFrame) (s : list cell) :
  getcol c df = Ok s -> getattr c df = Ok s.
Proof.
  intros H. unfold getattr. pose proof (getcol_ok _ _ _ H) as (Hc & _).
  apply mem_str_In in Hc. now rewrite Hc.
Qed.

Lemma clean_coordinate_ok (v v' : cell) :
  clean_coordinate v = Ok v' -> v' = rounded v /\ is_real v = true.
Proof. destruct v; simpl; intros H; inversion H; auto. Qed.

Lemma clean_coordinate_real (v : cell) :
  is_real v = true -> clean_coordinate v = Ok (rounded v).
Proof. destruct v; simpl; intros H; try discriminate; reflexivity. Qed.

Lemma clean_position_ok (p p' : position) :
  clean_position p = Ok p' -> p' = rounded_position p /\ real_position p = true.
Proof.
  destruct p as [[[a b] c] d]. unfold clean_position. intros H.
  apply rbind_ok in H as (a' & Ha & H). apply rbind_ok in H as (b' & Hb & H).
  apply rbind_ok in H as (c' & Hc & H). apply rbind_ok in H as (d' & Hd & H).
  injection H as <-.
  apply clean_coordinate_ok in Ha as [-> Ra], Hb as [-> Rb], Hc as [-> Rc], Hd as [-> Rd].
  split; [reflexivity|]. simpl. now rewrite Ra, Rb, Rc, Rd.
Qed.

Lemma clean_position_real (p : position) :
  real_position p = true -> clean_position p = Ok (rounded_position p).
Proof.
  destruct p as [[[a b] c] d]. simpl. rewrite !andb_true_iff. intros [[[Ra Rb] Rc] Rd].
  unfold clean_position. rewrite !clean_coordinate_real by assumption. reflexivity.
Qed.

(** [LineString] returns the rounded points, and only when every
    coordinate is a number. *)
Lemma LineString_ok (l l' : list position) :
  LineString l = Ok l' ->
  l' = map rounded_position l /\ Forall (fun p => real_position p = true) l.
Proof.
  unfold LineString. intros H. apply traverse_ok in H.
  induction H as [|p p' l l' Hp _ [IH1 IH2]]; simpl; [auto|].
  apply clean_position_ok in Hp as [-> Hr]. subst l'. auto.
Qed.

Lemma LineString_real (l : list position) :
  Forall (fun p => real_position p = true) l -> LineString l = Ok (map rounded_position l).
Proof.
  intros H. unfold LineString. apply traverse_total.
  eapply Forall_impl; [|exact H]. intros p. apply clean_position_real.
Qed.

Lemma trip_feature_ok (cols : list string) (df : DataFrame) (line k : cell) (f : Feature) :
  In k (trip_keys df line) ->
  create_geojson_file.trip_feature {| columns := cols; rows := trip_rows df line k |} = Ok f ->
  f = feature_of df line k /\
  Forall (fun r => real_position (position_of r) = true) (trip_rows df line k).
Proof.
  intros Hk Hf. unfold create_geojson_file.trip_feature in Hf.
  apply rbind_ok in Hf as (lon & H1 & Hf). apply rbind_ok in Hf as (lat & H2 & Hf).
  apply rbind_ok in Hf as (elev & H3 & Hf). apply rbind_ok in Hf as (time & H4 & Hf).
  apply rbind_ok in Hf as (ls & Hls & Hf).
  apply rbind_ok in Hf as (tid & H5 & Hf). apply rbind_ok in Hf as (sid & H6 & Hf).
  apply rbind_ok in Hf as (lab & H7 & Hf). injection Hf as <-.
  apply getattr_ok, getcol_ok in H1 as (_ & -> & _).
  apply getattr_ok, getcol_ok in H2 as (_ & -> & _).
  apply getattr_ok, getcol_ok in H3 as (_ & -> & _).
  apply getattr_ok, getcol_ok in H4 as (_ & -> & _).
  apply getattr_ok, getcol_ok in H5 as (_ & -> & _).
  apply getattr_ok, getcol_ok in H6 as (_ & -> & _).
  apply getattr_ok, getcol_ok in H7 as (_ & -> & _). simpl in *.
  rewrite zip4_map in Hls. fold position_of in Hls.
  change (fun a : row => (cell_of "stop_lon" a, cell_of "stop_lat" a,
                          cell_of "elevation" a, cell_of "arrival_time_int" a))
    with position_of in Hls.
  apply LineString_ok in Hls as [-> Hreal]. split.
  - unfold feature_of. f_equal. f_equal.
    apply unique_constant.
    + pose proof (trip_rows_nonempty df line k Hk) as Hne.
      destruct (trip_rows df line k); [congruence | discriminate].
    + apply Forall_map, Forall_forall. intros r Hr.
      apply trip_rows_spec in Hr as (_ & _ & Hr). now symmetry.
  - apply Forall_map in Hreal. exact Hreal.
Qed.

Lemma trip_features_ok (cols : list string) (df : DataFrame) (line : cell)
      (keys : list cell) (fs : list Feature) :
  Forall (fun k => In k (trip_keys df line)) keys ->
  Forall2 (fun k f => create_geojson_file.trip_feature
                        {| columns := cols; rows := trip_rows df line k |} = Ok f) keys fs ->
  fs = map (feature_of df line) keys /\
  Forall (fun k => Forall (fun r => real_position (position_of r) = true)
                          (trip_rows df line k)) keys.
Proof.
  intros Hkeys HF. induction HF as [|k f ks fs Hf _ IH]; simpl; [auto|].
  inversion Hkeys; subst.
  destruct (trip_feature_ok _ _ _ _ _ H1 Hf) as [-> Hr].
  destruct (IH H2) as [-> Hrs]. auto.
Qed.

(** The feature list of a line: one feature per trip identifier on the
    line, each built from the rows of that trip in table order. *)
Lemma create_geojson_features_ok (df : DataFrame) (line : cell) (features : list Feature) :
  create_geojson_file.create_geojson_features df line = Ok features ->
  features = map (feature_of df line) (trip_keys df line).
Proof.
  unfold create_geojson_file.create_geojson_features. intros H.
  apply rbind_ok in H as (labels & Hl & H). apply rbind_ok in H as (groups & Hg & H).
  apply groupby_ok in Hg as (_ & _ & ->).
  apply foldM_append in H as (fs & -> & HF). simpl.
  assert (Erows : rows (loc (map (fun v => elem_eq v line) labels) df)
                  = filter (on_line line) (rows df)).
  { rewrite (loc_eq_rows _ _ _ _ Hl). reflexivity. }
  rewrite Erows in HF. fold (trip_keys df line) in HF.
  apply (proj1 (Forall2_map_left _ _ _ _)) in HF. simpl in HF.
  eapply (proj1 (trip_features_ok _ _ _ _ _ _ HF)).
Unshelve. apply Forall_forall. auto.
Qed.

(** When the features of a line are built, no coordinate of a row of one
    of its trips is text. *)
Lemma create_geojson_features_real (df : DataFrame) (line : cell) (features : list Feature) :
  create_geojson_file.create_geojson_features df line = Ok features ->
  forall r, In r (rows df) -> on_line line r = true -> cell_of "trip_id" r <> NA ->
            real_position (position_of r) = true.
Proof.
  unfold create_geojson_file.create_geojson_features. intros H r Hr Hl Hk.
  apply rbind_ok in H as (labels & Hlab & H). apply rbind_ok in H as (groups & Hg & H).
  apply groupby_ok in Hg as (_ & _ & ->).
  apply foldM_append in H as (fs & -> & HF).
  assert (Erows : rows (loc (map (fun v => elem_eq v line) labels) df)
                  = filter (on_line line) (rows df)).
  { rewrite (loc_eq_rows _ _ _ _ Hlab). reflexivity. }
  rewrite Erows in HF. fold (trip_keys df line) in HF.
  apply (proj1 (Forall2_map_left _ _ _ _)) in HF. simpl in HF.
  assert (Hkeys : Forall (fun k => In k (trip_keys df line)) (trip_keys df line))
    by (apply Forall_forall; auto).
  destruct (trip_features_ok _ _ _ _ _ Hkeys HF) as [_ Hreal].
  rewrite Forall_forall in Hreal.
  assert (Hin : In (cell_of "trip_id" r) (trip_keys df line))
    by (apply In_trip_keys; eauto).
  specialize (Hreal _ Hin). rewrite Forall_forall in Hreal. apply Hreal.
  apply trip_rows_spec. auto.
Qed.

End Features.

(** ** create_geojson_file.main, line by line *)

Section BuilderLoop.
Import Pandas Geojson Os Rowwise Linewise.
Context (py : PyLib).

Lemma makedirs_ok (p : string) (w w' : World) :
  makedirs p w = (Ok tt, w') ->
  (forall c, fs w !! p <> Some (File c)) /\
  w' = {| cwd := cwd w; fs := <[p := Dir]> (fs w) |}.
Proof.
  unfold makedirs. destruct (fs w !! p) as [[c|]|] eqn:E; intros H; inversion H; subst;
    split; try reflexivity; intros c'; discriminate.
Qed.

Lemma mkdirs_in (qs : list string) (m : gmap string node) (q : string) :
  In q qs -> make_dirs qs m !! q = Some Dir.
Proof.
  unfold make_dirs. induction qs as [|a qs IH]; simpl; [tauto|]. intros H.
  destruct (string_dec a q) as [->|Hne]; [apply lookup_insert_eq|].
  rewrite lookup_insert_ne by assumption. destruct H; [contradiction | auto].
Qed.

Lemma mkdirs_out (qs : list string) (m : gmap string node) (q : string) :
  ~ In q qs -> make_dirs qs m !! q = m !! q.
Proof.
  unfold make_dirs. induction qs as [|a qs IH]; simpl; [reflexivity|]. intros H.
  rewrite lookup_insert_ne by (intros ->; tauto). apply IH. tauto.
Qed.

(** Making directories where no regular file is leaves every file alone. *)
Lemma mkdirs_files (qs : list string) (m : gmap string node) :
  (forall q c, In q qs -> m !! q <> Some (File c)) ->
  forall q c, make_dirs qs m !! q = Some (File c) <-> m !! q = Some (File c).
Proof.
  intros Hno q c. destruct (in_dec string_dec q qs) as [Hin|Hout].
  - rewrite mkdirs_in by assumption. split; [discriminate|].
    intros Hc. now destruct (Hno q c Hin).
  - now rewrite mkdirs_out.
Qed.

Lemma is_file_spec (n : option node) : is_file n = true <-> exists c, n = Some (File c).
Proof.
  destruct n as [[c|]|]; simpl; split; try discriminate; eauto;
    intros [c' H]; discriminate.
Qed.

(** [mkdir_parents] fails and changes nothing, or makes the path and those
    above it directories, none of them having been a regular file. *)
Lemma mkdir_parents_cases (p : string) (w : World) :
  ((exists q c, In q (p :: parents p) /\ fs w !! q = Some (File c)) /\
   mkdir_parents p w = (Raise (OSError p), w)) \/
  ((forall q c, In q (p :: parents p) -> fs w !! q <> Some (File c)) /\
   mkdir_parents p w
   = (Ok tt, {| cwd := cwd w; fs := make_dirs (p :: parents p) (fs w) |})).
Proof.
  unfold mkdir_parents.
  destruct (existsb (fun q => is_file (fs w !! q)) (p :: parents p)) eqn:E.
  - left. split; [|reflexivity]. apply existsb_exists in E as (q & Hq & Hf).
    apply is_file_spec in Hf as [c Hc]. eauto.
  - right. split; [|reflexivity]. intros q c Hq Hc.
    assert (Ht : existsb (fun q => is_file (fs w !! q)) (p :: parents p) = true).
    { apply existsb_exists. exists q. split; [assumption|]. apply is_file_spec. eauto. }
    congruence.
Qed.

Lemma mkdir_parents_inv (p : string) (w w' : World) (r : result unit) :
  mkdir_parents p w = (r, w') ->
  cwd w' = cwd w /\
  forall q c, fs w' !! q = Some (File c) <-> fs w !! q = Some (File c).
Proof.
  destruct (mkdir_parents_cases p w) as [[_ E]|[Hno E]]; rewrite E; intros [= <- <-].
  - split; [reflexivity | tauto].
  - split; [reflexivity|]. cbn [fs]. now apply mkdirs_files.
Qed.

Lemma mkdir_parents_ok (p : string) (w w' : World) :
  mkdir_parents p w = (Ok tt, w') ->
  (forall q c, In q (p :: parents p) -> fs w !! q <> Some (File c)) /\
  w' = {| cwd := cwd w; fs := make_dirs (p :: parents p) (fs w) |}.
Proof.
  destruct (mkdir_parents_cases p w) as [[_ E]|[Hno E]]; rewrite E; intros [= <-].
  auto.
Qed.

(** The three outcomes of a dump: the path is a directory; the document is
    written; the dump stops at a value it refuses and leaves the file
    truncated. *)
Lemma geojson_dump_cases (p : string) (features : list Feature) (w : World) :
  (fs w !! p = Some Dir /\ geojson_dump p features w = (Raise (OSError p), w)) \/
  (fs w !! p <> Some Dir /\ json_problem features = None /\
   geojson_dump p features w
   = (Ok tt, {| cwd := cwd w; fs := <[p := File (FeatureCollection features)]> (fs w) |})) \/
  (fs w !! p <> Some Dir /\ exists e, json_problem features = Some e /\
   geojson_dump p features w
   = (Raise e, {| cwd := cwd w; fs := <[p := File (Truncated features)]> (fs w) |})).
Proof.
  unfold geojson_dump. destruct (fs w !! p) as [[c|]|] eqn:E.
  - right. destruct (json_problem features) as [e|]; [right|left];
      (split; [discriminate|]); eauto.
  - left. auto.
  - right. destruct (json_problem features) as [e|]; [right|left];
      (split; [discriminate|]); eauto.
Qed.

Lemma geojson_dump_ok (p : string) (features : list Feature) (w w' : World) :
  geojson_dump p features w = (Ok tt, w') ->
  fs w !! p <> Some Dir /\ json_problem features = None /\
  w' = {| cwd := cwd w; fs := <[p := File (FeatureCollection features)]> (fs w) |}.
Proof.
  destruct (geojson_dump_cases p features w)
    as [[Hd E]|[(Hd & Hj & E)|(Hd & e & Hj & E)]]; rewrite E; intros H; inversion H.
  auto.
Qed.

Lemma save_geojson_file_inv (features : list Feature) (p : string) (w w' : World)
      (r : result unit) :
  create_geojson_file.save_geojson_file features p w = (r, w') ->
  cwd w' = cwd w /\
  (forall q c, q <> p -> fs w' !! q = Some (File c) <-> fs w !! q = Some (File c)) /\
  match r with
  | Ok _ =>
      json_problem features = None /\
      fs w' !! p = Some (File (FeatureCollection features))
  | Raise e =>
      (forall c, fs w' !! p = Some (File c) <-> fs w !! p = Some (File c)) \/
      (json_problem features = Some e /\ fs w' !! p = Some (File (Truncated features)))
  end.
Proof.
  unfold create_geojson_file.save_geojson_file, create_geojson_file.ensure_directory_exists,
    bind.
  destruct (mkdir_parents (dirname p) w) as [[[]|e] w1] eqn:E;
    apply mkdir_parents_inv in E as [Ec Ef].
  - destruct (geojson_dump_cases p features w1)
      as [[Hd E1]|[(Hd & Hj & E1)|(Hd & e & Hj & E1)]]; rewrite E1; intros [= <- <-]; simpl.
    + split; [assumption|]. split; [intros q c _; apply Ef|]. left. intros c. apply Ef.
    + split; [assumption|]. split.
      * intros q c Hq. rewrite lookup_insert_ne by congruence. apply Ef.
      * split; [assumption | apply lookup_insert_eq].
    + split; [assumption|]. split.
      * intros q c Hq. rewrite lookup_insert_ne by congruence. apply Ef.
      * right. split; [assumption | apply lookup_insert_eq].
  - intros [= <- <-]. split; [assumption|]. split; [intros q c _; apply Ef|].
    left. intros c. apply Ef.
Qed.

(** One line of the loop: its document is written, or it fails and leaves
    every file as it was, but for the truncated document of a dump that
    stopped. *)
Lemma line_body_inv (df : DataFrame) (odir : string) (line : cell) (w w' : World)
      (r : result unit) :
  create_geojson_file.process_line py df odir line w = (r, w') ->
  cwd w' = cwd w /\
  (forall q c, q <> path_join odir (str_of_cell py line ++ ".geojson") ->
               fs w' !! q = Some (File c) <-> fs w !! q = Some (File c)) /\
  match r with
  | Ok _ =>
      json_problem (map (feature_of df line) (trip_keys df line)) = None /\
      fs w' !! path_join odir (str_of_cell py line ++ ".geojson")
      = Some (File (document df line))
  | Raise e =>
      (forall c, fs w' !! path_join odir (str_of_cell py line ++ ".geojson") = Some (File c)
                 <-> fs w !! path_join odir (str_of_cell py line ++ ".geojson")
                     = Some (File c)) \/
      (json_problem (map (feature_of df line) (trip_keys df line)) = Some e /\
       fs w' !! path_join odir (str_of_cell py line ++ ".geojson")
       = Some (File (Truncated (map (feature_of df line) (trip_keys df line)))))
  end.
Proof.
  unfold create_geojson_file.process_line, bind, lift.
  destruct (create_geojson_file.create_geojson_features df line) as [features|e] eqn:E.
  - apply create_geojson_features_ok in E as ->. apply save_geojson_file_inv.
  - intros [= <- <-]. split; [reflexivity|]. split; [tauto|]. left. tauto.
Qed.

(** A loop that stops has run its body on a first part of the list and
    failed on the element after it. *)
Lemma for_each_split {A} (body : A -> M unit) (l : list A) :
  forall (w w' : World) (r : result unit),
  for_each l body w = (r, w') ->
  exists done rest wmid,
    l = (done ++ rest)%list /\
    for_each done body w = (Ok tt, wmid) /\
    match rest with
    | [] => r = Ok tt /\ w' = wmid
    | a :: _ => exists e, r = Raise e /\ body a wmid = (Raise e, w')
    end.
Proof.
  induction l as [|a l IH]; simpl; intros w w' r H.
  - unfold ret in H. injection H as <- <-. exists [], [], w. auto.
  - unfold bind in H. destruct (body a w) as [[[]|e] w1] eqn:E.
    + destruct (IH _ _ _ H) as (done & rest & wmid & -> & Hd & Hr).
      exists (a :: done), rest, wmid. split; [reflexivity|]. split; [|exact Hr].
      simpl. unfold bind. now rewrite E.
    + injection H as <- <-. exists [], (a :: l), w. split; [reflexivity|].
      split; [reflexivity|]. eauto.
Qed.

(** The loop leaves alone every path that is not the document of one of its
    lines. *)
Lemma loop_untouched (df : DataFrame) (odir : string) (lines : list cell) (q : string) :
  forall (w w' : World) (r : result unit),
  for_each lines (create_geojson_file.process_line py df odir) w = (r, w') ->
  (forall line, In line lines -> path_join odir (str_of_cell py line ++ ".geojson") <> q) ->
  forall c, fs w' !! q = Some (File c) <-> fs w !! q = Some (File c).
Proof.
  induction lines as [|line lines IH]; simpl; intros w w' r H Hq c.
  - unfold ret in H. injection H as <- <-. tauto.
  - unfold bind in H.
    destruct (create_geojson_file.process_line py df odir line w) as [[[]|e] w1] eqn:E;
      apply line_body_inv in E as (_ & E & _).
    + rewrite (IH _ _ _ H) by auto. apply E.
      intros Heq. apply (Hq line); auto.
    + injection H as <- <-. apply E. intros Heq. apply (Hq line); auto.
Qed.

(** When the loop ends normally, the document of each line is in place, as
    written for the last line of that file name. *)
Lemma loop_last_writer (df : DataFrame) (odir : string) (lines : list cell) :
  forall (w w' : World),
  for_each lines (create_geojson_file.process_line py df odir) w = (Ok tt, w') ->
  forall line, In line lines ->
  exists line',
    In line' lines /\
    path_join odir (str_of_cell py line' ++ ".geojson")
    = path_join odir (str_of_cell py line ++ ".geojson") /\
    fs w' !! path_join odir (str_of_cell py line ++ ".geojson")
    = Some (File (document df line')).
Proof.
  induction lines as [|a lines IH]; simpl; intros w w' H line Hin; [contradiction|].
  unfold bind in H.
  destruct (create_geojson_file.process_line py df odir a w) as [[[]|e] w1] eqn:E;
    [|discriminate].
  apply line_body_inv in E as (_ & _ & _ & E1).
  set (path := fun l => path_join odir (str_of_cell py l ++ ".geojson")) in *.
  destruct (existsb (fun l => String.eqb (path l) (path line)) lines) eqn:Ex.
  - apply existsb_exists in Ex as (l & Hl & El). apply String.eqb_eq in El.
    destruct (IH _ _ H l Hl) as (line' & Hin' & Hp & Hf). unfold path in *.
    exists line'. split; [auto|]. split; [congruence|]. rewrite <- El. exact Hf.
  - assert (Hno : forall l, In l lines -> path l <> path line).
    { intros l Hl Heq. apply String.eqb_eq in Heq.
      assert (Ht : existsb (fun l => String.eqb (path l) (path line)) lines = true)
        by (apply existsb_exists; eauto).
      congruence. }
    destruct Hin as [->|Hin]; [|now destruct (Hno line Hin)].
    exists line. split; [auto|]. split; [reflexivity|].
    now apply (loop_untouched df odir lines (path line) _ _ _ H Hno).
Qed.

(** The files of a loop that ended normally are those from before and the
    documents of its lines, every one without a value JSON refuses. *)
Lemma loop_files (df : DataFrame) (odir : string) (lines : list cell) :
  forall (w w' : World),
  for_each lines (create_geojson_file.process_line py df odir) w = (Ok tt, w') ->
  cwd w' = cwd w /\
  forall p c, fs w' !! p = Some (File c) ->
    fs w !! p = Some (File c) \/
    exists line, In line lines /\
                 p = path_join odir (str_of_cell py line ++ ".geojson") /\
                 c = document df line.
Proof.
  induction lines as [|line lines IH]; simpl; intros w w' H.
  - unfold ret in H. injection H as <-. auto.
  - unfold bind in H.
    destruct (create_geojson_file.process_line py df odir line w) as [[[]|e] w1] eqn:E;
      [|discriminate].
    apply line_body_inv in E as (Ec & Eq & _ & E1).
    destruct (IH _ _ H) as [Hc Hnew]. split; [congruence|].
    intros p c Hp. destruct (Hnew p c Hp) as [Hw1|(l & Hl & -> & ->)]; [|eauto 6].
    destruct (string_dec p (path_join odir (str_of_cell py line ++ ".geojson")))
      as [->|Hne].
    + right. exists line. rewrite E1 in Hw1. injection Hw1 as <-. auto.
    + left. now apply Eq.
Qed.

(** Every document of a loop that ended normally was dumped whole. *)
Lemma loop_no_problem (df : DataFrame) (odir : string) (lines : list cell) :
  forall (w w' : World),
  for_each lines (create_geojson_file.process_line py df odir) w = (Ok tt, w') ->
  forall line, In line lines ->
    json_problem (map (feature_of df line) (trip_keys df line)) = None.
Proof.
  induction lines as [|a lines IH]; simpl; intros w w' H line Hin; [contradiction|].
  unfold bind in H.
  destruct (create_geojson_file.process_line py df odir a w) as [[[]|e] w1] eqn:E;
    [|discriminate].
  apply line_body_inv in E as (_ & _ & E0 & _).
  destruct Hin as [->|Hin]; [assumption | eauto].
Qed.

(** A run of the Builder: it fails before the loop and writes nothing, or
    it makes its directory, reads a table and its labels, processes a first
    part of them and, if that is not all, fails at the label after it. *)
Lemma builder_split (w w' : World) (r : result unit) :
  create_geojson_file.main py w = (r, w') ->
  (exists e, r = Raise e /\ no_new_file w w' /\ cwd w' = cwd w) \/
  exists df labels done rest w0 wmid,
    reads w df /\ getcol "route_short_name" df = Ok labels /\
    unique labels = (done ++ rest)%list /\
    create_geojson_file.ensure_directory_exists (path_join (cwd w) "geojson") w
    = (Ok tt, w0) /\
    for_each done (create_geojson_file.process_line py df (path_join (cwd w) "geojson")) w0
    = (Ok tt, wmid) /\
    match rest with
    | [] => r = Ok tt /\ w' = wmid
    | line :: _ =>
        exists e, r = Raise e /\
          create_geojson_file.process_line py df (path_join (cwd w) "geojson") line wmid
          = (Raise e, w')
    end.
Proof.
  unfold create_geojson_file.main, create_geojson_file.ensure_directory_exists,
    create_geojson_file.load_metro_data, getcwd.
  unfold bind at 1. unfold bind at 1.
  destruct (mkdir_parents (path_join (cwd w) "geojson") w) as [[[]|e] w0] eqn:E0.
  2:{ apply mkdir_parents_inv in E0 as [Ec0 Ef0]. intros [= <- <-]. left. exists e.
      split; [reflexivity|]. split; [|assumption]. intros p c Hp. now apply Ef0. }
  pose proof (mkdir_parents_inv _ _ _ _ E0) as [Ec0 Ef0].
  unfold bind at 1.
  destruct (read_csv (path_join (path_join (cwd w) "data") "metro_data.csv") w0)
    as [[df|e] w1] eqn:E1.
  2:{ apply read_csv_inv in E1 as ->. intros [= <- <-]. left. exists e.
      split; [reflexivity|]. split; [|assumption]. intros p c Hp. now apply Ef0. }
  apply read_csv_ok in E1 as (-> & Hfile & Hcsv).
  assert (Hreads : reads w df).
  { split; [|assumption]. unfold metro_file. now apply Ef0. }
  unfold bind at 1, lift at 1.
  destruct (getcol "route_short_name" df) as [labels|e] eqn:E2; simpl.
  2:{ intros [= <- <-]. left. exists e.
      split; [reflexivity|]. split; [|assumption]. intros p c Hp. now apply Ef0. }
  intros H. right.
  destruct (for_each_split _ _ _ _ _ H) as (done & rest & wmid & Hl & Hd & Hr).
  exists df, labels, done, rest, w0, wmid. auto 7.
Qed.

(** Every file there is after a run of the Builder was there before, or is
    the document of a label of the table, whole or truncated. *)
Lemma builder_new_files (w w' : World) (r : result unit) :
  create_geojson_file.main py w = (r, w') ->
  forall p c, fs w' !! p = Some (File c) ->
    fs w !! p = Some (File c) \/
    exists df line row,
      reads w df /\ In row (rows df) /\ cell_of "route_short_name" row = line /\
      p = line_file py w line /\
      (c = document df line \/
       c = Truncated (map (feature_of df line) (trip_keys df line))).
Proof.
  intros H p c Hp.
  destruct (builder_split _ _ _ H)
    as [(e & _ & Hno & _)
       |(df & labels & done & rest & w0 & wmid & Hr & Hlab & Hl & Hmk & Hd & Hrest)];
    [left; now apply Hno|].
  assert (Hrow : forall line, In line (done ++ rest)%list ->
            exists row, In row (rows df) /\ cell_of "route_short_name" row = line).
  { intros line Hin. rewrite <- Hl in Hin. apply (proj1 (In_unique _ _)) in Hin.
    apply getcol_ok in Hlab as (_ & -> & _).
    apply in_map_iff in Hin as (row & <- & Hrow). eauto. }
  apply mkdir_parents_inv in Hmk as [Hc0 Hw0].
  assert (Hmid : forall q c0, fs wmid !! q = Some (File c0) ->
            fs w !! q = Some (File c0) \/
            exists df line row,
              reads w df /\ In row (rows df) /\ cell_of "route_short_name" row = line /\
              q = line_file py w line /\
              (c0 = document df line \/
               c0 = Truncated (map (feature_of df line) (trip_keys df line)))).
  { intros q c0 Hq. destruct (loop_files _ _ _ _ _ Hd) as [_ Hnew].
    destruct (Hnew q c0 Hq) as [Hold|(line & Hin & -> & ->)].
    - left. now apply Hw0.
    - right. destruct (Hrow line) as (row & Hrow1 & Hrow2); [apply in_app_iff; auto|].
      exists df, line, row. unfold line_file. auto 8. }
  destruct rest as [|line rest'].
  - destruct Hrest as [_ ->]. now apply Hmid.
  - destruct Hrest as (e & _ & Hline).
    apply line_body_inv in Hline as (_ & Hq & Hcase).
    destruct (string_dec p (path_join (path_join (cwd w) "geojson")
                                      (str_of_cell py line ++ ".geojson"))) as [->|Hne].
    + destruct Hcase as [Hsame|[_ Ht]].
      * apply Hmid. now apply Hsame.
      * right. destruct (Hrow line) as (row & Hrow1 & Hrow2);
          [apply in_app_iff; right; now left|].
        exists df, line, row. rewrite Ht in Hp. injection Hp as <-.
        unfold line_file. auto 8.
    + apply Hmid. now apply Hq.
Qed.

End BuilderLoop.

(** ** The features of a line *)

Section LineFeatures.
Import Pandas Geojson Os Linewise.

Lemma getcol_sub (c : string) (df : DataFrame) (rs : list row) :
  In c (columns df) ->
  Forall (fun r => row_keys r = columns df) (rows df) ->
  (forall r, In r rs -> In r (rows df)) ->
  getcol c {| columns := columns df; rows := rs |} = Ok (map (cell_of c) rs).
Proof.
  intros Hc Hk Hsub. apply getcol_total; [assumption|]. simpl.
  apply Forall_forall. intros r Hr. rewrite Forall_forall in Hk.
  rewrite (Hk r (Hsub r Hr)). assumption.
Qed.

Lemma getattr_sub (c : string) (df : DataFrame) (rs : list row) :
  In c (columns df) ->
  Forall (fun r => row_keys r = columns df) (rows df) ->
  (forall r, In r rs -> In r (rows df)) ->
  getattr c {| columns := columns df; rows := rs |} = Ok (map (cell_of c) rs).
Proof. intros Hc Hk Hsub. apply getattr_getcol. now apply getcol_sub. Qed.

Lemma foldM_append_total {A B} (f : A -> result B) (l : list A) (acc : list B) :
  (forall a, In a l -> exists b, f a = Ok b) ->
  exists out, foldM (fun bs a => try b <- f a; Ok (bs ++ [b])) l acc = Ok out.
Proof.
  revert acc; induction l as [|a l IH]; simpl; intros acc H; [eauto|].
  destruct (H a (or_introl eq_refl)) as [b Hb]. rewrite Hb. simpl.
  apply IH. auto.
Qed.

Lemma foldM_append_all {A B} (f : A -> result B) (l : list A) (bs acc : list B) :
  Forall2 (fun a b => f a = Ok b) l bs ->
  foldM (fun bs a => try b <- f a; Ok (bs ++ [b])) l acc = Ok (acc ++ bs)%list.
Proof.
  intros H. revert acc. induction H as [|a b l bs Hab _ IH]; simpl; intros acc.
  - now rewrite app_nil_r.
  - rewrite Hab. simpl. rewrite IH, <- app_assoc. reflexivity.
Qed.

(** On a table that has the columns the Builder reads, and in which the
    rows of the line's trips have numbers for coordinates,
    [create_geojson_features] raises nothing. *)
Lemma create_geojson_features_total (df : DataFrame) (line : cell) :
  Forall (fun r => row_keys r = columns df) (rows df) ->
  Forall (fun c => In c (columns df)) builder_columns ->
  (forall r, In r (rows df) -> on_line line r = true -> cell_of "trip_id" r <> NA ->
             real_position (position_of r) = true) ->
  exists features, create_geojson_file.create_geojson_features df line = Ok features.
Proof.
  intros Hk Hc Hreal. unfold builder_columns in Hc.
  repeat match goal with H : Forall _ (_ :: _) |- _ => inversion H; clear H; subst end.
  unfold create_geojson_file.create_geojson_features.
  rewrite getcol_total; [|assumption|].
  2:{ eapply Forall_impl; [|exact Hk]. intros r ->. assumption. }
  cbn [rbind].
  assert (El : loc (map (fun v => elem_eq v line) (map (cell_of "route_short_name") (rows df))) df
               = {| columns := columns df; rows := filter (on_line line) (rows df) |}).
  { unfold loc. f_equal. rewrite map_map. apply (select_rows_map (on_line line)). }
  rewrite El. clear El. unfold groupby.
  rewrite (getcol_sub "trip_id" df) by (try assumption; intros r Hr; now apply filter_In in Hr).
  cbn [rbind columns rows]. apply foldM_append_total. intros [k g] Hg.
  apply in_map_iff in Hg as (k' & [= <- <-] & Hk'). cbn [snd].
  unfold create_geojson_file.trip_feature.
  set (rs := filter _ (filter (on_line line) (rows df))).
  assert (Hsub : forall c, In c (columns df) ->
            getattr c {| columns := columns df; rows := rs |} = Ok (map (cell_of c) rs)).
  { intros c Hin. apply (getattr_sub c df); try assumption.
    intros r Hr. apply filter_In in Hr as [Hr _]. now apply filter_In in Hr. }
  rewrite !Hsub by assumption. cbn [rbind]. rewrite zip4_map.
  change (fun a : row => (cell_of "stop_lon" a, cell_of "stop_lat" a,
                          cell_of "elevation" a, cell_of "arrival_time_int" a))
    with position_of.
  rewrite LineString_real; [cbn [rbind]; eauto|].
  apply Forall_map, Forall_forall. intros r Hr. unfold rs in Hr.
  apply filter_In in Hr as [Hr Ek]. apply filter_In in Hr as [Hr Hl].
  apply Hreal; try assumption.
  assert (Hin : In k' (trip_keys df line)) by exact Hk'.
  apply In_trip_keys in Hin as [Hna _].
  destruct (row_get "trip_id" r) as [v|] eqn:Ev; [|discriminate].
  apply cell_eqb_eq in Ek. unfold cell_of. rewrite Ev. congruence.
Qed.

(** *** The older script builds the same features *)

Lemma dict_get_groups (g : cell -> DataFrame) (keys : list cell) (k : cell) :
  In k keys -> notebook.dict_get k (map (fun k => (k, g k)) keys) = Ok (g k).
Proof.
  induction keys as [|k0 keys IH]; simpl; [tauto|]. intros Hk.
  destruct (cell_eqb k0 k) eqn:E.
  - apply cell_eqb_eq in E. now subst.
  - apply cell_eqb_neq in E. destruct Hk as [->|Hk]; [congruence | auto].
Qed.

Lemma first_problem_app (a b : list cell) :
  first_problem (a ++ b) = None <-> first_problem a = None /\ first_problem b = None.
Proof.
  induction a as [|v a IH]; simpl; [tauto|].
  destruct (json_value_problem v); [|exact IH]. split; [discriminate | now intros []].
Qed.

Lemma json_problem_app (a b : list Feature) :
  json_problem (a ++ b) = None <-> json_problem a = None /\ json_problem b = None.
Proof. unfold json_problem. rewrite flat_map_app. apply first_problem_app. Qed.

Lemma trips_loop_ok (py : PyLib) (line : cell) (dfs : list (cell * DataFrame))
      (keys : list cell) (acc out : list Feature) (w w' : World) :
  notebook.trips_loop py line dfs keys acc w = (Ok out, w') ->
  exists fs, out = (acc ++ fs)%list /\
    Forall2 (fun k f => (try trip_data <- notebook.dict_get k dfs;
                         create_geojson_file.trip_feature trip_data) = Ok f) keys fs.
Proof.
  revert acc w; induction keys as [|k keys IH]; simpl; intros acc w H.
  - unfold ret in H. injection H as <- <-. exists []. split; [now rewrite app_nil_r|constructor].
  - apply bind_ok in H as (f & w1 & Hf & H). apply lift_ok in Hf as [Hf ->].
    apply bind_ok in H as ([] & w2 & _ & H).
    apply IH in H as (fs & -> & HF). exists (f :: fs).
    split; [now rewrite <- app_assoc | now constructor].
Qed.

(** The loop over the trips returns when every feature can be built, the
    file is not a directory and no value of the features is refused by the
    JSON encoder. *)
Lemma trips_loop_total (py : PyLib) (line : cell) (dfs : list (cell * DataFrame))
      (keys : list cell) (fs : list Feature) :
  Forall2 (fun k f => (try trip_data <- notebook.dict_get k dfs;
                       create_geojson_file.trip_feature trip_data) = Ok f) keys fs ->
  forall (acc : list Feature) (w : World),
  json_problem (acc ++ fs) = None ->
  Os.fs w !! notebook.output_filename py line <> Some Dir ->
  exists w', notebook.trips_loop py line dfs keys acc w = (Ok (acc ++ fs)%list, w').
Proof.
  induction 1 as [|k f keys fs Hf _ IH]; intros acc w Hj Hd; simpl.
  - rewrite app_nil_r. unfold ret. eauto.
  - unfold bind at 1. unfold lift at 1. rewrite Hf.
    assert (Hj1 : json_problem (acc ++ [f]) = None).
    { change (f :: fs) with ([f] ++ fs)%list in Hj. rewrite app_assoc in Hj.
      now apply json_problem_app in Hj. }
    unfold bind at 1. unfold geojson_dump at 1.
    destruct (Os.fs w !! notebook.output_filename py line) as [[c|]|] eqn:E;
      [|congruence|]; rewrite Hj1.
    + destruct (IH (acc ++ [f])%list
                  {| cwd := cwd w;
                     Os.fs := <[notebook.output_filename py line :=
                                  File (FeatureCollection (acc ++ [f]))]> (Os.fs w) |})
        as [w' Hw'].
      * now rewrite <- app_assoc.
      * simpl. rewrite lookup_insert_eq. discriminate.
      * exists w'. rewrite Hw'. now rewrite <- app_assoc.
    + destruct (IH (acc ++ [f])%list
                  {| cwd := cwd w;
                     Os.fs := <[notebook.output_filename py line :=
                                  File (FeatureCollection (acc ++ [f]))]> (Os.fs w) |})
        as [w' Hw'].
      * now rewrite <- app_assoc.
      * simpl. rewrite lookup_insert_eq. discriminate.
      * exists w'. rewrite Hw'. now rewrite <- app_assoc.
Qed.

Lemma dict_get_features (g : cell -> DataFrame) (all keys : list cell) (fs : list Feature) :
  (forall k, In k keys -> In k all) ->
  Forall2 (fun k f => (try trip_data <- notebook.dict_get k (map (fun k => (k, g k)) all);
                       create_geojson_file.trip_feature trip_data) = Ok f) keys fs <->
  Forall2 (fun k f => create_geojson_file.trip_feature (g k) = Ok f) keys fs.
Proof.
  intros Hsub. split; intros HF.
  - induction HF as [|k f ks fs Hf _ IH]; constructor.
    + rewrite dict_get_groups in Hf by (apply Hsub; simpl; auto). exact Hf.
    + apply IH. intros k' Hk'. apply Hsub. simpl. auto.
  - induction HF as [|k f ks fs Hf _ IH]; constructor.
    + rewrite dict_get_groups by (apply Hsub; simpl; auto). exact Hf.
    + apply IH. intros k' Hk'. apply Hsub. simpl. auto.
Qed.

(** Whenever the older loop returns the features of a line,
    [create_geojson_features] returns the same list. *)
Lemma line_loop_features (py : PyLib) (metro : DataFrame) (line : cell)
      (features : list Feature) (w w' : World) :
  notebook.line_loop py metro line w = (Ok features, w') ->
  create_geojson_file.create_geojson_features metro line = Ok features.
Proof.
  unfold notebook.line_loop. intros H.
  apply bind_ok in H as (df & w1 & Hdf & H). apply lift_ok in Hdf as [Hdf ->].
  apply rbind_ok in Hdf as (labels & Hl & Hdf). injection Hdf as <-.
  apply bind_ok in H as (dfs & w1 & Hg & H). apply lift_ok in Hg as [Hg ->].
  unfold create_geojson_file.create_geojson_features. rewrite Hl. cbn [rbind].
  rewrite Hg. cbn [rbind].
  apply groupby_ok in Hg as (_ & _ & ->).
  rewrite map_map in H. simpl in H. rewrite map_id in H.
  apply trips_loop_ok in H as (fs & -> & HF). simpl.
  apply dict_get_features in HF; [|auto].
  rewrite (foldM_append_all (fun item => create_geojson_file.trip_feature (snd item)) _ fs);
    [reflexivity|].
  apply Forall2_map_left. exact HF.
Qed.

Lemma line_loop_ok (py : PyLib) (metro : DataFrame) (line : cell)
      (features : list Feature) (w w' : World) :
  notebook.line_loop py metro line w = (Ok features, w') ->
  features = map (feature_of metro line) (trip_keys metro line).
Proof. intros H. apply line_loop_features in H. now apply create_geojson_features_ok. Qed.

(** The older loop returns what [create_geojson_features] returns, when its
    file is not a directory and the JSON encoder refuses no value of the
    features. *)
Lemma line_loop_total (py : PyLib) (metro : DataFrame) (line : cell)
      (features : list Feature) (w : World) :
  create_geojson_file.create_geojson_features metro line = Ok features ->
  json_problem features = None ->
  Os.fs w !! notebook.output_filename py line <> Some Dir ->
  exists w', notebook.line_loop py metro line w = (Ok features, w').
Proof.
  unfold create_geojson_file.create_geojson_features. intros H Hj Hd.
  apply rbind_ok in H as (labels & Hl & H). apply rbind_ok in H as (groups & Hg & H).
  unfold notebook.line_loop. unfold bind at 1. unfold lift at 1. rewrite Hl. cbn [rbind].
  unfold bind at 1. unfold lift at 1. rewrite Hg.
  apply groupby_ok in Hg as (_ & _ & ->).
  apply foldM_append in H as (fs & -> & HF). simpl in Hj.
  apply (proj1 (Forall2_map_left _ _ _ _)) in HF. simpl in HF.
  rewrite map_map. simpl. rewrite map_id.
  apply (trips_loop_total py line _ _ fs); [|exact Hj|exact Hd].
  apply dict_get_features; [auto|]. exact HF.
Qed.

Lemma filter_filter {A} (p q : A -> bool) (l : list A) :
  filter q (filter p l) = filter (fun a => p a && q a) l.
Proof.
  induction l as [|a l IH]; simpl; [reflexivity|].
  destruct (p a); simpl; [destruct (q a)|]; now rewrite IH.
Qed.

(** C5, as the code has it: the features of a line are one per trip
    identifier found on the line.  The geometry of the feature of a trip is
    the list of the (longitude, latitude, elevation, elapsed seconds) tuples
    of the table's rows of that trip on that line, one per row and in the
    row order of the table, every number rounded to 6 decimals, so it has
    as many points as the trip has rows; none of those coordinates is text.
    This holds of the features [create_geojson_features] returns and of
    those the loop of the older script builds.  The features are built on
    every table that has the columns the Builder reads and numbers for the
    coordinates of the line, and the older loop then returns them when
    JSON takes them and its file can be written: the directory of the file
    is there, and the file name is not that of a directory. *)
Theorem C5_trip_geometry_in_row_order (df : DataFrame) (line : cell) :
  (Forall (fun r => row_keys r = columns df) (rows df) ->
   Forall (fun c => In c (columns df)) builder_columns ->
   (forall r, In r (rows df) -> on_line line r = true -> cell_of "trip_id" r <> NA ->
              real_position (position_of r) = true) ->
   exists features,
     create_geojson_file.create_geojson_features df line = Ok features /\
     forall py w,
       json_problem features = None ->
       dirname (notebook.output_filename py line) = "" \/
       Os.fs w !! dirname (notebook.output_filename py line) = Some Dir ->
       Os.fs w !! notebook.output_filename py line <> Some Dir ->
       exists w', notebook.line_loop py df line w = (Ok features, w')) /\
  forall features,
    create_geojson_file.create_geojson_features df line = Ok features \/
    (exists py w w', notebook.line_loop py df line w = (Ok features, w')) ->
    forall k, k <> NA ->
    (exists r, In r (rows df) /\ on_line line r = true /\ cell_of "trip_id" r = k) ->
    exists f,
      In f features /\ trip (properties f) = [k] /\
      geometry f =
        map rounded_position
            (map position_of
               (filter (fun r => on_line line r && cell_eqb (cell_of "trip_id" r) k)
                       (rows df))) /\
      Forall (fun r => real_position (position_of r) = true)
             (filter (fun r => on_line line r && cell_eqb (cell_of "trip_id" r) k)
                     (rows df)) /\
      List.length (geometry f) =
        List.length
          (filter (fun r => on_line line r && cell_eqb (cell_of "trip_id" r) k) (rows df)) /\
      (forall f', In f' features -> trip (properties f') = [k] -> f' = f) /\
      ((forall r, In r (rows df) -> cell_of "trip_id" r = k -> on_line line r = true) ->
       geometry f =
         map rounded_position
             (map position_of
                (filter (fun r => cell_eqb (cell_of "trip_id" r) k) (rows df)))).
Proof.
  split.
  { intros Hk Hc Hreal.
    destruct (create_geojson_features_total df line Hk Hc Hreal) as [features Hf].
    exists features. split; [assumption|]. intros py w Hj _ Hd.
    now apply line_loop_total. }
  intros features H k Hna Hex.
  assert (Hcgf : create_geojson_file.create_geojson_features df line = Ok features).
  { destruct H as [H|(py & w & w' & H)]; [assumption|].
    eapply line_loop_features; eassumption. }
  clear H. pose proof (create_geojson_features_real _ _ _ Hcgf) as Hreal.
  apply create_geojson_features_ok in Hcgf. subst features.
  assert (Hk : In k (trip_keys df line)) by (apply In_trip_keys; auto).
  exists (feature_of df line k).
  split; [now apply in_map|]. split; [reflexivity|].
  assert (E : trip_rows df line k =
              filter (fun r => on_line line r && cell_eqb (cell_of "trip_id" r) k) (rows df))
    by apply filter_filter.
  rewrite <- E. split; [reflexivity|]. split.
  { apply Forall_forall. intros r Hr. apply trip_rows_spec in Hr as (Hr & Hl & Hr').
    apply Hreal; try assumption. congruence. }
  split; [simpl; now rewrite !length_map|]. split.
  - intros f' Hf' Ht. apply in_map_iff in Hf' as (k' & <- & _).
    simpl in Ht. now injection Ht as ->.
  - intros Hall. simpl. do 2 f_equal. rewrite E. apply filter_ext_in. intros r Hr.
    destruct (cell_eqb (cell_of "trip_id" r) k) eqn:Er; [|apply andb_false_r].
    apply cell_eqb_eq in Er. now rewrite (Hall r Hr Er).
Qed.

End LineFeatures.

Section LineFeaturesSample.
Import Pandas Geojson Os Linewise Samples.

Lemma C5_trip_geometry_witness :
  (exists features,
     create_geojson_file.create_geojson_features metro1 (Str "L1") = Ok features /\
     forall py w,
       json_problem features = None ->
       dirname (notebook.output_filename py (Str "L1")) = "" \/
       Os.fs w !! dirname (notebook.output_filename py (Str "L1")) = Some Dir ->
       Os.fs w !! notebook.output_filename py (Str "L1") <> Some Dir ->
       exists w', notebook.line_loop py metro1 (Str "L1") w = (Ok features, w')) /\
  exists f,
    In f (features_at (after_builder (after_assembler world1))
                      "/home/metro/geojson/L1.geojson") /\
    trip (properties f) = [Str "T1"] /\
    geometry f =
      map rounded_position
          (map position_of
             (filter (fun r => on_line (Str "L1") r && cell_eqb (cell_of "trip_id" r) (Str "T1"))
                     (rows metro1))) /\
    Forall (fun r => real_position (position_of r) = true)
           (filter (fun r => on_line (Str "L1") r && cell_eqb (cell_of "trip_id" r) (Str "T1"))
                   (rows metro1)) /\
    List.length (geometry f) =
      List.length
        (filter (fun r => on_line (Str "L1") r && cell_eqb (cell_of "trip_id" r) (Str "T1"))
                (rows metro1)) /\
    (forall f', In f' (features_at (after_builder (after_assembler world1))
                                   "/home/metro/geojson/L1.geojson") ->
                trip (properties f') = [Str "T1"] -> f' = f) /\
    ((forall r, In r (rows metro1) -> cell_of "trip_id" r = Str "T1" ->
                on_line (Str "L1") r = true) ->
     geometry f =
       map rounded_position
           (map position_of
              (filter (fun r => cell_eqb (cell_of "trip_id" r) (Str "T1")) (rows metro1)))).
Proof.
  split.
  - apply (proj1 (C5_trip_geometry_in_row_order metro1 (Str "L1"))).
    + repeat constructor.
    + unfold builder_columns.
      repeat (apply Forall_cons; [apply mem_str_In; vm_compute; reflexivity|]).
      apply Forall_nil.
    + intros r Hr _ _. vm_compute in Hr. destruct Hr as [<-|[<-|[]]]; reflexivity.
  - apply (proj2 (C5_trip_geometry_in_row_order metro1 (Str "L1"))).
    + left. vm_compute. reflexivity.
    + discriminate.
    + exists (nth 0 (rows metro1) []). vm_compute. auto.
Defined.

(** A longitude of seven decimals, 2.1234567, is in the geometry as
    2.123457, so the geometry is not the tuples of the rows as they are; and
    a longitude that is text makes [create_geojson_features] raise. *)
Lemma C5_trip_geometry_counterexample :
  (exists f,
     create_geojson_file.create_geojson_features fine_point (Str "L1") = Ok [f] /\
     trip (properties f) = [Str "T1"] /\
     map position_of (rows fine_point)
     = [(decimal 21234567 10000000, decimal 4138 100, num 0, num (-2208959070))] /\
     geometry f
     = [(decimal 2123457 1000000, decimal 4138 100, num 0, num (-2208959070))] /\
     geometry f <> map position_of (rows fine_point)) /\
  create_geojson_file.create_geojson_features text_point (Str "L1")
  = Raise (ValueError "is not a JSON compliant number").
Proof.
  split; [|vm_compute; reflexivity].
  eexists. split; [vm_compute; reflexivity|].
  split; [reflexivity|]. split; [vm_compute; reflexivity|].
  split; [vm_compute; reflexivity|]. vm_compute. discriminate.
Qed.

End LineFeaturesSample.

(** ** The documents the Builder writes *)

Section Documents.
Import Pandas Geojson Os Linewise.

(** C6: in every document the Builder produces, the [trip] property of every
    feature is a list of exactly one element, the trip identifier of the
    group of rows the geometry of the feature was built from: the geometry
    is the points of those rows, as [LineString] rounds them. *)
Theorem C6_trip_property_is_the_group_key (py : PyLib) (w w' : World) (r : result unit) :
  create_geojson_file.main py w = (r, w') ->
  forall p features,
    fs w' !! p = Some (File (FeatureCollection features)) ->
    fs w !! p <> Some (File (FeatureCollection features)) ->
    exists df line,
      reads w df /\ p = line_file py w line /\
      forall f, In f features ->
        exists k,
          trip (properties f) = [k] /\ k <> NA /\
          trip_rows df line k <> [] /\
          geometry f = map rounded_position (map position_of (trip_rows df line k)) /\
          forall row, In row (trip_rows df line k) <->
                      In row (rows df) /\ on_line line row = true /\
                      cell_of "trip_id" row = k.
Proof.
  intros H p features Hp Hnew.
  destruct (builder_new_files py _ _ _ H p _ Hp)
    as [Hold|(df & line & row & Hr & _ & _ & -> & [E|E])];
    [contradiction| |discriminate].
  exists df, line. split; [assumption|]. split; [reflexivity|].
  unfold document in E. injection E as ->.
  intros f Hf. apply in_map_iff in Hf as (k & <- & Hk).
  exists k. split; [reflexivity|].
  pose proof (trip_rows_nonempty df line k Hk) as Hne.
  apply In_trip_keys in Hk as [Hna _].
  split; [assumption|]. split; [assumption|]. split; [reflexivity|].
  intros row0. apply trip_rows_spec.
Qed.

End Documents.

Section DocumentsSample.
Import Pandas Geojson Os Linewise Samples.

Lemma main_builder_world1 :
  create_geojson_file.main python (after_assembler world1)
  = (Ok tt, after_builder (after_assembler world1)).
Proof. vm_compute. reflexivity. Qed.

Lemma C6_trip_property_witness :
  exists df line,
    reads (after_assembler world1) df /\
    "/home/metro/geojson/L1.geojson" = line_file python (after_assembler world1) line /\
    forall f, In f (features_at (after_builder (after_assembler world1))
                                "/home/metro/geojson/L1.geojson") ->
      exists k,
        trip (properties f) = [k] /\ k <> NA /\
        trip_rows df line k <> [] /\
        geometry f = map rounded_position (map position_of (trip_rows df line k)) /\
        forall row, In row (trip_rows df line k) <->
                    In row (rows df) /\ on_line line row = true /\
                    cell_of "trip_id" row = k.
Proof.
  apply (C6_trip_property_is_the_group_key python (after_assembler world1)
           (after_builder (after_assembler world1)) (Ok tt)).
  - exact main_builder_world1.
  - vm_compute. reflexivity.
  - vm_compute. discriminate.
Defined.

End DocumentsSample.

(** ** What a failed run leaves behind *)

Section Failures.
Import Pandas Geojson Os Rowwise Linewise.
Context (py : PyLib).

Lemma no_new_file_refl (w : World) : no_new_file w w.
Proof. intros p c H. exact H. Qed.

Lemma save_to_csv_raise (df : DataFrame) (name dir : string) (w w' : World) (e : exn) :
  create_dataframe.save_to_csv py df name dir w = (Raise e, w') -> no_new_file w w'.
Proof.
  unfold create_dataframe.save_to_csv, to_csv. intros H.
  apply bind_raise in H as [H|([] & w1 & H1 & H)].
  - apply makedirs_inv in H as [_ H]. intros p c. apply H.
  - apply write_file_raise in H as ->. apply makedirs_inv in H1 as [_ H1].
    intros p c. apply H1.
Qed.

Ltac loading H :=
  apply bind_raise in H as [H|(? & ? & Hload & H)];
  [apply load_data_inv in H; subst; apply no_new_file_refl
  |apply load_data_inv in Hload; subst].

Ltac computing H :=
  apply bind_raise in H as [H|(? & ? & Hpure & H)];
  [apply lift_inv in H as [_ ->]; apply no_new_file_refl
  |apply lift_inv in Hpure as [_ ->]].

(** The Assembler writes nothing before its last step: a run that raises
    leaves no new file. *)
Lemma assembler_failure (w w' : World) (e : exn) :
  create_dataframe.main py w = (Raise e, w') -> no_new_file w w'.
Proof.
  unfold create_dataframe.main. intros H.
  apply bind_raise in H as [H|(cd & w0 & Hcd & H)]; [discriminate|].
  unfold getcwd in Hcd. injection Hcd as <- <-.
  do 4 loading H. do 8 computing H.
  apply bind_raise in H as [H|([] & w1 & _ & H)]; [|discriminate].
  eapply save_to_csv_raise; eassumption.
Qed.

(** C2, as the code has it.  The Assembler writes its one file as its last
    step, so a run of it that raises leaves no new file, and a run that ends
    normally leaves the whole assembled table in [metro_data.csv] and no
    other new file.  The Builder writes the document of a line as soon as
    the features of that line are computed.  A run of it fails before the
    loop and leaves no new file, or it goes through a first part [done] of
    the lines, whose documents are then in place and are the only new
    files, and ends there when that part is the whole list; otherwise it
    raises at the line after [done], which leaves every other file as it
    is, and its own file as it is or truncated, when the dump has stopped
    at a value JSON refuses. *)
Theorem C2_outputs_written_as_computed :
  (forall w e w',
     create_dataframe.main py w = (Raise e, w') -> no_new_file w w') /\
  (forall w metro w',
     create_dataframe.main py w = (Ok metro, w') ->
     fs w' !! data_path w "metro_data.csv" = Some (File (Csv (csv_text py metro))) /\
     forall p c, fs w' !! p = Some (File c) ->
                 fs w !! p = Some (File c) \/ p = data_path w "metro_data.csv") /\
  (forall w r w',
     create_geojson_file.main py w = (r, w') ->
     (exists e, r = Raise e /\ no_new_file w w') \/
     exists df labels done rest w0 wmid,
       reads w df /\ getcol "route_short_name" df = Ok labels /\
       unique labels = (done ++ rest)%list /\
       create_geojson_file.ensure_directory_exists (path_join (cwd w) "geojson") w
       = (Ok tt, w0) /\
       for_each done (create_geojson_file.process_line py df (path_join (cwd w) "geojson")) w0
       = (Ok tt, wmid) /\
       (forall line, In line done ->
          json_problem (map (feature_of df line) (trip_keys df line)) = None /\
          exists line',
            In line' done /\ line_file py w line' = line_file py w line /\
            fs wmid !! line_file py w line = Some (File (document df line'))) /\
       (forall p c, fs wmid !! p = Some (File c) ->
          fs w !! p = Some (File c) \/
          exists line, In line done /\ p = line_file py w line /\ c = document df line) /\
       match rest with
       | [] => r = Ok tt /\ w' = wmid
       | line :: _ =>
           exists e,
             r = Raise e /\
             create_geojson_file.process_line py df (path_join (cwd w) "geojson") line wmid
             = (Raise e, w') /\
             (forall p c, p <> line_file py w line ->
                fs w' !! p = Some (File c) <-> fs wmid !! p = Some (File c)) /\
             ((forall c, fs w' !! line_file py w line = Some (File c) <->
                         fs wmid !! line_file py w line = Some (File c)) \/
              (json_problem (map (feature_of df line) (trip_keys df line)) = Some e /\
               fs w' !! line_file py w line
               = Some (File (Truncated (map (feature_of df line) (trip_keys df line))))))
       end).
Proof.
  split; [|split].
  - intros w e w'. apply assembler_failure.
  - intros w metro w' H. apply main_ok in H
      as (t & r & s & st & a & b & c & lat & lon & f & l & sec & _ & _ & _ & _ & _ & _ & _
          & _ & _ & _ & Hs).
    split; [eapply save_to_csv_ok; eassumption|].
    unfold create_dataframe.save_to_csv, to_csv in Hs.
    apply bind_ok in Hs as ([] & w1 & H1 & Hs). apply makedirs_inv in H1 as [_ H1].
    apply write_file_ok in Hs as ->. simpl. intros p c0 Hp. unfold data_path.
    destruct (string_dec (path_join (path_join (cwd w) "data") "metro_data.csv") p)
      as [<-|Hne]; [auto|].
    left. rewrite lookup_insert_ne in Hp by assumption. now apply H1.
  - intros w r w' H.
    destruct (builder_split py _ _ _ H)
      as [(e & -> & Hno & _)
         |(df & labels & done & rest & w0 & wmid & Hr & Hlab & Hl & Hmk & Hd & Hrest)];
      [left; eauto|].
    right. exists df, labels, done, rest, w0, wmid.
    do 5 (split; [assumption|]).
    split; [|split].
    + intros line Hin. split; [eapply loop_no_problem; eassumption|].
      unfold line_file. eapply loop_last_writer; eassumption.
    + intros p c Hp.
      apply mkdir_parents_inv in Hmk as [_ Hw0].
      destruct (loop_files py _ _ _ _ _ Hd) as [_ Hnew].
      destruct (Hnew p c Hp) as [Hold|(line & Hin & -> & ->)].
      * left. now apply Hw0.
      * right. exists line. unfold line_file. auto.
    + destruct rest as [|line rest']; [assumption|].
      destruct Hrest as (e & -> & Hline). exists e.
      split; [reflexivity|]. split; [assumption|].
      apply line_body_inv in Hline as (_ & Hq & Hcase). unfold line_file. auto.
Qed.

End Failures.

Section FailuresSample.
Import Pandas Geojson Os Rowwise Linewise Samples.

Lemma C2_outputs_witness :
  no_new_file world5 (after_assembler world5) /\
  (fs (after_assembler world1) !! data_path world1 "metro_data.csv"
   = Some (File (Csv (csv_text python (assembled world1)))) /\
   forall p c, fs (after_assembler world1) !! p = Some (File c) ->
               fs world1 !! p = Some (File c) \/ p = data_path world1 "metro_data.csv") /\
  ((exists e, @Raise unit (OSError "/home/metro/geojson/L2.geojson") = Raise e /\
              no_new_file (after_assembler world4) (after_builder (after_assembler world4))) \/
   exists df labels done rest w0 wmid,
     reads (after_assembler world4) df /\ getcol "route_short_name" df = Ok labels /\
     unique labels = (done ++ rest)%list /\
     create_geojson_file.ensure_directory_exists
       (path_join (cwd (after_assembler world4)) "geojson") (after_assembler world4)
     = (Ok tt, w0) /\
     for_each done
       (create_geojson_file.process_line python df
          (path_join (cwd (after_assembler world4)) "geojson")) w0
     = (Ok tt, wmid) /\
     (forall line, In line done ->
        json_problem (map (feature_of df line) (trip_keys df line)) = None /\
        exists line',
          In line' done /\
          line_file python (after_assembler world4) line'
          = line_file python (after_assembler world4) line /\
          fs wmid !! line_file python (after_assembler world4) line
          = Some (File (document df line'))) /\
     (forall p c, fs wmid !! p = Some (File c) ->
        fs (after_assembler world4) !! p = Some (File c) \/
        exists line, In line done /\ p = line_file python (after_assembler world4) line /\
                     c = document df line) /\
     match rest with
     | [] => @Raise unit (OSError "/home/metro/geojson/L2.geojson") = Ok tt /\
             after_builder (after_assembler world4) = wmid
     | line :: _ =>
         exists e,
           @Raise unit (OSError "/home/metro/geojson/L2.geojson") = Raise e /\
           create_geojson_file.process_line python df
             (path_join (cwd (after_assembler world4)) "geojson") line wmid
           = (Raise e, after_builder (after_assembler world4)) /\
           (forall p c, p <> line_file python (after_assembler world4) line ->
              fs (after_builder (after_assembler world4)) !! p = Some (File c) <->
              fs wmid !! p = Some (File c)) /\
           ((forall c,
               fs (after_builder (after_assembler world4))
               !! line_file python (after_assembler world4) line = Some (File c) <->
               fs wmid !! line_file python (after_assembler world4) line = Some (File c)) \/
            (json_problem (map (feature_of df line) (trip_keys df line)) = Some e /\
             fs (after_builder (after_assembler world4))
             !! line_file python (after_assembler world4) line
             = Some (File (Truncated (map (feature_of df line) (trip_keys df line))))))
     end).
Proof.
  split; [|split].
  - apply (proj1 (C2_outputs_written_as_computed python) world5
             (ValueError "Unable to parse string")).
    vm_compute. reflexivity.
  - apply (proj1 (proj2 (C2_outputs_written_as_computed python)) world1).
    exact main_world1.
  - apply (proj2 (proj2 (C2_outputs_written_as_computed python)) (after_assembler world4)
             (Raise (OSError "/home/metro/geojson/L2.geojson"))).
    vm_compute. reflexivity.
Defined.

(** Two runs of the Builder that fail and leave a new file.  In [world4] it
    writes the document of L1, then raises at L2, whose file name is taken
    by a directory.  In [world8] a stop of L1 has no latitude: the dump of
    the document of L1 raises [ValueError] and leaves the file truncated. *)
Lemma C2_outputs_counterexample :
  (create_geojson_file.main python (after_assembler world4)
   = (Raise (OSError "/home/metro/geojson/L2.geojson"),
      after_builder (after_assembler world4)) /\
   fs (after_assembler world4) !! "/home/metro/geojson/L1.geojson" = None /\
   fs (after_builder (after_assembler world4)) !! "/home/metro/geojson/L1.geojson"
   = Some (File (document (csv_text python (assembled world4)) (Str "L1"))) /\
   ~ no_new_file (after_assembler world4) (after_builder (after_assembler world4))) /\
  (create_geojson_file.main python (after_assembler world8)
   = (Raise (ValueError "Out of range float values are not JSON compliant"),
      after_builder (after_assembler world8)) /\
   fs (after_assembler world8) !! "/home/metro/geojson/L1.geojson" = None /\
   fs (after_builder (after_assembler world8)) !! "/home/metro/geojson/L1.geojson"
   = Some (File (Truncated (map (feature_of (csv_text python (assembled world8)) (Str "L1"))
                                (trip_keys (csv_text python (assembled world8)) (Str "L1"))))) /\
   ~ no_new_file (after_assembler world8) (after_builder (after_assembler world8))).
Proof.
  split.
  - split; [vm_compute; reflexivity|].
    assert (E1 : fs (after_assembler world4) !! "/home/metro/geojson/L1.geojson" = None)
      by (vm_compute; reflexivity).
    assert (E2 : fs (after_builder (after_assembler world4))
                 !! "/home/metro/geojson/L1.geojson"
                 = Some (File (document (csv_text python (assembled world4)) (Str "L1"))))
      by (vm_compute; reflexivity).
    repeat split; try assumption.
    intros H. specialize (H _ _ E2). rewrite E1 in H. discriminate.
  - split; [vm_compute; reflexivity|].
    assert (E1 : fs (after_assembler world8) !! "/home/metro/geojson/L1.geojson" = None)
      by (vm_compute; reflexivity).
    assert (E2 : fs (after_builder (after_assembler world8))
                 !! "/home/metro/geojson/L1.geojson"
                 = Some (File (Truncated
                      (map (feature_of (csv_text python (assembled world8)) (Str "L1"))
                           (trip_keys (csv_text python (assembled world8)) (Str "L1"))))))
      by (vm_compute; reflexivity).
    repeat split; try assumption.
    intros H. specialize (H _ _ E2). rewrite E1 in H. discriminate.
Qed.

End FailuresSample.

(** ** The two stages in sequence *)

Section Pipeline.
Import Pandas Geojson Os Rowwise Linewise.
Context (py : PyLib).

Lemma row_get_csv_row (c : string) (r : row) :
  row_get c (csv_row py r) = option_map (csv_cell py) (row_get c r).
Proof.
  induction r as [|[k v] r IH]; simpl; [reflexivity|].
  destruct (String.eqb k c); [reflexivity | assumption].
Qed.

Lemma cell_of_csv_row (c : string) (r : row) :
  cell_of c (csv_row py r) = csv_cell py (cell_of c r).
Proof.
  unfold cell_of. rewrite row_get_csv_row. destruct (row_get c r); reflexivity.
Qed.

Lemma save_to_csv_cwd (df : DataFrame) (name dir : string) (w w' : World) :
  create_dataframe.save_to_csv py df name dir w = (Ok tt, w') -> cwd w' = cwd w.
Proof.
  unfold create_dataframe.save_to_csv, to_csv. intros H.
  apply bind_ok in H as ([] & w1 & H1 & H).
  apply makedirs_inv in H1 as [H1 _]. apply write_file_ok in H as ->. exact H1.
Qed.

(** The table the Builder reads after the Assembler is the assembled table
    as [to_csv] wrote it. *)
Lemma handoff (w w1 : World) (metro df : DataFrame) :
  create_dataframe.main py w = (Ok metro, w1) ->
  reads w1 df -> cwd w1 = cwd w /\ df = csv_text py metro.
Proof.
  intros H [Hf _]. apply main_ok in H
    as (t & r & s & st & a & b & c & lat & lon & f & l & sec & _ & _ & _ & _ & _ & _ & _
        & _ & _ & _ & Hs).
  pose proof (save_to_csv_cwd _ _ _ _ _ Hs) as Hc. split; [assumption|].
  apply save_to_csv_ok in Hs. unfold metro_file in Hf. rewrite Hc in Hf.
  rewrite Hs in Hf. now injection Hf.
Qed.

Lemma to_numeric_cell_shape (v c : cell) :
  to_numeric_cell py v = Ok c -> c = NA \/ exists x, c = Num x.
Proof.
  destruct v as [|x|s|t]; simpl.
  - intros [= <-]. auto.
  - intros [= <-]. eauto.
  - destruct (float_of_str py s); [intros [= <-]; eauto | discriminate].
  - intros [= <-]. unfold num. eauto.
Qed.

Lemma assembled_coordinates (trips routes stops stop_times : DataFrame)
      (st sp tr ro m : row) :
  assembled_from py trips routes stops stop_times st sp tr ro m ->
  exists lat lon,
    (lat = NA \/ exists x, lat = Num x) /\ (lon = NA \/ exists x, lon = Num x) /\
    (forall v, row_get "stop_lat" m = Some v -> v = lat) /\
    (forall v, row_get "stop_lon" m = Some v -> v = lon) /\
    (~ In "stop_lat" (columns trips) -> ~ In "stop_lat" (columns routes) ->
     row_get "stop_lat" m = Some lat) /\
    (~ In "stop_lon" (columns trips) -> ~ In "stop_lon" (columns routes) ->
     row_get "stop_lon" m = Some lon).
Proof.
  intros (_ & _ & _ & _ & _ & _ & _ & lat & lon & t & Hlat & Hlon & _ & _ & _ & ->).
  exists lat, lon.
  split; [eapply to_numeric_cell_shape; eassumption|].
  split; [eapply to_numeric_cell_shape; eassumption|].
  unfold metro_row. rewrite !row_get_set_ne by discriminate.
  unfold final_row. rewrite !row_get_join by reflexivity.
  unfold stop_row. rewrite row_get_set_eq.
  rewrite row_get_set_ne by discriminate. rewrite row_get_set_eq.
  repeat split.
  - destruct (mem_str "stop_lat" _); [discriminate | now intros v [= <-]].
  - destruct (mem_str "stop_lon" _); [discriminate | now intros v [= <-]].
  - intros H1 H2. rewrite not_In_overlap; [reflexivity|].
    unfold tripsandroutes_columns. intros Hin.
    apply In_merge_columns in Hin as [[Hin|Hin] _]; [contradiction..|reflexivity].
  - intros H1 H2. rewrite not_In_overlap; [reflexivity|].
    unfold tripsandroutes_columns. intros Hin.
    apply In_merge_columns in Hin as [[Hin|Hin] _]; [contradiction..|reflexivity].
Qed.

Lemma Qred_whole (z : Z) : Qred (inject_Z z) = inject_Z z.
Proof. apply Qred_identity. simpl. apply Z.gcd_1_r. Qed.

(** Rounding leaves a whole number as it is. *)
Lemma round6_whole (z : Z) : round6 (Q2Qc (inject_Z z)) = Q2Qc (inject_Z z).
Proof.
  unfold round6.
  assert (E : Qeq_bool
                (this (Q2Qc (round_half_even
                               (Qmult (this (Q2Qc (inject_Z z))) (1000000 # 1)) # 1000000)))
                (this (Q2Qc (inject_Z z))) = true).
  { apply Qeq_bool_iff. cbn [this Q2Qc]. rewrite Qred_whole, Qred_correct.
    unfold round_half_even, Qmult, inject_Z. cbn [Qnum Qden].
    change (Zpos (1 * 1)) with 1. rewrite Z.div_1_r, Z.mod_1_r.
    change (2 * 0 <? 1) with true. cbn iota.
    unfold Qeq. cbn [Qnum Qden]. lia. }
  now rewrite E.
Qed.

Lemma rounded_num (z : Z) : rounded (num z) = num z.
Proof. unfold num, rounded. now rewrite round6_whole. Qed.

Lemma rounded_shape (v : cell) :
  v = NA \/ (exists x, v = Num x) -> rounded v = NA \/ exists x, rounded v = Num x.
Proof. intros [->|[x ->]]; simpl; eauto. Qed.

Lemma numeric_or_missing_csv (v : cell) :
  v = NA \/ (exists x, v = Num x) -> csv_cell py v = v.
Proof. intros [->|[x ->]]; reflexivity. Qed.

(** The point of an assembled row: coordinates that are numbers or missing,
    the elevation 0 and the seconds of its arrival time.  [to_csv] writes
    it as it is. *)
Lemma assembled_point (w w1 : World) (trips routes stops stop_times metro : DataFrame)
      (m : row) :
  loaded w trips routes stops stop_times ->
  create_dataframe.main py w = (Ok metro, w1) ->
  In m (rows metro) ->
  position_of (csv_row py m) = position_of m /\
  exists lon lat st ta td,
    position_of m = (lon, lat, num 0, num (ta - create_dataframe.datetime_1970_1_1)) /\
    (lon = NA \/ exists x, lon = Num x) /\
    (lat = NA \/ exists x, lat = Num x) /\
    joined_from py trips routes stops stop_times st m /\
    parsed (cell_of "arrival_time" st) ta /\
    parsed (cell_of "departure_time" st) td.
Proof.
  intros Hl Hmain Hm.
  destruct (assembled_origin py _ _ _ _ _ _ _ Hl Hmain m Hm)
    as (st & sp & tr & ro & ta & td & Ha & Pa & Pd & _ & _ & Ei).
  destruct (assembled_coordinates _ _ _ _ _ _ _ _ _ Ha)
    as (lat & lon & Slat & Slon & Elat & Elon & _ & _).
  pose proof (assembled_elevation py _ _ _ _ _ _ _ _ _ Ha) as Ee.
  assert (Hlon : cell_of "stop_lon" m = NA \/ exists x, cell_of "stop_lon" m = Num x).
  { unfold cell_of. destruct (row_get "stop_lon" m) as [v|] eqn:E; [|auto].
    now rewrite (Elon v eq_refl). }
  assert (Hlat : cell_of "stop_lat" m = NA \/ exists x, cell_of "stop_lat" m = Num x).
  { unfold cell_of. destruct (row_get "stop_lat" m) as [v|] eqn:E; [|auto].
    now rewrite (Elat v eq_refl). }
  assert (He : cell_of "elevation" m = num 0) by (unfold cell_of; now rewrite Ee).
  assert (Hi : cell_of "arrival_time_int" m
               = num (ta - create_dataframe.datetime_1970_1_1))
    by (unfold cell_of; now rewrite Ei).
  split.
  - unfold position_of. rewrite !cell_of_csv_row.
    rewrite !numeric_or_missing_csv by assumption. rewrite He, Hi. reflexivity.
  - exists (cell_of "stop_lon" m), (cell_of "stop_lat" m), st, ta, td.
    split; [unfold position_of; now rewrite He, Hi|].
    split; [assumption|]. split; [assumption|].
    split; [now exists sp, tr, ro|]. auto.
Qed.

(** Every point of a document the Builder writes after the Assembler is the
    point of an assembled row, rounded. *)
Lemma written_point (w w1 w2 : World) (r : result unit)
      (trips routes stops stop_times metro : DataFrame) :
  loaded w trips routes stops stop_times ->
  create_dataframe.main py w = (Ok metro, w1) ->
  create_geojson_file.main py w1 = (r, w2) ->
  forall p features,
    fs w2 !! p = Some (File (FeatureCollection features)) ->
    fs w1 !! p <> Some (File (FeatureCollection features)) ->
    forall f point, In f features -> In point (geometry f) ->
    exists m, In m (rows metro) /\ point = rounded_position (position_of m).
Proof.
  intros Hl Hmain Hbuild p features Hp Hnew f point Hf Hpoint.
  destruct (builder_new_files py _ _ _ Hbuild p _ Hp)
    as [Hold|(df & line & row & Hr & _ & _ & _ & [E|E])];
    [contradiction| |discriminate].
  destruct (handoff _ _ _ _ Hmain Hr) as [_ ->].
  unfold document in E. injection E as ->.
  apply in_map_iff in Hf as (k & <- & _). cbn [geometry feature_of] in Hpoint.
  apply in_map_iff in Hpoint as (pt & <- & Hpt).
  apply in_map_iff in Hpt as (row0 & <- & Hrow).
  apply trip_rows_spec in Hrow as (Hrow & _). cbn [rows csv_text] in Hrow.
  apply in_map_iff in Hrow as (m & <- & Hm).
  exists m. split; [assumption|].
  now rewrite (proj1 (assembled_point _ _ _ _ _ _ _ _ Hl Hmain Hm)).
Qed.

(** Every file the Builder writes after the Assembler is named after the
    label of a row of the table it reads, whose route type is 1. *)
Lemma written_file_row (w w1 w2 : World) (r : result unit)
      (trips routes stops stop_times metro : DataFrame) :
  loaded w trips routes stops stop_times ->
  create_dataframe.main py w = (Ok metro, w1) ->
  create_geojson_file.main py w1 = (r, w2) ->
  forall p c,
    fs w2 !! p = Some (File c) -> fs w1 !! p <> Some (File c) ->
    exists df row,
      reads w1 df /\ In row (rows df) /\ cell_of "route_type" row = num 1 /\
      p = line_file py w1 (cell_of "route_short_name" row).
Proof.
  intros Hl Hmain Hbuild p c Hp Hnew.
  destruct (builder_new_files py _ _ _ Hbuild p _ Hp)
    as [Hold|(df & line & row & Hr & Hrow & Eline & -> & _)]; [contradiction|].
  exists df, row. split; [assumption|]. split; [assumption|].
  split; [|now rewrite Eline].
  destruct (handoff _ _ _ _ Hmain Hr) as [_ ->]. cbn [rows csv_text] in Hrow.
  apply in_map_iff in Hrow as (m & <- & Hm).
  destruct (main_rows py _ _ _ _ _ _ _ Hl Hmain m Hm) as (st & sp & tr & ro & Ha).
  pose proof (assembled_route_type py _ _ _ _ _ _ _ _ _ Ha) as E.
  rewrite cell_of_csv_row. unfold cell_of. now rewrite E.
Qed.

End Pipeline.

Section UnparsedTimes.
Import Pandas Geojson Os Rowwise Linewise.

(** C8: [process_stop_times] turns a time that the format rejects into a
    missing value, as for 25:61:00, and then removes every row with a missing
    value; it raises nothing when the two time columns are there.  So a
    stop_times row of which one of the two times fails to parse is not kept,
    every assembled row is joined from a stop_times row with both times
    parsed, and every point of every geometry the Builder then writes is
    the point of such an assembled row, as [LineString] rounds it. *)
Theorem C8_unparsed_times_drop_the_row (py : PyLib) (w w1 w2 : World) (r : result unit)
        (trips routes stops stop_times metro : DataFrame) :
  loaded w trips routes stops stop_times ->
  create_dataframe.main py w = (Ok metro, w1) ->
  create_geojson_file.main py w1 = (r, w2) ->
  to_datetime_coerce (Str "25:61:00") = NA /\
  (forall df, Forall (fun st => row_keys st = columns df) (rows df) ->
              In "arrival_time" (columns df) -> In "departure_time" (columns df) ->
              exists kept, create_dataframe.process_stop_times df = Ok kept) /\
  (exists kept,
     create_dataframe.process_stop_times stop_times = Ok kept /\
     rows kept = filter row_complete (map parse_times (rows stop_times)) /\
     forall st, In st (rows stop_times) ->
       to_datetime_coerce (cell_of "arrival_time" st) = NA \/
       to_datetime_coerce (cell_of "departure_time" st) = NA ->
       row_complete (parse_times st) = false /\ ~ In (parse_times st) (rows kept)) /\
  (forall m, In m (rows metro) ->
     exists st ta td,
       joined_from py trips routes stops stop_times st m /\
       parsed (cell_of "arrival_time" st) ta /\
       parsed (cell_of "departure_time" st) td) /\
  (forall p features,
     fs w2 !! p = Some (File (FeatureCollection features)) ->
     fs w1 !! p <> Some (File (FeatureCollection features)) ->
     forall f point, In f features -> In point (geometry f) ->
     exists m st ta td,
       In m (rows metro) /\ point = rounded_position (position_of m) /\
       joined_from py trips routes stops stop_times st m /\
       parsed (cell_of "arrival_time" st) ta /\
       parsed (cell_of "departure_time" st) td).
Proof.
  intros Hl Hmain Hbuild.
  assert (Horigin : forall m, In m (rows metro) ->
            exists st ta td,
              joined_from py trips routes stops stop_times st m /\
              parsed (cell_of "arrival_time" st) ta /\
              parsed (cell_of "departure_time" st) td).
  { intros m Hm.
    destruct (assembled_origin py _ _ _ _ _ _ _ Hl Hmain m Hm)
      as (st & sp & tr & ro & ta & td & Ha & Pa & Pd & _).
    exists st, ta, td. repeat split; try assumption. now exists sp, tr, ro. }
  split; [reflexivity|]. split.
  { intros df Hk Ha Hd. eexists. now apply process_stop_times_total. }
  split.
  { pose proof Hmain as H. apply main_ok in H
      as (trips' & routes' & stops' & stop_times' & kept & tr & fs0 & lat & lon & final
          & labels & seconds & Hl' & H1 & _).
    destruct (loaded_fun _ _ _ _ _ _ _ _ _ Hl Hl') as (_ & _ & _ & ->).
    exists kept. split; [assumption|].
    apply process_stop_times_ok in H1 as (_ & _ & _ & Hrows).
    split; [assumption|]. intros st Hst Hna.
    assert (Hc : row_complete (parse_times st) = false).
    { apply not_true_iff_false. rewrite row_complete_spec. intros Hn. apply Hn.
      destruct Hna as [E|E].
      - apply (row_get_value "arrival_time"). now rewrite parse_times_arrival, E.
      - apply (row_get_value "departure_time"). now rewrite parse_times_departure, E. }
    split; [assumption|]. rewrite Hrows. intros Hin.
    apply filter_In in Hin as [_ Hin]. congruence. }
  split; [exact Horigin|].
  intros p features Hp Hnew f point Hf Hpoint.
  destruct (written_point py _ _ _ _ _ _ _ _ _ Hl Hmain Hbuild p features Hp Hnew
              f point Hf Hpoint) as (m & Hm & ->).
  destruct (Horigin m Hm) as (st & ta & td & H).
  exists m, st, ta, td. auto.
Qed.

End UnparsedTimes.

Section UnparsedTimesSample.
Import Pandas Geojson Os Rowwise Linewise Samples.

Lemma C8_unparsed_times_witness :
  to_datetime_coerce (Str "25:61:00") = NA /\
  (forall df, Forall (fun st => row_keys st = columns df) (rows df) ->
              In "arrival_time" (columns df) -> In "departure_time" (columns df) ->
              exists kept, create_dataframe.process_stop_times df = Ok kept) /\
  (exists kept,
     create_dataframe.process_stop_times (loaded_stop_times world1) = Ok kept /\
     rows kept = filter row_complete (map parse_times (rows (loaded_stop_times world1))) /\
     forall st, In st (rows (loaded_stop_times world1)) ->
       to_datetime_coerce (cell_of "arrival_time" st) = NA \/
       to_datetime_coerce (cell_of "departure_time" st) = NA ->
       row_complete (parse_times st) = false /\ ~ In (parse_times st) (rows kept)) /\
  (forall m, In m (rows (assembled world1)) ->
     exists st ta td,
       joined_from python (loaded_trips world1) (loaded_routes world1)
                   (loaded_stops world1) (loaded_stop_times world1) st m /\
       parsed (cell_of "arrival_time" st) ta /\
       parsed (cell_of "departure_time" st) td) /\
  (forall p features,
     fs (after_builder (after_assembler world1)) !! p
     = Some (File (FeatureCollection features)) ->
     fs (after_assembler world1) !! p <> Some (File (FeatureCollection features)) ->
     forall f point, In f features -> In point (geometry f) ->
     exists m st ta td,
       In m (rows (assembled world1)) /\ point = rounded_position (position_of m) /\
       joined_from python (loaded_trips world1) (loaded_routes world1)
                   (loaded_stops world1) (loaded_stop_times world1) st m /\
       parsed (cell_of "arrival_time" st) ta /\
       parsed (cell_of "departure_time" st) td).
Proof.
  apply (C8_unparsed_times_drop_the_row python world1 (after_assembler world1)
           (after_builder (after_assembler world1)) (Ok tt)).
  - exact loaded_world1.
  - exact main_world1.
  - exact main_builder_world1.
Defined.

(** The fourth visit of [stop_times1] has the times 25:61:00 and 25:61:30. *)
Example unparsed_visit_dropped :
  let st := nth 3 (rows (loaded_stop_times world1)) [] in
  row_get "arrival_time" st = Some (Str "25:61:00") /\
  row_get "arrival_time" (parse_times st) = Some NA /\
  row_complete (parse_times st) = false /\
  fst (create_dataframe.main python world1) = Ok (assembled world1) /\
  map (cell_of "arrival_time") (rows (assembled world1))
  = [Stamp (-2208959070); Stamp (-2208958800)].
Proof. vm_compute. auto 6. Qed.

End UnparsedTimesSample.

Section NonSubwayRoutes.
Import Pandas Geojson Os Rowwise Linewise.

Lemma NoDup_map_In_inj {A B} (f : A -> B) (l : list A) (a b : A) :
  NoDup (map f l) -> In a l -> In b l -> f a = f b -> a = b.
Proof.
  induction l as [|x l IH]; simpl; [tauto|].
  intros Hnd Ha Hb E. inversion Hnd as [|? ? Hx Hnd']; subst.
  destruct Ha as [->|Ha], Hb as [->|Hb]; auto.
  - exfalso. apply Hx. rewrite E. now apply in_map.
  - exfalso. apply Hx. rewrite <- E. now apply in_map.
Qed.

(** C7, as the code has it, for a feed in which [route_type] and
    [route_short_name] are columns of routes only and [route_id] is a column
    of trips and routes only.  Take a routes row whose [route_type] is not 1.
    No assembled row is joined from it, and when no other routes row has its
    route_id, no assembled row carries that route_id.  The Builder names its
    files after the labels of the rows of the table it reads, and the route
    type of every such row is 1: a new file appears under the label of the
    routes row only when a row of that table gives the same file name. *)
Theorem C7_non_subway_routes_leave_no_rows (py : PyLib) (w w1 w2 : World) (r : result unit)
        (trips routes stops stop_times metro : DataFrame) :
  loaded w trips routes stops stop_times ->
  create_dataframe.main py w = (Ok metro, w1) ->
  create_geojson_file.main py w1 = (r, w2) ->
  (forall c, In c ["route_type"; "route_short_name"] ->
             ~ In c (columns stop_times) /\ ~ In c (columns stops) /\ ~ In c (columns trips)) ->
  ~ In "route_id" (columns stop_times) -> ~ In "route_id" (columns stops) ->
  forall ro, In ro (rows routes) -> cell_of "route_type" ro <> num 1 ->
  (forall m st sp tr, ~ assembled_from py trips routes stops stop_times st sp tr ro m) /\
  (unique_key "route_id" routes ->
   forall m, In m (rows metro) -> cell_of "route_id" m <> cell_of "route_id" ro) /\
  (forall c,
     fs w2 !! line_file py w1 (cell_of "route_short_name" ro) = Some (File c) ->
     fs w1 !! line_file py w1 (cell_of "route_short_name" ro) <> Some (File c) ->
     exists df row,
       reads w1 df /\ In row (rows df) /\ cell_of "route_type" row = num 1 /\
       line_file py w1 (cell_of "route_short_name" row)
       = line_file py w1 (cell_of "route_short_name" ro)).
Proof.
  intros Hl Hmain Hbuild Hcols Hid1 Hid2 ro Hro Htype.
  destruct (Hcols "route_type") as (T1 & T2 & T3); [simpl; auto|].
  destruct (Hcols "route_short_name") as (N1 & N2 & N3); [simpl; auto|].
  destruct (loaded_tables _ _ _ _ _ Hl)
    as ((Ktr & _) & (_ & Sro) & (Ksp & _) & (Kst & _)).
  split.
  { intros m st sp tr Ha. apply Htype.
    pose proof (assembled_route_type py _ _ _ _ _ _ _ _ _ Ha) as E.
    rewrite (assembled_routes_column py _ _ _ _ _ _ _ _ _ Ha Kst Ksp Ktr "route_type") in E
      by (try assumption; try reflexivity; discriminate).
    unfold cell_of. now rewrite E. }
  (* every assembled row is joined from a routes row of type 1 *)
  assert (Hrow : forall m, In m (rows metro) ->
            exists ro', In ro' (rows routes) /\ cell_of "route_type" ro' = num 1 /\
                        cell_of "route_id" m = cell_of "route_id" ro').
  { intros m Hm.
    destruct (main_rows py _ _ _ _ _ _ _ Hl Hmain m Hm) as (st & sp & tr & ro' & Ha).
    pose proof Ha as (_ & _ & _ & Hro' & _).
    exists ro'. split; [assumption|]. split.
    - pose proof (assembled_route_type py _ _ _ _ _ _ _ _ _ Ha) as E.
      rewrite (assembled_routes_column py _ _ _ _ _ _ _ _ _ Ha Kst Ksp Ktr "route_type") in E
        by (try assumption; try reflexivity; discriminate).
      unfold cell_of. now rewrite E.
    - eapply assembled_route_id; eassumption. }
  split.
  - intros Hu m Hm E. destruct (Hrow m Hm) as (ro' & Hro' & Ht' & Ei).
    apply unique_key_spec in Hu as [Hu _].
    assert (ro' = ro) by (eapply NoDup_map_In_inj; [exact Hu|..]; congruence).
    subst ro'. contradiction.
  - intros c Hc Hnew.
    destruct (written_file_row py _ _ _ _ _ _ _ _ _ Hl Hmain Hbuild _ _ Hc Hnew)
      as (df & row & Hr & Hin & Ht & Ep).
    exists df, row. auto.
Qed.

End NonSubwayRoutes.

Section NonSubwayRoutesSample.
Import Pandas Geojson Os Rowwise Linewise Samples.

Lemma C7_non_subway_routes_witness :
  (forall m st sp tr,
     ~ assembled_from python (loaded_trips world1) (loaded_routes world1)
         (loaded_stops world1) (loaded_stop_times world1) st sp tr
         (nth 1 (rows (loaded_routes world1)) []) m) /\
  (unique_key "route_id" (loaded_routes world1) ->
   forall m, In m (rows (assembled world1)) ->
             cell_of "route_id" m <> cell_of "route_id" (nth 1 (rows (loaded_routes world1)) [])) /\
  (forall c,
     fs (after_builder (after_assembler world1))
     !! line_file python (after_assembler world1)
          (cell_of "route_short_name" (nth 1 (rows (loaded_routes world1)) []))
     = Some (File c) ->
     fs (after_assembler world1)
     !! line_file python (after_assembler world1)
          (cell_of "route_short_name" (nth 1 (rows (loaded_routes world1)) []))
     <> Some (File c) ->
     exists df row,
       reads (after_assembler world1) df /\ In row (rows df) /\
       cell_of "route_type" row = num 1 /\
       line_file python (after_assembler world1) (cell_of "route_short_name" row)
       = line_file python (after_assembler world1)
           (cell_of "route_short_name" (nth 1 (rows (loaded_routes world1)) []))).
Proof.
  apply (C7_non_subway_routes_leave_no_rows python world1 (after_assembler world1)
           (after_builder (after_assembler world1)) (Ok tt)
           (loaded_trips world1) (loaded_routes world1) (loaded_stops world1)
           (loaded_stop_times world1) (assembled world1)).
  - exact loaded_world1.
  - exact main_world1.
  - exact main_builder_world1.
  - intros c [<-|[<-|[]]]; repeat split; vm_compute; intuition discriminate.
  - vm_compute. intuition discriminate.
  - vm_compute. intuition discriminate.
  - vm_compute. auto.
  - vm_compute. intros H. injection H as H. discriminate.
Defined.

(** Two feeds with a bus route and both stages ending normally.  In
    [world3] the bus route R2 carries the label L1 of the metro line: the
    Builder writes a document under the label of a route whose type is 3.
    In [world7] the bus route has the route_id R1 of the metro line: the
    rows of the trip T1 of that route_id are in the assembled table. *)
Lemma C7_non_subway_routes_counterexample :
  (exists ro,
     In ro (rows (loaded_routes world3)) /\
     cell_of "route_type" ro = num 3 /\
     cell_of "route_type" ro <> num 1 /\
     cell_of "route_short_name" ro = Str "L1" /\
     line_file python (after_assembler world3) (cell_of "route_short_name" ro)
     = "/home/metro/geojson/L1.geojson" /\
     create_dataframe.main python world3 = (Ok (assembled world3), after_assembler world3) /\
     create_geojson_file.main python (after_assembler world3)
     = (Ok tt, after_builder (after_assembler world3)) /\
     fs (after_assembler world3)
     !! line_file python (after_assembler world3) (cell_of "route_short_name" ro) = None /\
     fs (after_builder (after_assembler world3))
     !! line_file python (after_assembler world3) (cell_of "route_short_name" ro)
     = Some (File (document (csv_text python (assembled world3)) (Str "L1")))) /\
  (exists ro m,
     In ro (rows (loaded_routes world7)) /\
     cell_of "route_type" ro = num 3 /\
     cell_of "route_type" ro <> num 1 /\
     cell_of "route_id" ro = Str "R1" /\
     create_dataframe.main python world7 = (Ok (assembled world7), after_assembler world7) /\
     In m (rows (assembled world7)) /\
     cell_of "trip_id" m = Str "T1" /\
     cell_of "route_id" m = cell_of "route_id" ro /\
     ~ unique_key "route_id" (loaded_routes world7)).
Proof.
  split.
  - exists (nth 1 (rows (loaded_routes world3)) []).
    split; [vm_compute; auto|].
    split; [vm_compute; reflexivity|].
    split; [vm_compute; intros H; injection H as H; discriminate|].
    repeat split; vm_compute; reflexivity.
  - exists (nth 1 (rows (loaded_routes world7)) []), (nth 0 (rows (assembled world7)) []).
    split; [vm_compute; auto|].
    split; [vm_compute; reflexivity|].
    split; [vm_compute; intros H; injection H as H; discriminate|].
    split; [vm_compute; reflexivity|].
    split; [vm_compute; reflexivity|].
    split; [vm_compute; auto|].
    split; [vm_compute; reflexivity|].
    split; [vm_compute; reflexivity|].
    intros Hu. apply unique_key_spec in Hu as [Hu _].
    vm_compute in Hu. inversion Hu as [|? ? Hx _]. apply Hx. left. reflexivity.
Qed.

End NonSubwayRoutesSample.

(** ** The format and the reference dates, on examples *)

Section FormatExamples.
Import Pandas.

Example strptime_accepts :
  map strptime_HMS ["08:15:30"; "8:5:3"; "00:00:00"; "23:59:59"]
  = [Some (8, 15, 30); Some (8, 5, 3); Some (0, 0, 0); Some (23, 59, 59)].
Proof. reflexivity. Qed.

Example strptime_rejects :
  map strptime_HMS ["25:61:00"; "24:00:00"; "08:15"; "08:15:30 "; "08-15-30"; ""]
  = [None; None; None; None; None; None].
Proof. reflexivity. Qed.

Example reference_dates :
  days_from_civil 1900 1 1 = -25567 /\
  default_date_seconds = -2208988800 /\
  create_dataframe.datetime_1970_1_1 = 0.
Proof. repeat split; reflexivity. Qed.

Example seconds_of_08_15_30 :
  seconds_of_day (8, 15, 30) = 29730 /\
  to_datetime_coerce (Str "08:15:30") = Stamp (-2208959070).
Proof. split; reflexivity. Qed.

End FormatExamples.

(** * Further properties of the scripts *)

(** ** load_data *)

Section LoadData.
Import Pandas Os Rowwise.

Lemma row_get_without (c : string) (cs : list string) (r : row) :
  row_get c (filter (fun kv => negb (mem_str (fst kv) cs)) r) =
  if mem_str c cs then None else row_get c r.
Proof.
  induction r as [|[k v] r IH]; simpl.
  - destruct (mem_str c cs); reflexivity.
  - destruct (mem_str k cs) eqn:Ek; simpl.
    + rewrite IH. destruct (String.eqb_spec k c) as [->|_]; [now rewrite Ek | reflexivity].
    + destruct (String.eqb_spec k c) as [->|_]; [now rewrite Ek | exact IH].
Qed.

Lemma filter_all {A} (p : A -> bool) (l : list A) :
  (forall a, In a l -> p a = true) -> filter p l = l.
Proof.
  induction l as [|a l IH]; simpl; intros H; [reflexivity|].
  rewrite (H a (or_introl eq_refl)). f_equal. apply IH. auto.
Qed.

Lemma Forall2_same {A} (P : A -> A -> Prop) (l : list A) :
  (forall a, In a l -> P a a) -> Forall2 P l l.
Proof. induction l; constructor; simpl in *; auto. Qed.

(** X1: [load_data] raises [OSError] when there is nothing at the path, or
    a directory, and [KeyError] when a column it is told to drop is not in
    the file; in no case does it change a file, and [main] raises what the
    load of [trips.txt] raises. *)
Theorem X1_load_data_errors (p : string) (cs : list string) (w : World) :
  (fs w !! p = None \/ fs w !! p = Some Dir ->
   create_dataframe.load_data p cs w = (Raise (OSError p), w)) /\
  (forall df c,
     fs w !! p = Some (File (Csv df)) -> csv_table df = true ->
     In c cs -> ~ In c (columns df) ->
     exists c', In c' cs /\ ~ In c' (columns df) /\
                create_dataframe.load_data p cs w = (Raise (KeyError c'), w)) /\
  (forall r w', create_dataframe.load_data p cs w = (r, w') -> w' = w) /\
  (forall py e,
     create_dataframe.load_data (data_path w "trips.txt")
       ["service_id"; "trip_headsign"; "direction_id"; "shape_id"; "wheelchair_accessible"] w
     = (Raise e, w) ->
     create_dataframe.main py w = (Raise e, w)).
Proof.
  split; [|split; [|split]].
  - intros [H|H]; unfold create_dataframe.load_data, bind, read_csv; now rewrite H.
  - intros df c Hf Hcsv Hc Hn. unfold create_dataframe.load_data, bind, read_csv.
    rewrite Hf, Hcsv.
    assert (Hl : forall w0, match cs with
                            | [] => ret df
                            | _ => lift (drop cs df)
                            end w0 = lift (drop cs df) w0 \/ cs = []).
    { destruct cs; [now right | now left]. }
    destruct (Hl w) as [-> | ->]; [|contradiction]. clear Hl.
    unfold lift, drop.
    destruct (filter (fun c => negb (mem_str c (columns df))) cs) as [|c' l] eqn:Ef.
    + exfalso. assert (Hin : In c (filter (fun c => negb (mem_str c (columns df))) cs)).
      { apply filter_In. split; [assumption|]. apply negb_true_iff. now apply mem_str_not_In. }
      rewrite Ef in Hin. contradiction.
    + assert (Hin : In c' (filter (fun c => negb (mem_str c (columns df))) cs))
        by (rewrite Ef; simpl; auto).
      apply filter_In in Hin as [H1 H2]. apply negb_true_iff, mem_str_not_In in H2.
      exists c'. auto.
  - intros r w'. apply load_data_inv.
  - intros py e H. unfold create_dataframe.main, getcwd. unfold bind at 1. unfold bind at 1.
    unfold data_path in H. rewrite H. reflexivity.
Qed.

(** X2: when [load_data] returns a table, every column it was told to drop
    was in the file, the header is the header of the file without those
    columns, in the same order, and row by row every other cell is the cell
    of the file. *)
Theorem X2_load_data_drops_only_the_listed_columns
        (p : string) (cs : list string) (w w' : World) (df : DataFrame) :
  create_dataframe.load_data p cs w = (Ok df, w') ->
  exists raw,
    fs w !! p = Some (File (Csv raw)) /\
    (forall c, In c cs -> In c (columns raw)) /\
    columns df = filter (fun c => negb (mem_str c cs)) (columns raw) /\
    Forall2 (fun r r' => forall c, row_get c r' = if mem_str c cs then None else row_get c r)
            (rows raw) (rows df).
Proof.
  unfold create_dataframe.load_data. intros H.
  apply bind_ok in H as (raw & w1 & Hr & H).
  apply read_csv_ok in Hr as (-> & Hf & _). exists raw. split; [assumption|].
  destruct cs as [|c0 cs0] eqn:Ecs.
  - unfold ret in H. injection H as <- <-. split; [intros c []|]. split.
    + symmetry. now apply filter_all.
    + apply Forall2_same. reflexivity.
  - rewrite <- Ecs in *. apply lift_ok in H as [H _]. pose proof H as Hd.
    apply drop_ok in H as [Hc Hrows]. split; [|split; [assumption|]].
    + intros c Hc'. unfold drop in Hd.
      destruct (filter (fun c => negb (mem_str c (columns raw))) cs) eqn:Ef; [|discriminate].
      destruct (mem_str c (columns raw)) eqn:Em; [now apply mem_str_In|].
      assert (Hin : In c (filter (fun c => negb (mem_str c (columns raw))) cs))
        by (apply filter_In; rewrite Em; auto).
      rewrite Ef in Hin. contradiction.
    + rewrite Hrows. clear. induction (rows raw); simpl; constructor; [|assumption].
      intros c. apply row_get_without.
Qed.

End LoadData.

Section LoadDataSample.
Import Pandas Os Rowwise Samples.

Lemma X1_load_data_errors_witness :
  create_dataframe.load_data "/home/metro/data/agency.txt" [] world1
  = (Raise (OSError "/home/metro/data/agency.txt"), world1) /\
  (exists c', In c' ["service_id"; "trip_headsign"; "direction_id"; "shape_id";
                     "wheelchair_accessible"] /\
              ~ In c' (columns trips6) /\
              create_dataframe.load_data (data_path world6 "trips.txt")
                ["service_id"; "trip_headsign"; "direction_id"; "shape_id";
                 "wheelchair_accessible"] world6
              = (Raise (KeyError c'), world6)) /\
  create_dataframe.main python world6
  = (Raise (KeyError "wheelchair_accessible"), world6).
Proof.
  split; [|split].
  - apply (proj1 (X1_load_data_errors "/home/metro/data/agency.txt" [] world1)).
    left. vm_compute. reflexivity.
  - apply (proj1 (proj2 (X1_load_data_errors (data_path world6 "trips.txt") _ world6))
             trips6 "wheelchair_accessible").
    + vm_compute. reflexivity.
    + vm_compute. reflexivity.
    + simpl. auto 6.
    + vm_compute. intuition discriminate.
  - apply (proj2 (proj2 (proj2 (X1_load_data_errors (data_path world6 "trips.txt")
                                  ["service_id"; "trip_headsign"; "direction_id"; "shape_id";
                                   "wheelchair_accessible"] world6)))).
    vm_compute. reflexivity.
Defined.

Lemma X2_load_data_drops_witness :
  exists raw,
    fs world1 !! data_path world1 "routes.txt" = Some (File (Csv raw)) /\
    (forall c, In c ["route_text_color"; "route_url"] -> In c (columns raw)) /\
    columns (loaded_routes world1)
    = filter (fun c => negb (mem_str c ["route_text_color"; "route_url"])) (columns raw) /\
    Forall2 (fun r r' => forall c,
               row_get c r' = if mem_str c ["route_text_color"; "route_url"]
                              then None else row_get c r)
            (rows raw) (rows (loaded_routes world1)).
Proof.
  apply (X2_load_data_drops_only_the_listed_columns _ _ world1 world1).
  vm_compute. reflexivity.
Defined.

End LoadDataSample.

(** ** process_stop_times *)

Section ProcessStopTimesMore.
Import Pandas Rowwise.

Lemma row_set_same (c : string) (v : cell) (r : row) :
  row_get c r = Some v -> row_set c v r = r.
Proof.
  induction r as [|[k x] r IH]; simpl; [discriminate|].
  destruct (String.eqb k c); [intros [= ->]; reflexivity|].
  intros H. now rewrite IH.
Qed.

Lemma to_datetime_coerce_idem (v : cell) :
  to_datetime_coerce (to_datetime_coerce v) = to_datetime_coerce v.
Proof. destruct v as [|x|s|t]; simpl; try reflexivity. destruct (strptime_HMS s); reflexivity. Qed.

Lemma parse_times_idem (r : row) : parse_times (parse_times r) = parse_times r.
Proof.
  assert (Ha : row_set "arrival_time"
                 (to_datetime_coerce (cell_of "arrival_time" (parse_times r)))
                 (parse_times r) = parse_times r).
  { apply row_set_same. unfold cell_of. rewrite parse_times_arrival.
    now rewrite to_datetime_coerce_idem. }
  unfold parse_times at 1. rewrite Ha.
  apply row_set_same. unfold cell_of. rewrite parse_times_departure.
  now rewrite to_datetime_coerce_idem.
Qed.

Lemma parse_times_keys (r : row) :
  In "arrival_time" (row_keys (parse_times r)) /\
  In "departure_time" (row_keys (parse_times r)).
Proof.
  unfold parse_times. rewrite !row_keys_set, !In_add_column. auto.
Qed.

Lemma filter_idem {A} (p : A -> bool) (l : list A) : filter p (filter p l) = filter p l.
Proof. apply filter_all. intros a Ha. now apply filter_In in Ha. Qed.

(** The parse goes through as soon as the header and every row have the two
    time columns. *)
Lemma process_stop_times_keys (df : DataFrame) :
  In "arrival_time" (columns df) -> In "departure_time" (columns df) ->
  Forall (fun r => In "arrival_time" (row_keys r) /\ In "departure_time" (row_keys r))
         (rows df) ->
  create_dataframe.process_stop_times df =
  Ok {| columns := columns df;
        rows := filter row_complete (map parse_times (rows df)) |}.
Proof.
  intros Ha Hd Hk. unfold create_dataframe.process_stop_times. simpl.
  assert (H1 : getcol "arrival_time" df = Ok (map (cell_of "arrival_time") (rows df))).
  { apply getcol_total; [assumption|]. eapply Forall_impl; [|exact Hk]. now intros r []. }
  rewrite H1. simpl. rewrite (setcol_map_ok _ _ _ _ H1).
  set (df1 := {| columns := columns df; rows := _ |}).
  assert (H2 : getcol "departure_time" df1 = Ok (map (cell_of "departure_time") (rows df1))).
  { apply getcol_total; [assumption|]. simpl. apply Forall_map.
    eapply Forall_impl; [|exact Hk]. intros r [_ Hr]. simpl.
    rewrite row_keys_set, In_add_column. auto. }
  rewrite H2. simpl. rewrite (setcol_map_ok _ _ _ _ H2). simpl.
  unfold dropna. simpl. do 3 f_equal. rewrite map_map. reflexivity.
Qed.

(** X3: [process_stop_times] raises [KeyError] for the first of
    [arrival_time], [departure_time] that is not a column of the table. *)
Theorem X3_process_stop_times_missing_column (df : DataFrame) :
  (~ In "arrival_time" (columns df) ->
   create_dataframe.process_stop_times df = Raise (KeyError "arrival_time")) /\
  (In "arrival_time" (columns df) ->
   Forall (fun r => In "arrival_time" (row_keys r)) (rows df) ->
   ~ In "departure_time" (columns df) ->
   create_dataframe.process_stop_times df = Raise (KeyError "departure_time")).
Proof.
  split.
  - intros H. apply mem_str_not_In in H.
    unfold create_dataframe.process_stop_times. simpl. unfold getcol at 1.
    now rewrite H.
  - intros Ha Hk Hd. unfold create_dataframe.process_stop_times. simpl.
    assert (H1 : getcol "arrival_time" df = Ok (map (cell_of "arrival_time") (rows df)))
      by now apply getcol_total.
    rewrite H1. simpl. rewrite (setcol_map_ok _ _ _ _ H1).
    unfold getcol at 1. simpl columns. apply mem_str_not_In in Hd. now rewrite Hd.
Qed.

(** X4: [process_stop_times] is idempotent: applied to a table it returned,
    it returns that table again. *)
Theorem X4_process_stop_times_idempotent (df df' : DataFrame) :
  create_dataframe.process_stop_times df = Ok df' ->
  create_dataframe.process_stop_times df' = Ok df'.
Proof.
  intros H. apply process_stop_times_ok in H as (Ha & Hd & Hc & Hr).
  rewrite process_stop_times_keys.
  - destruct df' as [cs rs]. simpl in *. f_equal. f_equal. rewrite Hr.
    assert (E : map parse_times (filter row_complete (map parse_times (rows df)))
                = filter row_complete (map parse_times (rows df))).
    { clear. induction (rows df) as [|r l IH]; simpl; [reflexivity|].
      destruct (row_complete (parse_times r)); simpl; [|exact IH].
      now rewrite parse_times_idem, IH. }
    rewrite E. apply filter_idem.
  - now rewrite Hc.
  - now rewrite Hc.
  - rewrite Hr. apply Forall_forall. intros r Hin.
    apply filter_In in Hin as [Hin _]. apply in_map_iff in Hin as (r0 & <- & _).
    apply parse_times_keys.
Qed.

End ProcessStopTimesMore.

Section ProcessStopTimesSample.
Import Pandas Rowwise Samples.

Lemma X3_process_stop_times_missing_column_witness :
  create_dataframe.process_stop_times
    (table ["trip_id"; "arrival_time"] [[Str "T1"; Str "08:00:00"]])
  = Raise (KeyError "departure_time").
Proof.
  apply (proj2 (X3_process_stop_times_missing_column
                  (table ["trip_id"; "arrival_time"] [[Str "T1"; Str "08:00:00"]]))).
  - right. left. reflexivity.
  - constructor; [|constructor]. right. left. reflexivity.
  - intros [H|[H|[]]]; discriminate H.
Defined.

Lemma X4_process_stop_times_idempotent_witness :
  exists df',
    create_dataframe.process_stop_times (loaded_stop_times world1) = Ok df' /\
    create_dataframe.process_stop_times df' = Ok df'.
Proof.
  eexists. split; [vm_compute; reflexivity|].
  apply (X4_process_stop_times_idempotent (loaded_stop_times world1)).
  vm_compute. reflexivity.
Defined.

End ProcessStopTimesSample.

(** ** The range of a parsed time *)

Section TimeRange.
Import Pandas Os Rowwise.

Lemma digit_range (a : ascii) (x : Z) : digit a = Some x -> 0 <= x <= 9.
Proof.
  unfold digit. destruct (_ && _) eqn:E; [|discriminate].
  apply andb_true_iff in E as [H1 H2]. intros [= <-]. lia.
Qed.

(** A field is one digit, or two digits that the format admits as a pair. *)
Lemma field_cases (two : Z -> Z -> bool) (s rest : list ascii) (x : Z) :
  field two s = Some (x, rest) ->
  0 <= x <= 9 \/
  exists a b, 0 <= a <= 9 /\ 0 <= b <= 9 /\ two a b = true /\ x = 10 * a + b.
Proof.
  destruct s as [|a s]; simpl; [discriminate|].
  destruct (digit a) as [u|] eqn:Ea; [|discriminate]. apply digit_range in Ea.
  destruct s as [|b s]; [intros [= <- _]; auto|].
  destruct (digit b) as [v|] eqn:Eb; [|intros [= <- _]; auto].
  apply digit_range in Eb. destruct (two u v) eqn:Et; intros [= <- _]; [|auto].
  right. exists u, v. auto.
Qed.

Lemma strptime_HMS_range (s : string) (h m sec : Z) :
  strptime_HMS s = Some (h, m, sec) ->
  0 <= h <= 23 /\ 0 <= m <= 59 /\ 0 <= sec <= 61.
Proof.
  unfold strptime_HMS.
  destruct (field hour_two _) as [[h0 [|c1 s1]]|] eqn:Eh; try discriminate.
  destruct (Ascii.eqb c1 colon); [|discriminate].
  destruct (field minute_two s1) as [[m0 [|c2 s2]]|] eqn:Em; try discriminate.
  destruct (Ascii.eqb c2 colon); [|discriminate].
  destruct (field second_two s2) as [[s0 [|]]|] eqn:Es; try discriminate.
  intros [= <- <- <-].
  apply field_cases in Eh, Em, Es. unfold hour_two in Eh. unfold minute_two in Em.
  unfold second_two in Es. repeat split.
  - destruct Eh as [|(a & b & ? & ? & ? & ->)]; lia.
  - destruct Eh as [|(a & b & ? & ? & E & ->)]; [lia|].
    apply orb_true_iff in E as [E|E]; [apply andb_true_iff in E as [E1 E2]|]; lia.
  - destruct Em as [|(a & b & ? & ? & ? & ->)]; lia.
  - destruct Em as [|(a & b & ? & ? & E & ->)]; lia.
  - destruct Es as [|(a & b & ? & ? & ? & ->)]; lia.
  - destruct Es as [|(a & b & ? & ? & E & ->)]; [lia|].
    apply orb_true_iff in E as [E|E]; [apply andb_true_iff in E as [E1 E2]|]; lia.
Qed.

(** X5: every [arrival_time_int] of the assembled table is a whole number
    between -2208988800 and -2208902399: the seconds from 1970-01-01 to an
    instant of the day 1900-01-01 (or its first two seconds after
    midnight), with hour below 24, minute below 60 and second at most 61. *)
Theorem X5_arrival_seconds_range (py : PyLib) (w w' : World)
        (trips routes stops stop_times metro : DataFrame) :
  loaded w trips routes stops stop_times ->
  create_dataframe.main py w = (Ok metro, w') ->
  forall m, In m (rows metro) ->
  exists h mi s,
    0 <= h <= 23 /\ 0 <= mi <= 59 /\ 0 <= s <= 61 /\
    row_get "arrival_time_int" m = Some (num (h * 3600 + mi * 60 + s - 2208988800)) /\
    -2208988800 <= h * 3600 + mi * 60 + s - 2208988800 <= -2208902399.
Proof.
  intros Hl Hmain m Hm.
  destruct (assembled_origin py _ _ _ _ _ _ _ Hl Hmain m Hm)
    as (st & sp & tr & ro & ta & td & _ & (s & [[h mi] sec] & _ & Ep & ->) & _ & _ & _ & Ei).
  apply strptime_HMS_range in Ep as (Hh & Hmi & Hs).
  exists h, mi, sec. repeat split; try lia.
  rewrite Ei. f_equal. f_equal.
  change create_dataframe.datetime_1970_1_1 with 0.
  change default_date_seconds with (-2208988800). simpl seconds_of_day. lia.
Qed.

End TimeRange.

Section TimeRangeSample.
Import Pandas Os Rowwise Samples.

Lemma X5_arrival_seconds_range_witness :
  exists h mi s,
    0 <= h <= 23 /\ 0 <= mi <= 59 /\ 0 <= s <= 61 /\
    row_get "arrival_time_int" (nth 0 (rows (assembled world1)) [])
    = Some (num (h * 3600 + mi * 60 + s - 2208988800)) /\
    -2208988800 <= h * 3600 + mi * 60 + s - 2208988800 <= -2208902399.
Proof.
  apply (X5_arrival_seconds_range python world1 (after_assembler world1)
           (loaded_trips world1) (loaded_routes world1)
           (loaded_stops world1) (loaded_stop_times world1) (assembled world1)).
  - exact loaded_world1.
  - exact main_world1.
  - vm_compute. auto.
Defined.

End TimeRangeSample.

(** ** Coordinates and elevation of the assembled rows *)

Section Coordinates.
Import Pandas Os Rowwise.
Context (py : PyLib).

(** X6: in every row of the assembled table [elevation] is 0 and the
    coordinates [stop_lat] and [stop_lon] are numbers or missing, never
    text; they are present whenever trips and routes have no column of
    those names. *)
Theorem X6_coordinates_numeric_elevation_zero (w w' : World)
        (trips routes stops stop_times metro : DataFrame) :
  loaded w trips routes stops stop_times ->
  create_dataframe.main py w = (Ok metro, w') ->
  forall m, In m (rows metro) ->
  row_get "elevation" m = Some (num 0) /\
  (forall c v, c = "stop_lat" \/ c = "stop_lon" ->
               row_get c m = Some v -> v = NA \/ exists x, v = Num x) /\
  (forall c, c = "stop_lat" \/ c = "stop_lon" ->
             ~ In c (columns trips) -> ~ In c (columns routes) ->
             exists v, row_get c m = Some v).
Proof.
  intros Hl Hmain m Hm.
  destruct (main_rows py _ _ _ _ _ _ _ Hl Hmain m Hm) as (st & sp & tr & ro & Ha).
  split; [eapply assembled_elevation; eassumption|].
  destruct (assembled_coordinates py _ _ _ _ _ _ _ _ _ Ha)
    as (lat & lon & Slat & Slon & Elat & Elon & Plat & Plon).
  split.
  - intros c v [-> | ->] Hv; [apply Elat in Hv | apply Elon in Hv]; now subst v.
  - intros c [-> | ->] H1 H2; eauto.
Qed.

End Coordinates.

Section CoordinatesSample.
Import Pandas Os Rowwise Samples.

Lemma X6_coordinates_witness :
  row_get "elevation" (nth 0 (rows (assembled world1)) []) = Some (num 0) /\
  (forall c v, c = "stop_lat" \/ c = "stop_lon" ->
               row_get c (nth 0 (rows (assembled world1)) []) = Some v ->
               v = NA \/ exists x, v = Num x) /\
  (forall c, c = "stop_lat" \/ c = "stop_lon" ->
             ~ In c (columns (loaded_trips world1)) ->
             ~ In c (columns (loaded_routes world1)) ->
             exists v, row_get c (nth 0 (rows (assembled world1)) []) = Some v).
Proof.
  apply (X6_coordinates_numeric_elevation_zero python world1 (after_assembler world1)
           (loaded_trips world1) (loaded_routes world1)
           (loaded_stops world1) (loaded_stop_times world1) (assembled world1)).
  - exact loaded_world1.
  - exact main_world1.
  - vm_compute. auto.
Defined.

End CoordinatesSample.

(** ** The features of a line *)

Section FeatureShape.
Import Pandas Geojson Os Linewise.

Lemma on_line_label (line : cell) (r : row) :
  on_line line r = true -> cell_of "route_short_name" r = line /\ line <> NA.
Proof.
  unfold on_line. rewrite elem_eq_true. intros [E H]. split; congruence.
Qed.

Lemma NoDup_trip_keys (df : DataFrame) (line : cell) : NoDup (trip_keys df line).
Proof.
  unfold trip_keys. eapply Permutation_NoDup; [|apply NoDup_unique].
  symmetry. apply sort_cells_perm.
Qed.

Lemma no_element_nil {A} (l : list A) : (forall a, ~ In a l) -> l = [].
Proof. destruct l as [|a l]; [reflexivity|]. intros H. destruct (H a). now left. Qed.

Lemma trip_keys_nil (df : DataFrame) (line : cell) :
  trip_keys df line = [] <->
  forall r, In r (rows df) -> on_line line r = true -> cell_of "trip_id" r = NA.
Proof.
  split.
  - intros E r Hr Hl. destruct (cell_eqb (cell_of "trip_id" r) NA) eqn:Ek.
    + now apply cell_eqb_eq.
    + apply cell_eqb_neq in Ek.
      assert (Hin : In (cell_of "trip_id" r) (trip_keys df line))
        by (apply In_trip_keys; eauto).
      rewrite E in Hin. contradiction.
  - intros H. apply no_element_nil. intros k Hk.
    apply In_trip_keys in Hk as [Hna (r & Hr & Hl & <-)]. now apply Hna, H.
Qed.

(** X7: every feature built for a line carries that line as its only
    [route] label, has at least one point, and lists under [stop] each stop
    identifier of the rows of its trip on the line exactly once. *)
Theorem X7_feature_route_and_stops (df : DataFrame) (line : cell) (features : list Feature) :
  create_geojson_file.create_geojson_features df line = Ok features ->
  forall f, In f features ->
    line <> NA /\
    route (properties f) = [line] /\
    geometry f <> [] /\
    NoDup (stop (properties f)) /\
    forall v, In v (stop (properties f)) <->
              exists r, In r (rows df) /\ on_line line r = true /\
                        trip (properties f) = [cell_of "trip_id" r] /\
                        cell_of "stop_id" r = v.
Proof.
  intros H f Hf. apply create_geojson_features_ok in H. subst features.
  apply in_map_iff in Hf as (k & <- & Hk). simpl.
  pose proof (trip_rows_nonempty _ _ _ Hk) as Hne.
  assert (Hall : Forall (fun r => cell_of "route_short_name" r = line /\ line <> NA)
                        (trip_rows df line k)).
  { apply Forall_forall. intros r Hr. apply trip_rows_spec in Hr as (_ & Hl & _).
    now apply on_line_label. }
  repeat split.
  - destruct (trip_rows df line k) as [|r l]; [congruence|].
    inversion Hall as [|? ? [_ Hna] _]. exact Hna.
  - apply unique_constant.
    + destruct (trip_rows df line k); [congruence | discriminate].
    + apply Forall_map. eapply Forall_impl; [|exact Hall]. now intros r [-> _].
  - destruct (trip_rows df line k); [congruence | discriminate].
  - apply NoDup_unique.
  - rewrite In_unique, in_map_iff. intros (r & <- & Hr).
    apply trip_rows_spec in Hr as (Hr & Hl & <-). eauto.
  - intros (r & Hr & Hl & [= ->] & <-). rewrite In_unique. apply in_map.
    apply trip_rows_spec. auto.
Qed.

(** X8: the feature list of a line is empty exactly when no row of the line
    has a trip identifier, as for a label that no row carries and for the
    missing label; the function then returns the empty list as soon as the
    table has the columns [route_short_name] and [trip_id]. *)
Theorem X8_line_without_trips (df : DataFrame) (line : cell) :
  (forall features,
     create_geojson_file.create_geojson_features df line = Ok features ->
     (features = [] <->
      forall r, In r (rows df) -> on_line line r = true -> cell_of "trip_id" r = NA)) /\
  (forall features,
     line = NA ->
     create_geojson_file.create_geojson_features df line = Ok features -> features = []) /\
  (In "route_short_name" (columns df) -> In "trip_id" (columns df) ->
   Forall (fun r => row_keys r = columns df) (rows df) ->
   (forall r, In r (rows df) -> on_line line r = true -> cell_of "trip_id" r = NA) ->
   create_geojson_file.create_geojson_features df line = Ok []).
Proof.
  split; [|split].
  - intros features H. apply create_geojson_features_ok in H. subst features.
    rewrite <- trip_keys_nil. split.
    + intros E. now apply map_eq_nil in E.
    + now intros ->.
  - intros features -> H. apply create_geojson_features_ok in H. subst features.
    assert (E : trip_keys df NA = []).
    { apply trip_keys_nil. intros r _ Hl. apply on_line_label in Hl as [_ Hna]. congruence. }
    now rewrite E.
  - intros Hc1 Hc2 Hk Hnone.
    unfold create_geojson_file.create_geojson_features.
    rewrite getcol_total; [|assumption|].
    2:{ eapply Forall_impl; [|exact Hk]. intros r ->. assumption. }
    cbn [rbind].
    assert (El : loc (map (fun v => elem_eq v line)
                          (map (cell_of "route_short_name") (rows df))) df
                 = {| columns := columns df; rows := filter (on_line line) (rows df) |}).
    { unfold loc. f_equal. rewrite map_map. apply (select_rows_map (on_line line)). }
    rewrite El. clear El. unfold groupby.
    rewrite (getcol_sub "trip_id" df) by (try assumption; intros r Hr; now apply filter_In in Hr).
    cbn [rbind columns rows].
    apply trip_keys_nil in Hnone. unfold trip_keys in Hnone. rewrite Hnone. reflexivity.
Qed.

End FeatureShape.

(** ** Points and rows *)

Section LineCount.
Import Pandas Geojson Os Linewise.

Lemma list_sum_add {A} (x y : A -> nat) (l : list A) :
  list_sum (map (fun a => (x a + y a)%nat) l)
  = (list_sum (map x l) + list_sum (map y l))%nat.
Proof. induction l as [|a l IH]; simpl; [reflexivity|]. rewrite IH. lia. Qed.

(** Among distinct keys at most one equals [v]. *)
Lemma indicator_sum (v : cell) (keys : list cell) :
  NoDup keys ->
  list_sum (map (fun k => if cell_eqb v k then 1%nat else 0%nat) keys)
  = if mem_cell v keys then 1%nat else 0%nat.
Proof.
  induction 1 as [|k keys Hk Hnd IH]; simpl; [reflexivity|].
  rewrite IH. unfold mem_cell. simpl. destruct (cell_eqb v k) eqn:E; simpl; [|reflexivity].
  apply cell_eqb_eq in E. subst k.
  destruct (existsb (cell_eqb v) keys) eqn:Em; [|reflexivity].
  exfalso. apply Hk. apply mem_cell_In. exact Em.
Qed.

Lemma count_by_key (g : row -> cell) (p : row -> bool) (keys : list cell) (l : list row) :
  NoDup keys ->
  (forall r, In r l -> mem_cell (g r) keys = p r) ->
  list_sum (map (fun k => List.length (filter (fun r => cell_eqb (g r) k) l)) keys)
  = List.length (filter p l).
Proof.
  intros Hnd. induction l as [|a l IH]; intros Hp.
  - simpl. clear. induction keys; simpl; auto.
  - assert (E : forall k, List.length (filter (fun r => cell_eqb (g r) k) (a :: l))
                        = ((if cell_eqb (g a) k then 1 else 0)
                           + List.length (filter (fun r => cell_eqb (g r) k) l))%nat).
    { intros k. simpl. destruct (cell_eqb (g a) k); reflexivity. }
    rewrite (map_ext _ _ E), list_sum_add, indicator_sum by assumption.
    rewrite IH by (intros r Hr; apply Hp; now right).
    simpl. rewrite (Hp a) by now left. destruct (p a); reflexivity.
Qed.

(** X9: the features of a line have pairwise different [trip] properties,
    and their geometries together hold one point for each row of the line
    that has a trip identifier: no such row is lost or used twice, and the
    rows without a trip identifier are left out. *)
Theorem X9_points_partition_rows (df : DataFrame) (line : cell) (features : list Feature) :
  create_geojson_file.create_geojson_features df line = Ok features ->
  NoDup (map (fun f => trip (properties f)) features) /\
  list_sum (map (fun f => List.length (geometry f)) features)
  = List.length (filter (fun r => on_line line r && negb (is_na (cell_of "trip_id" r)))
                        (rows df)).
Proof.
  intros H. apply create_geojson_features_ok in H. subst features.
  rewrite !map_map. simpl. pose proof (NoDup_trip_keys df line) as Hnd. split.
  - apply Finite.Injective_map_NoDup; [|assumption]. now intros a b [= ->].
  - rewrite <- filter_filter.
    rewrite (map_ext _ (fun k => List.length (trip_rows df line k)))
      by (intros k; now rewrite !length_map).
    unfold trip_rows. apply count_by_key; [assumption|].
    intros r Hr. apply filter_In in Hr as [Hr Hl].
    destruct (mem_cell (cell_of "trip_id" r) (trip_keys df line)) eqn:Em.
    + apply mem_cell_In, In_trip_keys in Em as [Hna _].
      destruct (cell_of "trip_id" r); try reflexivity. congruence.
    + destruct (is_na (cell_of "trip_id" r)) eqn:En; [reflexivity|].
      assert (Hin : In (cell_of "trip_id" r) (trip_keys df line)).
      { apply In_trip_keys. split; [|eauto]. intros E. rewrite E in En. discriminate. }
      apply mem_cell_In in Hin. congruence.
Qed.

End LineCount.

Section LineFeaturesMoreSamples.
Import Pandas Geojson Os Linewise Samples.

Lemma X7_feature_route_and_stops_witness :
  Str "L1" <> NA /\
  route (properties (feature_of metro1 (Str "L1") (Str "T1"))) = [Str "L1"] /\
  geometry (feature_of metro1 (Str "L1") (Str "T1")) <> [] /\
  NoDup (stop (properties (feature_of metro1 (Str "L1") (Str "T1")))) /\
  forall v, In v (stop (properties (feature_of metro1 (Str "L1") (Str "T1")))) <->
            exists r, In r (rows metro1) /\ on_line (Str "L1") r = true /\
                      trip (properties (feature_of metro1 (Str "L1") (Str "T1")))
                      = [cell_of "trip_id" r] /\
                      cell_of "stop_id" r = v.
Proof.
  apply (X7_feature_route_and_stops metro1 (Str "L1")
           (features_at (after_builder (after_assembler world1))
                        "/home/metro/geojson/L1.geojson")).
  - vm_compute. reflexivity.
  - vm_compute. auto.
Defined.

Lemma X8_line_without_trips_witness :
  create_geojson_file.create_geojson_features metro1 (Str "B7") = Ok [].
Proof.
  apply (proj2 (proj2 (X8_line_without_trips metro1 (Str "B7")))).
  - vm_compute. auto 20.
  - vm_compute. auto 20.
  - repeat constructor.
  - intros r Hr. vm_compute in Hr. destruct Hr as [<-|[<-|[]]]; vm_compute; discriminate.
Defined.

Lemma X9_points_partition_rows_witness :
  NoDup (map (fun f => trip (properties f))
             (features_at (after_builder (after_assembler world1))
                          "/home/metro/geojson/L1.geojson")) /\
  list_sum (map (fun f => List.length (geometry f))
                (features_at (after_builder (after_assembler world1))
                             "/home/metro/geojson/L1.geojson"))
  = List.length (filter (fun r => on_line (Str "L1") r
                                  && negb (is_na (cell_of "trip_id" r)))
                        (rows metro1)).
Proof.
  apply (X9_points_partition_rows metro1 (Str "L1")).
  vm_compute. reflexivity.
Defined.

End LineFeaturesMoreSamples.

(** ** save_geojson_file *)

Section SaveGeojson.
Import Pandas Geojson Os.

Lemma write_file_cases (p : string) (c : content) (w : World) :
  (fs w !! p = Some Dir /\ write_file p c w = (Raise (OSError p), w)) \/
  (fs w !! p <> Some Dir /\
   write_file p c w = (Ok tt, {| cwd := cwd w; fs := <[p := File c]> (fs w) |})).
Proof.
  unfold write_file. destruct (fs w !! p) as [[c'|]|] eqn:E; [right|left|right];
    split; try reflexivity; discriminate.
Qed.

(** X10: a document saved to a path can be saved over with any feature
    list that JSON takes: the second [save_geojson_file] succeeds, the path
    then holds the second feature collection, and nothing else changes. *)
Theorem X10_save_geojson_file_overwrites
        (features1 features2 : list Feature) (p : string) (w w1 : World) :
  create_geojson_file.save_geojson_file features1 p w = (Ok tt, w1) ->
  json_problem features2 = None ->
  exists w2,
    create_geojson_file.save_geojson_file features2 p w1 = (Ok tt, w2) /\
    fs w2 !! p = Some (File (FeatureCollection features2)) /\
    forall q, q <> p -> fs w2 !! q = fs w1 !! q.
Proof.
  unfold create_geojson_file.save_geojson_file, create_geojson_file.ensure_directory_exists.
  intros H Hj. apply bind_ok in H as ([] & wa & Hm & Hw).
  apply mkdir_parents_ok in Hm as [Hno ->].
  apply geojson_dump_ok in Hw as (Hp & _ & ->). cbn [fs cwd] in *.
  set (ds := dirname p :: parents (dirname p)) in *.
  assert (Hout : ~ In p ds) by (intros Hin; apply Hp; now apply mkdirs_in).
  assert (Hd1 : forall q, In q ds ->
            <[p := File (FeatureCollection features1)]> (make_dirs ds (fs w)) !! q
            = Some Dir).
  { intros q Hq. rewrite lookup_insert_ne by (intros ->; contradiction).
    now apply mkdirs_in. }
  unfold bind.
  destruct (mkdir_parents_cases (dirname p)
              {| cwd := cwd w;
                 fs := <[p := File (FeatureCollection features1)]> (make_dirs ds (fs w)) |})
    as [[(q & c & Hq & Hc) _]|[_ E]].
  { exfalso. cbn [fs] in Hc. fold ds in Hq. rewrite (Hd1 q Hq) in Hc. discriminate. }
  rewrite E. cbn [fs cwd]. fold ds. unfold geojson_dump. cbn [fs cwd].
  rewrite mkdirs_out by assumption. rewrite lookup_insert_eq, Hj.
  eexists. split; [reflexivity|]. cbn [fs]. split; [apply lookup_insert_eq|].
  intros q Hq. rewrite lookup_insert_ne by congruence.
  destruct (in_dec string_dec q ds) as [Hin|Hnin].
  - rewrite mkdirs_in by assumption. now rewrite Hd1.
  - now rewrite mkdirs_out.
Qed.

(** X11: the ways [save_geojson_file] fails.  When the parent of the output
    path, or a path above it, is a regular file, it raises [OSError] and
    changes nothing.  Otherwise it makes the parent directory; it then
    raises [OSError] when the output path is a directory, and the error of
    the dump when the feature list holds a value JSON refuses, leaving the
    output file truncated.  It fails in no other way, and touches no file
    but the output file. *)
Theorem X11_save_geojson_file_errors (features : list Feature) (p : string) (w : World) :
  ((exists q c, In q (dirname p :: parents (dirname p)) /\ fs w !! q = Some (File c)) ->
   create_geojson_file.save_geojson_file features p w = (Raise (OSError (dirname p)), w)) /\
  ((forall q c, In q (dirname p :: parents (dirname p)) -> fs w !! q <> Some (File c)) ->
   (fs w !! p = Some Dir ->
    create_geojson_file.save_geojson_file features p w
    = (Raise (OSError p),
       {| cwd := cwd w; fs := make_dirs (dirname p :: parents (dirname p)) (fs w) |})) /\
   (forall e, (exists c, fs w !! p = Some (File c)) \/ fs w !! p = None ->
      ~ In p (dirname p :: parents (dirname p)) ->
      json_problem features = Some e ->
      create_geojson_file.save_geojson_file features p w
      = (Raise e,
         {| cwd := cwd w;
            fs := <[p := File (Truncated features)]>
                    (make_dirs (dirname p :: parents (dirname p)) (fs w)) |}))) /\
  (forall e w',
     create_geojson_file.save_geojson_file features p w = (Raise e, w') ->
     (forall q c, q <> p -> fs w' !! q = Some (File c) <-> fs w !! q = Some (File c)) /\
     ((e = OSError (dirname p) /\ w' = w /\
       exists q c, In q (dirname p :: parents (dirname p)) /\ fs w !! q = Some (File c)) \/
      (e = OSError p /\
       forall c, fs w' !! p = Some (File c) <-> fs w !! p = Some (File c)) \/
      (json_problem features = Some e /\
       fs w' !! p = Some (File (Truncated features))))).
Proof.
  unfold create_geojson_file.save_geojson_file, create_geojson_file.ensure_directory_exists.
  set (ds := dirname p :: parents (dirname p)).
  split; [|split].
  - intros Hf. unfold bind.
    destruct (mkdir_parents_cases (dirname p) w) as [[_ E]|[Hno _]]; [now rewrite E|].
    destruct Hf as (q & c & Hq & Hc). now destruct (Hno q c Hq).
  - intros Hno.
    assert (Em : mkdir_parents (dirname p) w
                 = (Ok tt, {| cwd := cwd w; fs := make_dirs ds (fs w) |})).
    { destruct (mkdir_parents_cases (dirname p) w) as [[(q & c & Hq & Hc) _]|[_ E]];
        [now destruct (Hno q c Hq) | exact E]. }
    split.
    + intros Hp. unfold bind. rewrite Em. unfold geojson_dump. cbn [fs cwd].
      destruct (in_dec string_dec p ds) as [Hin|Hout].
      * now rewrite mkdirs_in.
      * rewrite mkdirs_out by assumption. now rewrite Hp.
    + intros e Hp Hout Hj. unfold bind. rewrite Em. unfold geojson_dump. cbn [fs cwd].
      rewrite mkdirs_out by assumption. rewrite Hj.
      destruct Hp as [[c ->]| ->]; reflexivity.
  - intros e w' H. unfold bind in H. subst ds.
    destruct (mkdir_parents_cases (dirname p) w) as [[Hf E]|[Hno E]]; rewrite E in H;
      cbv beta iota in H.
    + injection H as <- <-. split; [tauto|]. left. auto.
    + destruct (geojson_dump_cases p features
                  {| cwd := cwd w;
                     fs := make_dirs (dirname p :: parents (dirname p)) (fs w) |})
        as [[Hd E1]|[(Hd & Hj & E1)|(Hd & e' & Hj & E1)]]; rewrite E1 in H;
        [| discriminate |]; injection H as <- <-; cbn [fs].
      * split; [intros q c _; now apply mkdirs_files|].
        right. left. split; [reflexivity|]. intros c. now apply mkdirs_files.
      * split.
        -- intros q c Hq. rewrite lookup_insert_ne by congruence. now apply mkdirs_files.
        -- right. right. split; [assumption | apply lookup_insert_eq].
Qed.

End SaveGeojson.

Section SaveGeojsonSamples.
Import Pandas Geojson Os Linewise Samples.

Lemma X10_save_geojson_file_overwrites_witness :
  exists w2,
    create_geojson_file.save_geojson_file [] "/home/metro/geojson/L1.geojson"
      (after_builder (after_assembler world1)) = (Ok tt, w2) /\
    fs w2 !! "/home/metro/geojson/L1.geojson" = Some (File (FeatureCollection [])) /\
    forall q, q <> "/home/metro/geojson/L1.geojson" ->
              fs w2 !! q = fs (after_builder (after_assembler world1)) !! q.
Proof.
  apply (X10_save_geojson_file_overwrites
           (features_at (after_builder (after_assembler world1))
                        "/home/metro/geojson/L1.geojson")
           [] "/home/metro/geojson/L1.geojson"
           (snd (create_geojson_file.ensure_directory_exists "/home/metro/geojson"
                   (after_assembler world1)))).
  - vm_compute. reflexivity.
  - reflexivity.
Defined.

Lemma X11_save_geojson_file_errors_witness :
  create_geojson_file.save_geojson_file [] "/home/metro/geojson/L2.geojson" world4
  = (Raise (OSError "/home/metro/geojson/L2.geojson"),
     {| cwd := cwd world4;
        fs := make_dirs (dirname "/home/metro/geojson/L2.geojson"
                         :: parents (dirname "/home/metro/geojson/L2.geojson"))
                        (fs world4) |}).
Proof.
  apply (proj1 (proj2 (X11_save_geojson_file_errors
                         [] "/home/metro/geojson/L2.geojson" world4))).
  - intros q c Hq. vm_compute in Hq.
    destruct Hq as [<-|[<-|[<-|[<-|[]]]]]; vm_compute; discriminate.
  - vm_compute. reflexivity.
Defined.

End SaveGeojsonSamples.

(** ** The Builder without its input *)

Section BuilderErrors.
Import Pandas Geojson Os Linewise.
Context (py : PyLib).

(** X12: the Builder makes its output directory before it reads anything.
    If that path, or a path above it, is a regular file it raises [OSError]
    and changes nothing; otherwise, if there is nothing at
    [data/metro_data.csv] it raises [OSError] for that path, and if the
    table there has no [route_short_name] column it raises [KeyError], in
    both cases with the output directory made and no document written. *)
Theorem X12_builder_without_input (w : World) :
  ((exists q c, In q (path_join (cwd w) "geojson" :: parents (path_join (cwd w) "geojson")) /\
                fs w !! q = Some (File c)) ->
   create_geojson_file.main py w = (Raise (OSError (path_join (cwd w) "geojson")), w)) /\
  ((forall q c, In q (path_join (cwd w) "geojson" :: parents (path_join (cwd w) "geojson")) ->
                fs w !! q <> Some (File c)) ->
   (fs w !! metro_file w = None ->
    create_geojson_file.main py w
    = (Raise (OSError (metro_file w)),
       {| cwd := cwd w;
          fs := make_dirs (path_join (cwd w) "geojson"
                           :: parents (path_join (cwd w) "geojson")) (fs w) |})) /\
   (forall df, reads w df -> ~ In "route_short_name" (columns df) ->
    create_geojson_file.main py w
    = (Raise (KeyError "route_short_name"),
       {| cwd := cwd w;
          fs := make_dirs (path_join (cwd w) "geojson"
                           :: parents (path_join (cwd w) "geojson")) (fs w) |}))).
Proof.
  unfold create_geojson_file.main, create_geojson_file.ensure_directory_exists,
    create_geojson_file.load_metro_data, getcwd.
  set (out := path_join (cwd w) "geojson").
  split.
  - intros Hf. unfold bind at 1. unfold bind at 1. fold out.
    destruct (mkdir_parents_cases out w) as [[_ E]|[Hno _]]; [now rewrite E|].
    destruct Hf as (q & c & Hq & Hc). now destruct (Hno q c Hq).
  - intros Hno.
    assert (Em : mkdir_parents out w
                 = (Ok tt, {| cwd := cwd w; fs := make_dirs (out :: parents out) (fs w) |})).
    { destruct (mkdir_parents_cases out w) as [[(q & c & Hq & Hc) _]|[_ E]];
        [now destruct (Hno q c Hq) | exact E]. }
    split.
    + intros Hnone. unfold bind at 1. unfold bind at 1. fold out. rewrite Em.
      unfold bind at 1. unfold read_csv. cbn [fs cwd]. fold (metro_file w).
      destruct (in_dec string_dec (metro_file w) (out :: parents out)) as [Hin|Hout].
      * now rewrite mkdirs_in.
      * rewrite mkdirs_out by assumption. now rewrite Hnone.
    + intros df [Hf Hcsv] Hcol. unfold bind at 1. unfold bind at 1. fold out. rewrite Em.
      unfold bind at 1. unfold read_csv. cbn [fs cwd]. fold (metro_file w).
      rewrite (proj2 (mkdirs_files _ _ Hno _ _) Hf), Hcsv.
      unfold bind at 1. unfold lift, getcol.
      apply mem_str_not_In in Hcol. now rewrite Hcol.
Qed.

End BuilderErrors.

Section BuilderErrorsSample.
Import Pandas Geojson Os Linewise Samples.

Lemma X12_builder_without_input_witness :
  create_geojson_file.main python world1
  = (Raise (OSError (metro_file world1)),
     {| cwd := cwd world1;
        fs := make_dirs (path_join (cwd world1) "geojson"
                         :: parents (path_join (cwd world1) "geojson")) (fs world1) |}).
Proof.
  refine (proj1 (proj2 (X12_builder_without_input python world1) _) _).
  - intros q c Hq. vm_compute in Hq.
    destruct Hq as [<-|[<-|[<-|[<-|[]]]]]; vm_compute; discriminate.
  - vm_compute. reflexivity.
Defined.

End BuilderErrorsSample.

(** ** The files of the older loop *)

Section OlderLoopFiles.
Import Pandas Geojson Os Linewise.
Context (py : PyLib).

Lemma trips_loop_files (line : cell) (dfs : list (cell * DataFrame)) (keys : list cell) :
  forall (acc out : list Feature) (w w' : World),
  notebook.trips_loop py line dfs keys acc w = (Ok out, w') ->
  cwd w' = cwd w /\
  (forall q, q <> notebook.output_filename py line -> fs w' !! q = fs w !! q) /\
  (keys = [] -> w' = w /\ out = acc) /\
  (keys <> [] ->
   out <> [] /\
   fs w' !! notebook.output_filename py line = Some (File (FeatureCollection out))).
Proof.
  induction keys as [|k keys IH]; intros acc out w w' H.
  - simpl in H. unfold ret in H. injection H as <- <-.
    repeat split; auto; congruence.
  - simpl in H. apply bind_ok in H as (f & w1 & Hf & H).
    apply lift_ok in Hf as [_ ->].
    apply bind_ok in H as ([] & w2 & Hw & H).
    apply geojson_dump_ok in Hw as (_ & _ & ->).
    pose proof (trips_loop_ok _ _ _ _ _ _ _ _ H) as (fs' & Hout & _).
    apply IH in H as (Hc & Hq & Hnil & Hcons). simpl in *.
    split; [assumption|]. split; [|split; [discriminate|]].
    + intros q Hne. rewrite Hq by assumption. now rewrite lookup_insert_ne by congruence.
    + intros _. split.
      * subst out. destruct acc; discriminate.
      * destruct keys as [|k' keys'].
        -- destruct Hnil as [-> ->]; [reflexivity|]. simpl. apply lookup_insert_eq.
        -- now apply Hcons.
Qed.

(** X13: the older loop over one line writes one file, named after the
    line; when it returns, every other path is as before, a line without
    trips has left no file at all, and otherwise the file holds the whole
    feature list of the line. *)
Theorem X13_older_loop_files (metro : DataFrame) (line : cell)
        (features : list Feature) (w w' : World) :
  notebook.line_loop py metro line w = (Ok features, w') ->
  cwd w' = cwd w /\
  (forall q, q <> notebook.output_filename py line -> fs w' !! q = fs w !! q) /\
  (features = [] -> w' = w) /\
  (features <> [] ->
   fs w' !! notebook.output_filename py line = Some (File (FeatureCollection features))).
Proof.
  unfold notebook.line_loop. intros H.
  apply bind_ok in H as (df & w1 & Hdf & H). apply lift_ok in Hdf as [_ ->].
  apply bind_ok in H as (dfs & w1 & Hg & H). apply lift_ok in Hg as [_ ->].
  apply trips_loop_files in H as (Hc & Hq & Hnil & Hcons).
  split; [assumption|]. split; [assumption|]. split.
  - intros ->. destruct (map fst dfs) as [|k keys].
    + now destruct Hnil.
    + destruct Hcons as [Hne _]; congruence.
  - intros Hne. destruct (map fst dfs) as [|k keys].
    + destruct Hnil as [_ ->]; congruence.
    + now apply Hcons.
Qed.

End OlderLoopFiles.

Section OlderLoopSample.
Import Pandas Geojson Os Linewise Samples.

Lemma X13_older_loop_files_witness :
  (forall q, q <> notebook.output_filename python (Str "L1") ->
             fs (snd (notebook.line_loop python metro1 (Str "L1") world1)) !! q
             = fs world1 !! q) /\
  fs (snd (notebook.line_loop python metro1 (Str "L1") world1))
     !! notebook.output_filename python (Str "L1")
  = Some (File (document metro1 (Str "L1"))).
Proof.
  destruct (X13_older_loop_files python metro1 (Str "L1")
              (map (feature_of metro1 (Str "L1")) (trip_keys metro1 (Str "L1")))
              world1 (snd (notebook.line_loop python metro1 (Str "L1") world1)))
    as (_ & Hq & _ & Hf).
  - vm_compute. reflexivity.
  - split; [exact Hq|]. apply Hf. vm_compute. discriminate.
Defined.

End OlderLoopSample.

(** ** The documents of a successful run of the Builder *)

Section BuilderSuccess.
Import Pandas Geojson Os Linewise.
Context (py : PyLib).

Lemma builder_main_ok (w w' : World) :
  create_geojson_file.main py w = (Ok tt, w') ->
  exists df labels w0,
    reads w df /\ getcol "route_short_name" df = Ok labels /\
    for_each (unique labels)
             (create_geojson_file.process_line py df (path_join (cwd w) "geojson")) w0
    = (Ok tt, w').
Proof.
  intros H.
  destruct (builder_split py _ _ _ H)
    as [(e & He & _)
       |(df & labels & done & rest & w0 & wmid & Hr & Hlab & Hl & _ & Hd & Hrest)];
    [discriminate|].
  destruct rest as [|line rest'].
  - destruct Hrest as [_ ->]. rewrite app_nil_r in Hl. subst done.
    exists df, labels, w0. auto.
  - destruct Hrest as (e & He & _). discriminate.
Qed.

(** X14: after a successful run of the Builder, the line of every row of
    the table has its document in the output directory.  The document is
    the one of the last line written under that file name, so it is the
    line's own when no other line has the same file name. *)
Theorem X14_builder_documents_in_place (w w' : World) :
  create_geojson_file.main py w = (Ok tt, w') ->
  exists df,
    reads w df /\
    forall r, In r (rows df) ->
      (exists r',
         In r' (rows df) /\
         line_file py w (cell_of "route_short_name" r')
         = line_file py w (cell_of "route_short_name" r) /\
         fs w' !! line_file py w (cell_of "route_short_name" r)
         = Some (File (document df (cell_of "route_short_name" r')))) /\
      ((forall r', In r' (rows df) ->
          line_file py w (cell_of "route_short_name" r')
          = line_file py w (cell_of "route_short_name" r) ->
          cell_of "route_short_name" r' = cell_of "route_short_name" r) ->
       fs w' !! line_file py w (cell_of "route_short_name" r)
       = Some (File (document df (cell_of "route_short_name" r)))).
Proof.
  intros H. apply builder_main_ok in H as (df & labels & w0 & Hr & Hl & H).
  exists df. split; [assumption|]. intros r Hin.
  apply getcol_ok in Hl as (_ & -> & _).
  assert (Hline : In (cell_of "route_short_name" r)
                     (unique (map (cell_of "route_short_name") (rows df))))
    by (apply In_unique, in_map; assumption).
  destruct (loop_last_writer py _ _ _ _ _ H _ Hline) as (line' & Hin' & Hp & Hf).
  apply (proj1 (In_unique _ _)) in Hin'. apply in_map_iff in Hin' as (r' & <- & Hr').
  split.
  - exists r'. unfold line_file. auto.
  - intros Hinj. unfold line_file in *. rewrite Hf. now rewrite (Hinj r' Hr' Hp).
Qed.

End BuilderSuccess.

Section BuilderSuccessSample.
Import Pandas Geojson Os Linewise Samples.

Lemma X14_builder_documents_witness :
  exists df,
    reads (after_assembler world1) df /\
    forall r, In r (rows df) ->
      (exists r',
         In r' (rows df) /\
         line_file python (after_assembler world1) (cell_of "route_short_name" r')
         = line_file python (after_assembler world1) (cell_of "route_short_name" r) /\
         fs (after_builder (after_assembler world1))
            !! line_file python (after_assembler world1) (cell_of "route_short_name" r)
         = Some (File (document df (cell_of "route_short_name" r')))) /\
      ((forall r', In r' (rows df) ->
          line_file python (after_assembler world1) (cell_of "route_short_name" r')
          = line_file python (after_assembler world1) (cell_of "route_short_name" r) ->
          cell_of "route_short_name" r' = cell_of "route_short_name" r) ->
       fs (after_builder (after_assembler world1))
          !! line_file python (after_assembler world1) (cell_of "route_short_name" r)
       = Some (File (document df (cell_of "route_short_name" r)))).
Proof.
  apply (X14_builder_documents_in_place python (after_assembler world1)).
  vm_compute. reflexivity.
Defined.

End BuilderSuccessSample.

(** ** The points the two scripts produce together *)

Section WrittenPoints.
Import Pandas Geojson Os Rowwise Linewise.
Context (py : PyLib).

(** X15: when the Builder runs on what the Assembler wrote, every point of
    every document it writes is a quadruple of a longitude and a latitude
    that are numbers or missing, the elevation 0, and a whole number of
    seconds [h*3600 + m*60 + s - 2208988800] with [h < 24], [m < 60] and
    [s <= 61]. *)
Theorem X15_written_points (w w1 w2 : World) (r : result unit)
        (trips routes stops stop_times metro : DataFrame) :
  loaded w trips routes stops stop_times ->
  create_dataframe.main py w = (Ok metro, w1) ->
  create_geojson_file.main py w1 = (r, w2) ->
  forall p features,
    fs w2 !! p = Some (File (FeatureCollection features)) ->
    fs w1 !! p <> Some (File (FeatureCollection features)) ->
    forall f point, In f features -> In point (geometry f) ->
    exists lon lat h mi s,
      point = (lon, lat, num 0, num (h * 3600 + mi * 60 + s - 2208988800)) /\
      (lon = NA \/ exists x, lon = Num x) /\
      (lat = NA \/ exists x, lat = Num x) /\
      0 <= h <= 23 /\ 0 <= mi <= 59 /\ 0 <= s <= 61.
Proof.
  intros Hl Hmain Hbuild p features Hp Hnew f point Hf Hpoint.
  destruct (written_point py _ _ _ _ _ _ _ _ _ Hl Hmain Hbuild p features Hp Hnew
              f point Hf Hpoint) as (m & Hm & ->).
  destruct (assembled_point py _ _ _ _ _ _ _ _ Hl Hmain Hm)
    as (_ & lon & lat & st & ta & td & -> & Hlon & Hlat & _ & (s & [[h mi] sec] & _ & Ep & ->)
        & _).
  apply strptime_HMS_range in Ep as (Hh & Hmi & Hs).
  exists (rounded lon), (rounded lat), h, mi, sec.
  split; [|auto using rounded_shape].
  cbn [rounded_position]. rewrite !rounded_num.
  change create_dataframe.datetime_1970_1_1 with 0.
  change default_date_seconds with (-2208988800). simpl seconds_of_day.
  replace (-2208988800 + (h * 3600 + mi * 60 + sec) - 0)
    with (h * 3600 + mi * 60 + sec - 2208988800) by lia.
  reflexivity.
Qed.

End WrittenPoints.

Section WrittenPointsSample.
Import Pandas Geojson Os Rowwise Linewise Samples.

Lemma X15_written_points_witness :
  exists lon lat h mi s,
    nth 0 (geometry (feature_of metro1 (Str "L1") (Str "T1"))) (NA, NA, NA, NA)
    = (lon, lat, num 0, num (h * 3600 + mi * 60 + s - 2208988800)) /\
    (lon = NA \/ exists x, lon = Num x) /\
    (lat = NA \/ exists x, lat = Num x) /\
    0 <= h <= 23 /\ 0 <= mi <= 59 /\ 0 <= s <= 61.
Proof.
  apply (X15_written_points python world1 (after_assembler world1)
           (after_builder (after_assembler world1)) (Ok tt)
           (loaded_trips world1) (loaded_routes world1)
           (loaded_stops world1) (loaded_stop_times world1) (assembled world1)
           loaded_world1 main_world1 main_builder_world1
           "/home/metro/geojson/L1.geojson"
           (features_at (after_builder (after_assembler world1))
                        "/home/metro/geojson/L1.geojson")
           ltac:(vm_compute; reflexivity)
           ltac:(vm_compute; discriminate)
           (feature_of metro1 (Str "L1") (Str "T1"))).
  - vm_compute. auto.
  - vm_compute. auto.
Defined.

End WrittenPointsSample.

(** ** When the Assembler succeeds *)

Section AssemblerSucceeds.
Import Pandas Os Rowwise.
Context (py : PyLib).

Lemma bind_step {A B} (m : M A) (k : A -> M B) (w w1 : World) (a : A) :
  m w = (Ok a, w1) -> bind m k w = k a w1.
Proof. unfold bind. now intros ->. Qed.

Lemma bind_lift {A B} (r : result A) (k : A -> M B) (w : World) (a : A) :
  r = Ok a -> bind (lift r) k w = k a w.
Proof. intros ->. reflexivity. Qed.

Lemma traverse_all {A B} (f : A -> result B) (l : list A) :
  (forall a, In a l -> exists b, f a = Ok b) -> exists l', traverse f l = Ok l'.
Proof.
  induction l as [|a l IH]; simpl; intros H; [eauto|].
  destruct (H a (or_introl eq_refl)) as [b ->]. simpl.
  destruct IH as [l' ->]; [auto|]. simpl. eauto.
Qed.

Lemma row_has (c : string) (r : row) (v : cell) :
  row_get c r = Some v -> In c (row_keys r).
Proof.
  intros H. destruct (in_dec string_dec c (row_keys r)) as [Hin|Hn]; [assumption|].
  apply row_get_None in Hn. congruence.
Qed.

Lemma row_get_key (c : string) (r : row) :
  In c (row_keys r) -> exists v, row_get c r = Some v.
Proof.
  intros H. destruct (row_get c r) as [v|] eqn:E; [eauto|].
  apply row_get_None in E. contradiction.
Qed.

Lemma getcol_rows (c : string) (df : DataFrame) :
  In c (columns df) ->
  (forall r, In r (rows df) -> exists v, row_get c r = Some v) ->
  getcol c df = Ok (map (cell_of c) (rows df)).
Proof.
  intros Hc Hr. apply getcol_total; [assumption|]. apply Forall_forall.
  intros r Hin. destruct (Hr r Hin) as [v Hv]. eapply row_has; eassumption.
Qed.

Lemma merge_rows (left right : DataFrame) (on : string) :
  In on (columns left) -> In on (columns right) ->
  (forall r, In r (rows left) -> exists v, row_get on r = Some v) ->
  (forall r, In r (rows right) -> exists v, row_get on r = Some v) ->
  merge left right on =
  Ok {| columns := merge_columns on (columns left) (columns right);
        rows := flat_map (fun l => map (join_rows on (overlap on (columns left)
                                                              (columns right)) l)
                                       (filter (key_match on l) (rows right)))
                         (rows left) |}.
Proof.
  intros Hl Hr Kl Kr. unfold merge.
  rewrite (getcol_rows on left), (getcol_rows on right) by assumption. reflexivity.
Qed.

Lemma merge_columns_left (on c : string) (l r : list string) :
  In c l -> mem_str c (overlap on l r) = false -> In c (merge_columns on l r).
Proof.
  intros Hc Ho. unfold merge_columns. apply in_app_iff. left.
  apply in_map_iff. exists c. split; [|assumption]. unfold suffixed. now rewrite Ho.
Qed.

Lemma merge_columns_right (on c : string) (l r : list string) :
  In c r -> c <> on -> mem_str c (overlap on l r) = false -> In c (merge_columns on l r).
Proof.
  intros Hc Hne Ho. unfold merge_columns. apply in_app_iff. right.
  apply in_map_iff. exists c. split; [unfold suffixed; now rewrite Ho|].
  apply filter_In. split; [assumption|]. apply negb_true_iff. now apply String.eqb_neq.
Qed.

Lemma not_In_merge_columns (on c : string) (l r : list string) :
  plain c = true -> ~ In c l -> ~ In c r -> ~ In c (merge_columns on l r).
Proof. intros Hp Hl Hr H. apply In_merge_columns in H as [[H|H] _]; auto. Qed.

Lemma string_length_app (a b : string) :
  String.length (a ++ b) = (String.length a + String.length b)%nat.
Proof. induction a as [|x a IH]; simpl; [reflexivity|]. now rewrite IH. Qed.

Lemma path_join_file (a : string) : path_join a "metro_data.csv" <> a.
Proof.
  unfold path_join. simpl.
  destruct (rev (list_ascii_of_string a)) as [|d l] eqn:E.
  - assert (Ha : list_ascii_of_string a = []).
    { rewrite <- (rev_involutive (list_ascii_of_string a)), E. reflexivity. }
    destruct a; [discriminate | discriminate Ha].
  - assert (Hlen : forall b : string, b <> ""%string -> (a ++ b)%string <> a).
    { intros b Hb Heq. apply (f_equal String.length) in Heq.
      rewrite string_length_app in Heq. destruct b; [congruence|]. simpl in Heq. lia. }
    destruct (is_slash d); apply Hlen; discriminate.
Qed.

Lemma kept_rows (stop_times : DataFrame) (r : row) :
  Forall (fun r => row_keys r = columns stop_times) (rows stop_times) ->
  In "trip_id" (columns stop_times) -> In "stop_id" (columns stop_times) ->
  ~ In "stop_lat" (columns stop_times) -> ~ In "stop_lon" (columns stop_times) ->
  In r (filter row_complete (map parse_times (rows stop_times))) ->
  (exists v, row_get "trip_id" r = Some v) /\
  (exists v, row_get "stop_id" r = Some v) /\
  (exists t, row_get "arrival_time" r = Some (Stamp t)) /\
  row_get "stop_lat" r = None /\ row_get "stop_lon" r = None.
Proof.
  intros Hk P1 P2 N1 N2 Hr. apply filter_In in Hr as [Hr Hc].
  apply in_map_iff in Hr as (st & <- & Hst).
  rewrite Forall_forall in Hk. specialize (Hk st Hst).
  rewrite (parse_times_other "trip_id"), (parse_times_other "stop_id"),
    (parse_times_other "stop_lat"), (parse_times_other "stop_lon") by discriminate.
  split; [apply row_get_key; now rewrite Hk|].
  split; [apply row_get_key; now rewrite Hk|].
  split; [|split; apply (proj2 (row_get_None _ _)); rewrite Hk; assumption].
  rewrite parse_times_arrival.
  destruct (to_datetime_coerce_cases (cell_of "arrival_time" st)) as [E|[t E]];
    [|exists t; now rewrite E].
  exfalso. apply row_complete_spec in Hc. apply Hc.
  apply (row_get_value "arrival_time"). now rewrite parse_times_arrival, E.
Qed.

Lemma In_assigned (c : string) (P : cell -> cell -> Prop) (df : DataFrame)
      (s s' : list cell) (x : row) :
  getcol c df = Ok s -> Forall2 P s s' -> In x (rows (setcol c s' df)) ->
  exists r v, In r (rows df) /\ x = row_set c v r.
Proof.
  intros Hg HP Hx.
  pose proof (setcol_rows_Forall2 c c P df s s' Hg HP) as HF.
  destruct (Forall2_In_right _ _ _ _ HF Hx) as (r & Hr & v & _ & ->). eauto.
Qed.

Lemma save_to_csv_total (df : DataFrame) (name dir : string) (w : World) :
  (forall c, fs w !! dir <> Some (File c)) ->
  fs w !! path_join dir name <> Some Dir ->
  path_join dir name <> dir ->
  create_dataframe.save_to_csv py df name dir w
  = (Ok tt, {| cwd := cwd w;
               fs := <[path_join dir name := File (Csv (csv_text py df))]>
                       (<[dir := Dir]> (fs w)) |}).
Proof.
  intros Hd Hf Hne. unfold create_dataframe.save_to_csv, bind, makedirs.
  destruct (fs w !! dir) as [[c|]|] eqn:E; [now destruct (Hd c)| |];
    unfold to_csv, write_file; simpl; rewrite lookup_insert_ne by congruence;
    destruct (fs w !! path_join dir name) as [[c|]|]; try reflexivity; congruence.
Qed.

(** X16: the Assembler succeeds, and writes the table it returns, on every
    feed whose four tables load, have the columns the script reads, share no
    column but the keys of the joins, have keys of one kind on both sides of
    each join, and give the stops coordinates that are numbers, missing, or
    text a number can be read from, provided [data] is not a regular file
    and [data/metro_data.csv] is not a directory. *)
Theorem X16_assembler_succeeds (w : World) (trips routes stops stop_times : DataFrame) :
  loaded w trips routes stops stop_times ->
  standard_columns trips routes stops stop_times ->
  same_kind "route_id" trips routes ->
  same_kind "stop_id" stop_times stops ->
  same_kind "trip_id" stop_times trips ->
  (forall sp c, In sp (rows stops) -> c = "stop_lat" \/ c = "stop_lon" ->
                exists v, to_numeric_cell py (cell_of c sp) = Ok v) ->
  (forall c, fs w !! path_join (cwd w) "data" <> Some (File c)) ->
  fs w !! data_path w "metro_data.csv" <> Some Dir ->
  exists metro w',
    create_dataframe.main py w = (Ok metro, w') /\
    fs w' !! data_path w "metro_data.csv" = Some (File (Csv (csv_text py metro))).
Proof.
  intros Hl Hcols _ _ _ Hnum Hdir Hfile.
  destruct (loaded_tables _ _ _ _ _ Hl) as ((Ktr & _) & (Kro & _) & (Ksp & _) & (Kst & _)).
  destruct Hcols as ((T1 & T2) & (R1 & R2) & (S1 & S2 & S3) & (P1 & P2 & P3 & P4)
                     & J1 & J2 & J3).
  assert (N1 : ~ In "stop_lat" (columns stop_times))
    by (intros H; discriminate (J1 _ H S2)).
  assert (N2 : ~ In "stop_lon" (columns stop_times))
    by (intros H; discriminate (J1 _ H S3)).
  assert (N3 : ~ In "trip_id" (columns stops))
    by (intros H; discriminate (J1 _ P1 H)).
  assert (N4 : ~ In "trip_id" (columns routes))
    by (intros H; discriminate (J2 _ T2 H)).
  assert (N5 : ~ In "route_type" (columns stop_times))
    by (intros H; discriminate (J3 _ (or_introl H) (or_intror R2))).
  assert (N6 : ~ In "route_type" (columns stops))
    by (intros H; discriminate (J3 _ (or_intror H) (or_intror R2))).
  assert (N7 : ~ In "route_type" (columns trips))
    by (intros H; discriminate (J2 _ H R2)).
  assert (N8 : ~ In "arrival_time" (columns stops))
    by (intros H; discriminate (J1 _ P3 H)).
  assert (N9 : ~ In "arrival_time" (columns trips))
    by (intros H; discriminate (J3 _ (or_introl P3) (or_introl H))).
  assert (N10 : ~ In "arrival_time" (columns routes))
    by (intros H; discriminate (J3 _ (or_introl P3) (or_intror H))).
  rewrite Forall_forall in Ktr, Kro, Ksp.
  (* the parsed stop times *)
  pose proof (process_stop_times_total stop_times Kst P3 P4) as Hkept.
  set (kept := {| columns := columns stop_times; rows := _ |}) in Hkept.
  pose proof (fun r => kept_rows stop_times r Kst P1 P2 N1 N2) as Rkept.
  fold (rows kept) in Rkept.
  (* stop_times joined with stops *)
  assert (Hfs0 := merge_rows kept stops "stop_id" P2 S1).
  set (fs0 := {| columns := merge_columns "stop_id" (columns kept) (columns stops);
                 rows := _ |}) in Hfs0.
  assert (Rfs0 : forall x, In x (rows fs0) ->
            (exists sp, In sp (rows stops) /\
                        row_get "stop_lat" x = Some (cell_of "stop_lat" sp) /\
                        row_get "stop_lon" x = Some (cell_of "stop_lon" sp)) /\
            (exists v, row_get "trip_id" x = Some v) /\
            (exists t, row_get "arrival_time" x = Some (Stamp t))).
  { intros x Hx. simpl in Hx. apply in_flat_map in Hx as (l & Hlk & Hx).
    apply in_map_iff in Hx as (sp & <- & Hsp). apply filter_In in Hsp as [Hsp _].
    destruct (Rkept l Hlk) as ((v & Ev) & _ & (t & Et) & E1 & E2).
    rewrite !row_get_join by reflexivity.
    rewrite (not_In_overlap_left "stop_id" "stop_lat"), (not_In_overlap_left "stop_id" "stop_lon")
      by assumption.
    rewrite (not_In_overlap "stop_id" "trip_id"), (not_In_overlap "stop_id" "arrival_time")
      by assumption.
    rewrite E1, E2, Ev, Et. rewrite !row_get_del_ne by discriminate.
    split; [|eauto]. exists sp. split; [assumption|]. unfold cell_of.
    destruct (row_get_key "stop_lat" sp) as [a ->]; [now rewrite (Ksp sp Hsp)|].
    destruct (row_get_key "stop_lon" sp) as [b ->]; [now rewrite (Ksp sp Hsp)|]. auto. }
  assert (Cfs0 : In "stop_lat" (columns fs0) /\ In "stop_lon" (columns fs0) /\
                 In "trip_id" (columns fs0) /\ In "arrival_time" (columns fs0) /\
                 ~ In "route_type" (columns fs0)).
  { simpl. split; [|split; [|split; [|split]]].
    - apply merge_columns_right; [assumption | discriminate | now apply not_In_overlap_left].
    - apply merge_columns_right; [assumption | discriminate | now apply not_In_overlap_left].
    - apply merge_columns_left; [assumption | now apply not_In_overlap].
    - apply merge_columns_left; [assumption | now apply not_In_overlap].
    - now apply not_In_merge_columns. }
  destruct Cfs0 as (C1 & C2 & C3 & C4 & C5).
  (* the latitudes *)
  assert (Glat : getcol "stop_lat" fs0 = Ok (map (cell_of "stop_lat") (rows fs0))).
  { apply getcol_rows; [assumption|]. intros x Hx.
    destruct (Rfs0 x Hx) as ((sp & _ & E & _) & _). eauto. }
  destruct (traverse_all (to_numeric_cell py) (map (cell_of "stop_lat") (rows fs0)))
    as [lat Hlat].
  { intros a Ha. apply in_map_iff in Ha as (x & <- & Hx).
    destruct (Rfs0 x Hx) as ((sp & Hsp & E & _) & _). unfold cell_of at 1. rewrite E.
    apply Hnum; auto. }
  set (fs1 := setcol "stop_lat" lat fs0).
  assert (Rfs1 : forall x, In x (rows fs1) ->
            (exists sp, In sp (rows stops) /\
                        row_get "stop_lon" x = Some (cell_of "stop_lon" sp)) /\
            (exists v, row_get "trip_id" x = Some v) /\
            (exists t, row_get "arrival_time" x = Some (Stamp t))).
  { intros x Hx.
    destruct (In_assigned _ _ _ _ _ _ Glat (traverse_ok _ _ _ Hlat) Hx) as (r & v & Hr & ->).
    destruct (Rfs0 r Hr) as ((sp & Hsp & _ & E) & Et & Ea).
    rewrite !row_get_set_ne by discriminate. eauto 6. }
  assert (Cfs1 : columns fs1 = columns fs0).
  { simpl. now apply In_add_column_same. }
  (* the longitudes *)
  assert (Glon : getcol "stop_lon" fs1 = Ok (map (cell_of "stop_lon") (rows fs1))).
  { apply getcol_rows; [now rewrite Cfs1|]. intros x Hx.
    destruct (Rfs1 x Hx) as ((sp & _ & E) & _). eauto. }
  destruct (traverse_all (to_numeric_cell py) (map (cell_of "stop_lon") (rows fs1)))
    as [lon Hlon].
  { intros a Ha. apply in_map_iff in Ha as (x & <- & Hx).
    destruct (Rfs1 x Hx) as ((sp & Hsp & E) & _). unfold cell_of at 1. rewrite E.
    apply Hnum; auto. }
  set (fs2 := setcol "stop_lon" lon fs1).
  assert (Rfs2 : forall x, In x (rows fs2) ->
            (exists v, row_get "trip_id" x = Some v) /\
            (exists t, row_get "arrival_time" x = Some (Stamp t))).
  { intros x Hx.
    destruct (In_assigned _ _ _ _ _ _ Glon (traverse_ok _ _ _ Hlon) Hx) as (r & v & Hr & ->).
    destruct (Rfs1 r Hr) as (_ & Et & Ea).
    rewrite !row_get_set_ne by discriminate. auto. }
  assert (Cfs2 : columns fs2 = columns fs0).
  { simpl. rewrite (In_add_column_same "stop_lat") by assumption.
    now apply In_add_column_same. }
  (* trips joined with routes *)
  assert (Htr := merge_rows trips routes "route_id" T1 R1).
  set (tr := {| columns := merge_columns "route_id" (columns trips) (columns routes);
                rows := _ |}) in Htr.
  assert (Rtr : forall y, In y (rows tr) ->
            (exists v, row_get "trip_id" y = Some v) /\
            (exists v, row_get "route_type" y = Some v)).
  { intros y Hy. simpl in Hy. apply in_flat_map in Hy as (t & Ht & Hy).
    apply in_map_iff in Hy as (ro & <- & Hro). apply filter_In in Hro as [Hro _].
    rewrite !row_get_join by reflexivity.
    rewrite (not_In_overlap "route_id" "trip_id"), (not_In_overlap_left "route_id" "route_type")
      by assumption.
    destruct (row_get_key "trip_id" t) as [a ->]; [now rewrite (Ktr t Ht)|].
    split; [eauto|].
    destruct (row_get "route_type" t); [eauto|].
    rewrite row_get_del_ne by discriminate. apply row_get_key. now rewrite (Kro ro Hro). }
  assert (Ctr : In "trip_id" (columns tr) /\ In "route_type" (columns tr) /\
                ~ In "arrival_time" (columns tr)).
  { simpl. split; [|split].
    - apply merge_columns_left; [assumption | now apply not_In_overlap].
    - apply merge_columns_right; [assumption | discriminate | now apply not_In_overlap_left].
    - now apply not_In_merge_columns. }
  destruct Ctr as (D1 & D2 & D3).
  (* the join on trip_id *)
  assert (Hfinal := merge_rows fs2 tr "trip_id").
  rewrite Cfs2 in Hfinal. specialize (Hfinal C3 D1).
  set (final := {| columns := merge_columns "trip_id" (columns fs0) (columns tr);
                   rows := _ |}) in Hfinal.
  assert (Rfinal : forall z, In z (rows final) ->
            (exists v, row_get "route_type" z = Some v) /\
            (exists t, row_get "arrival_time" z = Some (Stamp t))).
  { intros z Hz. simpl in Hz. apply in_flat_map in Hz as (x & Hx & Hz).
    apply in_map_iff in Hz as (y & <- & Hy). apply filter_In in Hy as [Hy _].
    destruct (Rfs2 x Hx) as (_ & (t & Et)). destruct (Rtr y Hy) as (_ & (v & Ev)).
    rewrite !row_get_join by reflexivity.
    rewrite (not_In_overlap_left "trip_id" "route_type"), (not_In_overlap "trip_id" "arrival_time")
      by assumption.
    rewrite Et. split; [|eauto].
    destruct (row_get "route_type" x); [eauto|].
    rewrite row_get_del_ne by discriminate. eauto. }
  assert (Cfinal : In "route_type" (columns final) /\ In "arrival_time" (columns final)).
  { simpl. split.
    - apply merge_columns_right; [assumption | discriminate | now apply not_In_overlap_left].
    - apply merge_columns_left; [assumption | now apply not_In_overlap]. }
  destruct Cfinal as (F1 & F2).
  (* the filter and the seconds *)
  assert (Gtype : getcol "route_type" final = Ok (map (cell_of "route_type") (rows final))).
  { apply getcol_rows; [assumption|]. intros z Hz. now destruct (Rfinal z Hz). }
  set (mask := map (fun v => elem_eq v (num 1)) (map (cell_of "route_type") (rows final))).
  assert (Rmetro : forall z, In z (rows (loc mask final)) ->
            exists t, row_get "arrival_time" z = Some (Stamp t)).
  { intros z Hz. unfold mask in Hz. rewrite (loc_eq_rows _ _ _ _ Gtype) in Hz.
    apply filter_In in Hz as [Hz _]. now destruct (Rfinal z Hz). }
  assert (Gtime : getcol "arrival_time" (loc mask final)
                  = Ok (map (cell_of "arrival_time") (rows (loc mask final)))).
  { apply getcol_rows; [assumption|]. intros z Hz. destruct (Rmetro z Hz). eauto. }
  destruct (traverse_all (minus_datetime create_dataframe.datetime_1970_1_1)
              (map (cell_of "arrival_time") (rows (loc mask final)))) as [ds Hds].
  { intros a Ha. apply in_map_iff in Ha as (z & <- & Hz).
    destruct (Rmetro z Hz) as [t Et]. unfold cell_of. rewrite Et. simpl. eauto. }
  destruct (traverse_all total_seconds_int ds) as [seconds Hsec].
  { intros d Hd. pose proof (traverse_ok _ _ _ Hds) as HF.
    destruct (Forall2_In_right _ _ _ _ HF Hd) as (a & Ha & Hm).
    apply in_map_iff in Ha as (z & <- & Hz).
    destruct (Rmetro z Hz) as [t Et]. unfold cell_of in Hm. rewrite Et in Hm.
    simpl in Hm. injection Hm as <-. simpl. eauto. }
  (* the file *)
  set (metro := setconst "elevation" (num 0)
                  (setcol "arrival_time_int" seconds (loc mask final))).
  assert (Hsave := save_to_csv_total metro "metro_data.csv" (path_join (cwd w) "data") w
                     Hdir Hfile (path_join_file _)).
  (* the run *)
  assert (Ekept : forall r, In r (rows kept) -> exists v, row_get "stop_id" r = Some v).
  { intros r Hr. now destruct (Rkept r Hr) as (_ & H & _). }
  assert (Estops : forall r, In r (rows stops) -> exists v, row_get "stop_id" r = Some v).
  { intros r Hr. apply row_get_key. now rewrite (Ksp r Hr). }
  assert (Etrips : forall r, In r (rows trips) -> exists v, row_get "route_id" r = Some v).
  { intros r Hr. apply row_get_key. now rewrite (Ktr r Hr). }
  assert (Eroutes : forall r, In r (rows routes) -> exists v, row_get "route_id" r = Some v).
  { intros r Hr. apply row_get_key. now rewrite (Kro r Hr). }
  specialize (Hfs0 Ekept Estops). specialize (Htr Etrips Eroutes).
  specialize (Hfinal (fun x Hx => proj1 (Rfs2 x Hx)) (fun y Hy => proj1 (Rtr y Hy))).
  assert (Elat : (try s <- getcol "stop_lat" fs0; to_numeric py s) = Ok lat)
    by (rewrite Glat; exact Hlat).
  assert (Elon : (try s <- getcol "stop_lon" fs1; to_numeric py s) = Ok lon)
    by (rewrite Glon; exact Hlon).
  assert (Emask : (try s <- getcol "route_type" final;
                   Ok (map (fun v => elem_eq v (num 1)) s)) = Ok mask)
    by (rewrite Gtype; reflexivity).
  assert (Esec : (try s <- getcol "arrival_time" (loc mask final);
                  try d <- traverse (minus_datetime create_dataframe.datetime_1970_1_1) s;
                  traverse total_seconds_int d) = Ok seconds).
  { rewrite Gtime. cbn [rbind]. rewrite Hds. cbn [rbind]. exact Hsec. }
  destruct Hl as (L1 & L2 & L3 & L4). unfold data_path in L1, L2, L3, L4.
  exists metro. eexists. split.
  - unfold create_dataframe.main.
    rewrite (bind_step getcwd _ w w (cwd w) eq_refl). cbv beta zeta.
    rewrite (bind_step _ _ _ _ _ L1), (bind_step _ _ _ _ _ L2),
      (bind_step _ _ _ _ _ L3), (bind_step _ _ _ _ _ L4).
    rewrite (bind_lift _ _ _ _ Hkept), (bind_lift _ _ _ _ Htr), (bind_lift _ _ _ _ Hfs0).
    rewrite (bind_lift _ _ _ _ Elat). fold fs1.
    rewrite (bind_lift _ _ _ _ Elon). fold fs2.
    rewrite (bind_lift _ _ _ _ Hfinal), (bind_lift _ _ _ _ Emask), (bind_lift _ _ _ _ Esec).
    fold metro. rewrite (bind_step _ _ _ _ _ Hsave). reflexivity.
  - simpl. unfold data_path. apply lookup_insert_eq.
Qed.


Lemma bind_lift_raise {A B} (r : result A) (k : A -> M B) (w : World) (e : exn) :
  r = Raise e -> bind (lift r) k w = (Raise e, w).
Proof. intros ->. reflexivity. Qed.

Lemma traverse_raises {A B} (f : A -> result B) (e : exn) (l : list A) :
  (forall a, In a l -> (exists b, f a = Ok b) \/ f a = Raise e) ->
  (exists a, In a l /\ f a = Raise e) ->
  traverse f l = Raise e.
Proof.
  induction l as [|a l IH]; simpl; intros Hall (x & Hx & Ex); [contradiction|].
  destruct (Hall a (or_introl eq_refl)) as [[b Eb]|Ea]; [|now rewrite Ea].
  rewrite Eb. simpl. rewrite IH; [reflexivity | auto |].
  destruct Hx as [->|Hx]; [congruence | eauto].
Qed.

(** X17: a stop whose latitude is text that no number can be read from
    makes the Assembler fail with [ValueError] as soon as one stop_times row
    without a missing value and with parsed times visits it; nothing is
    written. *)
Theorem X17_unreadable_latitude_fails (w : World)
        (trips routes stops stop_times : DataFrame) (st sp : row) (s : string) :
  loaded w trips routes stops stop_times ->
  standard_columns trips routes stops stop_times ->
  same_kind "route_id" trips routes ->
  same_kind "stop_id" stop_times stops ->
  In st (rows stop_times) -> row_complete (parse_times st) = true ->
  In sp (rows stops) -> key_match "stop_id" (parse_times st) sp = true ->
  cell_of "stop_lat" sp = Str s -> float_of_str py s = None ->
  create_dataframe.main py w = (Raise (ValueError "Unable to parse string"), w).
Proof.
  intros Hl Hcols _ _ Hst Hc Hsp Hm Es Ef.
  destruct (loaded_tables _ _ _ _ _ Hl) as ((Ktr & _) & (Kro & _) & (Ksp & _) & (Kst & _)).
  destruct Hcols as ((T1 & T2) & (R1 & R2) & (S1 & S2 & S3) & (P1 & P2 & P3 & P4)
                     & J1 & J2 & J3).
  assert (N1 : ~ In "stop_lat" (columns stop_times))
    by (intros H; discriminate (J1 _ H S2)).
  assert (N2 : ~ In "stop_lon" (columns stop_times))
    by (intros H; discriminate (J1 _ H S3)).
  rewrite Forall_forall in Ktr, Kro, Ksp.
  pose proof (process_stop_times_total stop_times Kst P3 P4) as Hkept.
  set (kept := {| columns := columns stop_times; rows := _ |}) in Hkept.
  pose proof (fun r => kept_rows stop_times r Kst P1 P2 N1 N2) as Rkept.
  fold (rows kept) in Rkept.
  assert (Hfs0 := merge_rows kept stops "stop_id" P2 S1).
  set (fs0 := {| columns := merge_columns "stop_id" (columns kept) (columns stops);
                 rows := _ |}) in Hfs0.
  assert (Htr := merge_rows trips routes "route_id" T1 R1).
  set (tr := {| columns := merge_columns "route_id" (columns trips) (columns routes);
                rows := _ |}) in Htr.
  assert (Rfs0 : forall x, In x (rows fs0) ->
            exists l sp', In l (rows kept) /\ In sp' (rows stops) /\
                          key_match "stop_id" l sp' = true /\
                          row_get "stop_lat" x = Some (cell_of "stop_lat" sp')).
  { intros x Hx. simpl in Hx. apply in_flat_map in Hx as (l & Hlk & Hx).
    apply in_map_iff in Hx as (sp' & <- & Hsp'). apply filter_In in Hsp' as [Hsp' Hk].
    destruct (Rkept l Hlk) as (_ & _ & _ & E1 & _).
    exists l, sp'. repeat split; try assumption.
    rewrite row_get_join by reflexivity.
    rewrite (not_In_overlap_left "stop_id" "stop_lat") by assumption.
    rewrite E1, row_get_del_ne by discriminate. unfold cell_of.
    destruct (row_get_key "stop_lat" sp') as [a ->]; [now rewrite (Ksp sp' Hsp')|].
    reflexivity. }
  assert (Glat : getcol "stop_lat" fs0 = Ok (map (cell_of "stop_lat") (rows fs0))).
  { apply getcol_rows.
    - simpl. apply merge_columns_right;
        [assumption | discriminate | now apply not_In_overlap_left].
    - intros x Hx. destruct (Rfs0 x Hx) as (l & sp' & _ & _ & _ & E). eauto. }
  assert (Elat : (try c <- getcol "stop_lat" fs0; to_numeric py c)
                 = Raise (ValueError "Unable to parse string")).
  { rewrite Glat. cbn [rbind]. apply traverse_raises.
    - intros a _. destruct a as [|x|t|t]; simpl; eauto.
      destruct (float_of_str py t); eauto.
    - exists (Str s). split; [|simpl; now rewrite Ef].
      apply in_map_iff.
      exists (join_rows "stop_id" (overlap "stop_id" (columns kept) (columns stops))
                        (parse_times st) sp).
      assert (Hin : In (parse_times st) (rows kept)).
      { simpl. apply filter_In. split; [now apply in_map | assumption]. }
      split.
      + destruct (Rkept _ Hin) as (_ & _ & _ & E1 & _).
        unfold cell_of at 1. rewrite row_get_join by reflexivity.
        rewrite (not_In_overlap_left "stop_id" "stop_lat") by assumption.
        rewrite E1, row_get_del_ne by discriminate. fold (cell_of "stop_lat" sp).
        exact Es.
      + simpl. apply in_flat_map. exists (parse_times st). split; [exact Hin|].
        apply in_map. apply filter_In. auto. }
  assert (Ekept : forall r, In r (rows kept) -> exists v, row_get "stop_id" r = Some v).
  { intros r Hr. now destruct (Rkept r Hr) as (_ & H & _). }
  assert (Estops : forall r, In r (rows stops) -> exists v, row_get "stop_id" r = Some v).
  { intros r Hr. apply row_get_key. now rewrite (Ksp r Hr). }
  assert (Etrips : forall r, In r (rows trips) -> exists v, row_get "route_id" r = Some v).
  { intros r Hr. apply row_get_key. now rewrite (Ktr r Hr). }
  assert (Eroutes : forall r, In r (rows routes) -> exists v, row_get "route_id" r = Some v).
  { intros r Hr. apply row_get_key. now rewrite (Kro r Hr). }
  specialize (Hfs0 Ekept Estops). specialize (Htr Etrips Eroutes).
  destruct Hl as (L1 & L2 & L3 & L4). unfold data_path in L1, L2, L3, L4.
  unfold create_dataframe.main.
  rewrite (bind_step getcwd _ w w (cwd w) eq_refl). cbv beta zeta.
  rewrite (bind_step _ _ _ _ _ L1), (bind_step _ _ _ _ _ L2),
    (bind_step _ _ _ _ _ L3), (bind_step _ _ _ _ _ L4).
  rewrite (bind_lift _ _ _ _ Hkept), (bind_lift _ _ _ _ Htr), (bind_lift _ _ _ _ Hfs0).
  apply bind_lift_raise. exact Elat.
Qed.

End AssemblerSucceeds.

Section AssemblerSucceedsSample.
Import Pandas Os Rowwise Samples.

Lemma X16_assembler_succeeds_witness :
  exists metro w',
    create_dataframe.main python world1 = (Ok metro, w') /\
    fs w' !! data_path world1 "metro_data.csv" = Some (File (Csv (csv_text python metro))).
Proof.
  apply (X16_assembler_succeeds python world1 (loaded_trips world1) (loaded_routes world1)
           (loaded_stops world1) (loaded_stop_times world1) loaded_world1).
  - unfold standard_columns. vm_compute. repeat split; auto 12; intros c H1 H2;
      repeat (destruct H1 as [H1|H1]); try contradiction; subst c;
      repeat (destruct H2 as [H2|H2]); try contradiction;
      try reflexivity; discriminate H2.
  - left. intros r Hr. vm_compute in Hr.
    repeat (destruct Hr as [<-|Hr]); try contradiction; vm_compute; eauto.
  - left. intros r Hr. vm_compute in Hr.
    repeat (destruct Hr as [<-|Hr]); try contradiction; vm_compute; eauto.
  - left. intros r Hr. vm_compute in Hr.
    repeat (destruct Hr as [<-|Hr]); try contradiction; vm_compute; eauto.
  - intros sp c Hsp Hc. vm_compute in Hsp.
    destruct Hsp as [<-|[<-|[]]]; destruct Hc as [->| ->]; vm_compute; eauto.
  - intros c. vm_compute. discriminate.
  - vm_compute. discriminate.
Defined.

Lemma X17_unreadable_latitude_witness :
  create_dataframe.main python world5
  = (Raise (ValueError "Unable to parse string"), world5).
Proof.
  apply (X17_unreadable_latitude_fails python world5
           (loaded_trips world5) (loaded_routes world5)
           (loaded_stops world5) (loaded_stop_times world5)
           (nth 0 (rows (loaded_stop_times world5)) [])
           (nth 0 (rows (loaded_stops world5)) []) "north").
  - unfold loaded. repeat split; vm_compute; reflexivity.
  - unfold standard_columns. vm_compute. repeat split; auto 12; intros c H1 H2;
      repeat (destruct H1 as [H1|H1]); try contradiction; subst c;
      repeat (destruct H2 as [H2|H2]); try contradiction;
      try reflexivity; discriminate H2.
  - left. intros r Hr. vm_compute in Hr.
    repeat (destruct Hr as [<-|Hr]); try contradiction; vm_compute; eauto.
  - left. intros r Hr. vm_compute in Hr.
    repeat (destruct Hr as [<-|Hr]); try contradiction; vm_compute; eauto.
  - vm_compute. auto.
  - vm_compute. reflexivity.
  - vm_compute. auto.
  - vm_compute. reflexivity.
  - vm_compute. reflexivity.
  - reflexivity.
Defined.

End AssemblerSucceedsSample.

(** ** save_to_csv *)

Section SaveCsv.
Import Pandas Os.
Context (py : PyLib).

(** X18: [save_to_csv] raises [OSError] when the output directory is a
    regular file, changing nothing, and when the file path is a directory,
    having at most recorded the output directory; a table it has saved can
    be saved over, after which the path holds the second table and no other
    path has changed. *)
Theorem X18_save_to_csv_outcomes (df : DataFrame) (name dir : string) (w : World) :
  (forall c, fs w !! dir = Some (File c) ->
     create_dataframe.save_to_csv py df name dir w = (Raise (OSError dir), w)) /\
  ((forall c, fs w !! dir <> Some (File c)) ->
   fs w !! path_join dir name = Some Dir \/ path_join dir name = dir ->
   create_dataframe.save_to_csv py df name dir w
   = (Raise (OSError (path_join dir name)),
      {| cwd := cwd w; fs := <[dir := Dir]> (fs w) |})) /\
  (forall w1 df2,
     create_dataframe.save_to_csv py df name dir w = (Ok tt, w1) ->
     exists w2,
       create_dataframe.save_to_csv py df2 name dir w1 = (Ok tt, w2) /\
       fs w2 !! path_join dir name = Some (File (Csv (csv_text py df2))) /\
       forall q, q <> path_join dir name -> fs w2 !! q = fs w1 !! q).
Proof.
  unfold create_dataframe.save_to_csv, to_csv. split; [|split].
  - intros c Hc. unfold bind, makedirs. now rewrite Hc.
  - intros Hd Hp.
    assert (Em : makedirs dir w = (Ok tt, {| cwd := cwd w; fs := <[dir := Dir]> (fs w) |})).
    { unfold makedirs. destruct (fs w !! dir) as [[c|]|] eqn:E;
        [now destruct (Hd c) | reflexivity..]. }
    rewrite (bind_step _ _ _ _ _ Em). unfold write_file. simpl.
    destruct (String.eqb_spec (path_join dir name) dir) as [Heq|Hne].
    + rewrite Heq at 1. now rewrite lookup_insert_eq.
    + rewrite lookup_insert_ne by congruence. destruct Hp as [-> | Hp]; [reflexivity|].
      contradiction.
  - intros w1 df2 H. apply bind_ok in H as ([] & wa & Hm & Hw).
    apply makedirs_ok in Hm as [_ ->].
    destruct (write_file_cases (path_join dir name) (Csv (csv_text py df))
                {| cwd := cwd w; fs := <[dir := Dir]> (fs w) |}) as [[_ E]|[Hp E]];
      rewrite E in Hw; [discriminate|]. injection Hw as <-. simpl in Hp.
    assert (Hne : dir <> path_join dir name).
    { intros Heq. apply Hp. rewrite <- Heq. apply lookup_insert_eq. }
    assert (Hd : <[path_join dir name := File (Csv (csv_text py df))]>
                   (<[dir := Dir]> (fs w)) !! dir = Some Dir).
    { rewrite lookup_insert_ne by congruence. apply lookup_insert_eq. }
    eexists. unfold bind, makedirs. simpl. rewrite Hd.
    unfold write_file. simpl. rewrite lookup_insert_ne by assumption.
    rewrite lookup_insert_eq. split; [reflexivity|]. simpl. split.
    + apply lookup_insert_eq.
    + intros q Hq. rewrite lookup_insert_ne by congruence.
      destruct (String.eqb_spec q dir) as [->|Hqd].
      * rewrite lookup_insert_eq. now rewrite Hd.
      * rewrite lookup_insert_ne by congruence. reflexivity.
Qed.

End SaveCsv.

Section SaveCsvSample.
Import Pandas Os Rowwise Samples.

Lemma X18_save_to_csv_outcomes_witness :
  exists w2,
    create_dataframe.save_to_csv python trips1 "metro_data.csv" "/home/metro/data"
      (after_assembler world1) = (Ok tt, w2) /\
    fs w2 !! "/home/metro/data/metro_data.csv"
    = Some (File (Csv (csv_text python trips1))) /\
    forall q, q <> "/home/metro/data/metro_data.csv" ->
              fs w2 !! q = fs (after_assembler world1) !! q.
Proof.
  apply (proj2 (proj2 (X18_save_to_csv_outcomes python (assembled world1) "metro_data.csv"
                         "/home/metro/data" world1))).
  vm_compute. reflexivity.
Defined.

End SaveCsvSample.

(** ** Running the Assembler again *)

Section AssemblerAgain.
Import Pandas Os Rowwise.
Context (py : PyLib).

Lemma string_app_inj (p a b : string) : (p ++ a)%string = (p ++ b)%string -> a = b.
Proof.
  induction p as [|x p IH]; [auto|].
  change (String x (p ++ a) = String x (p ++ b) -> a = b)%string. intros [= H]. auto.
Qed.

Lemma string_app_assoc (a b c : string) : ((a ++ b) ++ c)%string = (a ++ (b ++ c))%string.
Proof.
  induction a as [|x a IH]; [reflexivity|].
  change (String x ((a ++ b) ++ c) = String x (a ++ (b ++ c)))%string. now rewrite IH.
Qed.

(** Joining a directory with a name that does not start with a slash puts
    the same prefix, at least as long as the directory, before the name. *)
Lemma path_join_prefix (a : string) :
  exists pre,
    (String.length a <= String.length pre)%nat /\
    forall c b, is_slash c = false -> path_join a (String c b) = (pre ++ String c b)%string.
Proof.
  destruct (rev (list_ascii_of_string a)) as [|d l] eqn:E.
  - assert (Ha : a = ""%string).
    { assert (H : list_ascii_of_string a = [])
        by (rewrite <- (rev_involutive (list_ascii_of_string a)), E; reflexivity).
      destruct a; [reflexivity | discriminate H]. }
    subst a. exists ""%string. split; [simpl; lia|].
    intros c b Hc. unfold path_join. simpl. rewrite Hc. reflexivity.
  - destruct (is_slash d) eqn:Ed.
    + exists a. split; [lia|]. intros c b Hc. unfold path_join.
      cbn [list_ascii_of_string]. rewrite Hc, E, Ed. reflexivity.
    + exists (a ++ "/")%string. split; [rewrite string_length_app; lia|].
      intros c b Hc. unfold path_join. cbn [list_ascii_of_string]. rewrite Hc, E, Ed.
      symmetry. apply string_app_assoc.
Qed.

Lemma load_data_same_file (p : string) (cs : list string) (w w1 : World)
      (r : result DataFrame) :
  fs w1 !! p = fs w !! p ->
  create_dataframe.load_data p cs w = (r, w) ->
  create_dataframe.load_data p cs w1 = (r, w1).
Proof.
  unfold create_dataframe.load_data, bind, read_csv. intros ->.
  destruct (fs w !! p) as [[[df| | |]|]|]; try (intros [= <-]; reflexivity).
  destruct (csv_table df); [|intros [= <-]; reflexivity].
  destruct cs; unfold ret, lift; intros [= <-]; reflexivity.
Qed.

(** X19: running the Assembler a second time, on the directory as the first
    run left it, returns the same table and changes nothing. *)
Theorem X19_assembler_rerun (w w1 : World) (metro : DataFrame) :
  create_dataframe.main py w = (Ok metro, w1) ->
  create_dataframe.main py w1 = (Ok metro, w1).
Proof.
  intros H. apply main_ok in H
    as (trips & routes & stops & stop_times & st & tr & fs0 & lat & lon & final
        & labels & seconds & Hl & A & B & C & D & E & F & G & I & Hm & S).
  (* the world the first run leaves *)
  pose proof S as S'. unfold create_dataframe.save_to_csv, to_csv in S'.
  apply bind_ok in S' as ([] & wa & Hmk & Hw).
  apply makedirs_ok in Hmk as [Hnf ->]. pose proof Hw as Hw'.
  apply write_file_ok in Hw'. simpl in Hw'.
  set (d := path_join (cwd w) "data") in *.
  set (p := path_join d "metro_data.csv") in *.
  destruct (path_join_prefix d) as (pre & Hlen & Hpre).
  assert (Hname : forall c b, is_slash c = false ->
            path_join d (String c b) <> d /\
            (String c b <> "metro_data.csv"%string ->
             path_join d (String c b) <> p)).
  { intros c b Hc. split.
    - rewrite (Hpre c b Hc). intros Heq. apply (f_equal String.length) in Heq.
      rewrite string_length_app in Heq. simpl in Heq. lia.
    - intros Hne Heq. unfold p in Heq.
      rewrite (Hpre c b Hc), (Hpre "m"%char "etro_data.csv" eq_refl) in Heq.
      now apply string_app_inj in Heq. }
  assert (Hpd : p <> d) by (apply (proj1 (Hname "m"%char "etro_data.csv" eq_refl))).
  assert (Hsame : forall c b, is_slash c = false -> String c b <> "metro_data.csv"%string ->
            fs w1 !! path_join d (String c b) = fs w !! path_join d (String c b)).
  { intros c b Hc Hne. destruct (Hname c b Hc) as [H1 H2]. rewrite Hw'. simpl.
    rewrite !lookup_insert_ne by (try congruence; intros Heq; now apply H2).
    reflexivity. }
  assert (Hcwd : cwd w1 = cwd w) by (rewrite Hw'; reflexivity).
  (* the same tables load *)
  destruct Hl as (L1 & L2 & L3 & L4). unfold data_path in L1, L2, L3, L4. fold d in L1, L2, L3, L4.
  apply (load_data_same_file _ _ w w1) in L1; [|apply Hsame; [reflexivity | discriminate]].
  apply (load_data_same_file _ _ w w1) in L2; [|apply Hsame; [reflexivity | discriminate]].
  apply (load_data_same_file _ _ w w1) in L3; [|apply Hsame; [reflexivity | discriminate]].
  apply (load_data_same_file _ _ w w1) in L4; [|apply Hsame; [reflexivity | discriminate]].
  (* saving again changes nothing *)
  assert (Hsave : create_dataframe.save_to_csv py metro "metro_data.csv" d w1 = (Ok tt, w1)).
  { unfold create_dataframe.save_to_csv, to_csv, bind, makedirs.
    assert (Hd : fs w1 !! d = Some Dir).
    { rewrite Hw'. simpl. rewrite lookup_insert_ne by congruence. apply lookup_insert_eq. }
    rewrite Hd. unfold write_file. simpl. fold p.
    rewrite lookup_insert_ne by congruence.
    assert (Hp : fs w1 !! p = Some (File (Csv (csv_text py metro)))).
    { rewrite Hw'. simpl. apply lookup_insert_eq. }
    rewrite Hp. f_equal. rewrite Hw' at 3. rewrite Hcwd. f_equal.
    apply map_eq. intros q. rewrite Hw'. simpl.
    destruct (String.eqb_spec q p) as [->|Hq].
    - now rewrite !lookup_insert_eq.
    - rewrite (lookup_insert_ne _ p q) by congruence.
      destruct (String.eqb_spec q d) as [->|Hqd].
      + rewrite lookup_insert_eq. rewrite lookup_insert_ne by congruence.
        now rewrite lookup_insert_eq.
      + now rewrite !lookup_insert_ne by congruence. }
  (* the run *)
  unfold create_dataframe.main.
  rewrite (bind_step getcwd _ w1 w1 (cwd w1) eq_refl). cbv beta zeta.
  rewrite Hcwd. fold d.
  rewrite (bind_step _ _ _ _ _ L1), (bind_step _ _ _ _ _ L2),
    (bind_step _ _ _ _ _ L3), (bind_step _ _ _ _ _ L4).
  rewrite (bind_lift _ _ _ _ A), (bind_lift _ _ _ _ B), (bind_lift _ _ _ _ C).
  rewrite (bind_lift _ _ _ _ D), (bind_lift _ _ _ _ E), (bind_lift _ _ _ _ F).
  assert (Emask : (try s <- getcol "route_type" final;
                   Ok (map (fun v => elem_eq v (num 1)) s))
                  = Ok (map (fun v => elem_eq v (num 1)) labels))
    by (rewrite G; reflexivity).
  rewrite (bind_lift _ _ _ _ Emask), (bind_lift _ _ _ _ I).
  rewrite <- Hm. rewrite (bind_step _ _ _ _ _ Hsave). reflexivity.
Qed.

End AssemblerAgain.

Section AssemblerAgainSample.
Import Pandas Os Rowwise Samples.

Lemma X19_assembler_rerun_witness :
  create_dataframe.main python (after_assembler world1)
  = (Ok (assembled world1), after_assembler world1).
Proof. apply (X19_assembler_rerun python world1). exact main_world1. Defined.

End AssemblerAgainSample.

(** ** The assembled rows, exactly *)

Section AssembledExactly.
Import Pandas Os Rowwise.
Context (py : PyLib).

Lemma Forall2_In_left {A B} (P : A -> B -> Prop) l l' a :
  Forall2 P l l' -> In a l -> exists b, In b l' /\ P a b.
Proof.
  induction 1 as [|x y l l' Hxy _ IH]; simpl; [tauto|].
  intros [<-|Hin]; [eauto|]. destruct (IH Hin) as (b & Hb & HP). eauto.
Qed.

(** Every row put together from four matching rows of the loaded tables is
    a row of the assembled table. *)
Lemma assembled_rows_in (w w' : World) (trips routes stops stop_times metro : DataFrame)
      (st sp tr ro m : row) :
  loaded w trips routes stops stop_times ->
  create_dataframe.main py w = (Ok metro, w') ->
  assembled_from py trips routes stops stop_times st sp tr ro m ->
  In m (rows metro).
Proof.
  intros Hl H (Hst & Hsp & Htr & Hro & Hc & Hk3 & Hk2 & lat & lon & t
               & Hlat & Hlon & Hk6 & Hrt & Hat & ->).
  apply main_ok in H
    as (trips' & routes' & stops' & stop_times' & kept & trt & fs0 & lats & lons & final
        & labels & seconds & Hl' & H1 & H2 & H3 & H4 & H5 & H6 & H7 & H8 & -> & _).
  destruct (loaded_fun _ _ _ _ _ _ _ _ _ Hl Hl') as (-> & -> & -> & ->). clear Hl'.
  apply process_stop_times_ok in H1 as (_ & _ & Hcst & Hrst).
  pose proof (merge_ok _ _ _ _ H3) as (_ & _ & Hc3 & Hr3).
  pose proof (merge_ok _ _ _ _ H2) as (_ & _ & Hc2 & Hr2).
  pose proof (merge_ok _ _ _ _ H6) as (_ & _ & Hc6 & Hr6).
  (* the join on stop_id *)
  assert (Hj : In (stop_join stops stop_times st sp) (rows fs0)).
  { rewrite Hr3. apply in_flat_map. exists (parse_times st). split.
    - rewrite Hrst. apply filter_In. split; [now apply in_map | assumption].
    - rewrite Hcst. apply in_map. apply filter_In. auto. }
  (* the coordinates *)
  apply rbind_ok in H4 as (s4 & Hs4 & H4). apply traverse_ok in H4.
  pose proof (setcol_rows_Forall2 _ "stop_lat" _ _ _ _ Hs4 H4) as HF4.
  destruct (Forall2_In_left _ _ _ _ HF4 Hj) as (r1 & Hr1 & v1 & Hv1 & ->).
  rewrite Hlat in Hv1. injection Hv1 as <-.
  apply rbind_ok in H5 as (s5 & Hs5 & H5). apply traverse_ok in H5.
  pose proof (setcol_rows_Forall2 _ "stop_lon" _ _ _ _ Hs5 H5) as HF5.
  destruct (Forall2_In_left _ _ _ _ HF5 Hr1) as (r2 & Hr2' & v2 & Hv2 & ->).
  rewrite Hlon in Hv2. injection Hv2 as <-.
  (* the join on route_id and the join on trip_id *)
  assert (Hrr : In (route_row trips routes tr ro) (rows trt)).
  { rewrite Hr2. apply in_flat_map. exists tr. split; [assumption|].
    apply in_map. apply filter_In. auto. }
  assert (Hfinal : In (final_row trips routes stops stop_times st sp tr ro lat lon)
                      (rows final)).
  { rewrite Hr6. apply in_flat_map.
    exists (stop_row stops stop_times st sp lat lon). split; [exact Hr2'|].
    simpl columns. rewrite Hc3, Hc2, Hcst. apply in_map_iff.
    exists (route_row trips routes tr ro). split; [reflexivity|].
    apply filter_In. auto. }
  (* the filter on route_type *)
  set (metro0 := loc (map (fun v => elem_eq v (num 1)) labels) final) in *.
  assert (Hm0 : In (final_row trips routes stops stop_times st sp tr ro lat lon)
                   (rows metro0)).
  { unfold metro0. rewrite (loc_eq_rows _ _ _ _ H7). apply filter_In.
    split; [assumption|]. apply elem_eq_true. unfold cell_of. rewrite Hrt.
    split; [reflexivity | discriminate]. }
  (* the two added columns *)
  apply rbind_ok in H8 as (s8 & Hs8 & H8). apply rbind_ok in H8 as (d8 & Hd8 & H8).
  pose proof (traverse_compose _ _ _ _ _ Hd8 H8) as HP.
  pose proof (setcol_rows_Forall2 _ "arrival_time_int" _ _ _ _ Hs8 HP) as HF.
  destruct (Forall2_In_left _ _ _ _ HF Hm0) as (r3 & Hr3' & v3 & Hv3 & ->).
  apply seconds_cell in Hv3 as (t' & Ht' & ->).
  unfold cell_of in Ht'. rewrite Hat in Ht'. injection Ht' as ->.
  rewrite setconst_rows. unfold metro_row. now apply in_map.
Qed.

(** X20: the rows of the assembled table are exactly the rows put together
    from a stop_times row without a missing value and with parsed times, a
    stops row with its stop_id, a trips row with its trip_id and a routes
    row of route_type 1 with that trip's route_id: each such combination
    gives a row, and there is no other row. *)
Theorem X20_assembled_rows_exactly (w w' : World)
        (trips routes stops stop_times metro : DataFrame) :
  loaded w trips routes stops stop_times ->
  create_dataframe.main py w = (Ok metro, w') ->
  forall m,
    In m (rows metro) <->
    exists st sp tr ro, assembled_from py trips routes stops stop_times st sp tr ro m.
Proof.
  intros Hl H m. split.
  - now apply (main_rows py w w').
  - intros (st & sp & tr & ro & Ha). eapply assembled_rows_in; eassumption.
Qed.

End AssembledExactly.

Section AssembledExactlySample.
Import Pandas Os Rowwise Samples.

Lemma X20_assembled_rows_exactly_witness :
  In (nth 0 (rows (assembled world1)) []) (rows (assembled world1)) <->
  exists st sp tr ro,
    assembled_from python (loaded_trips world1) (loaded_routes world1)
                   (loaded_stops world1) (loaded_stop_times world1)
                   st sp tr ro (nth 0 (rows (assembled world1)) []).
Proof.
  apply (X20_assembled_rows_exactly python world1 (after_assembler world1)
           (loaded_trips world1) (loaded_routes world1)
           (loaded_stops world1) (loaded_stop_times world1) (assembled world1)
           loaded_world1 main_world1).
Defined.

End AssembledExactlySample.

(** ** create_geojson_features without its columns *)

Section FeaturesErrors.
Import Pandas Geojson Os Linewise.

(** X21: [create_geojson_features] raises [KeyError] for
    [route_short_name] when the table has no such column, whatever the
    line, and for [trip_id] when that is the column that is not there. *)
Theorem X21_features_missing_column (df : DataFrame) (line : cell) :
  (~ In "route_short_name" (columns df) ->
   create_geojson_file.create_geojson_features df line
   = Raise (KeyError "route_short_name")) /\
  (In "route_short_name" (columns df) ->
   Forall (fun r => row_keys r = columns df) (rows df) ->
   ~ In "trip_id" (columns df) ->
   create_geojson_file.create_geojson_features df line = Raise (KeyError "trip_id")).
Proof.
  unfold create_geojson_file.create_geojson_features. split.
  - intros H. apply mem_str_not_In in H. unfold getcol at 1. now rewrite H.
  - intros Hc Hk Hn. rewrite getcol_total; [|assumption|].
    2:{ eapply Forall_impl; [|exact Hk]. intros r ->. assumption. }
    cbn [rbind]. unfold groupby, getcol. simpl columns.
    apply mem_str_not_In in Hn. now rewrite Hn.
Qed.

End FeaturesErrors.

Section FeaturesErrorsSample.
Import Pandas Geojson Os Linewise Samples.

Lemma X21_features_missing_column_witness :
  create_geojson_file.create_geojson_features
    (table ["route_short_name"; "stop_id"] [[Str "L1"; Str "S1"]]) (Str "L1")
  = Raise (KeyError "trip_id").
Proof.
  apply (proj2 (X21_features_missing_column
                  (table ["route_short_name"; "stop_id"] [[Str "L1"; Str "S1"]])
                  (Str "L1"))).
  - left. reflexivity.
  - constructor; [reflexivity | constructor].
  - intros [H|[H|[]]]; discriminate H.
Defined.

End FeaturesErrorsSample.
